(** * Task-management REST backend: route handlers over the Task and User collections

    A shallow embedding of [server/models/Task.js], [server/routes/tasks.js]
    and [server/routes/users.js].  A handler is a function from the store,
    the clock and the request to a response and the store afterwards.  What
    the handlers call in Mongoose and Express (casting an identifier, running
    a filter, saving, updating, validating) is written out as functions of the
    store; each says beside it which call of the source it stands for.

    What the model fixes:
    - a handler reads the clock once: every [new Date()] of one request is
      the same instant [now];
    - numbers are integers: [parseInt], [(page - 1) * limit] and
      [Math.ceil(total / limit)] are exact;
    - a request body holds one optional member per path of the schema, of
      the type the route's validators check for or, where none checks, of
      the type of the path; the body of the full update may also hold the
      update operator [$set], with members of the same kind;
    - a search parameter is a regular expression of the form [a|b|c]
      (alternatives of literal text), which covers plain text;
    - a string is held as its UTF-8 bytes; lengths and white space are
      counted in characters as the libraries count them; in a search, letter
      case is ASCII letter case and any other letter is compared as it is
      (how the database folds such letters is not in the sources). *)

From Stdlib Require Import ZArith List String Ascii Bool Lia.
Import ListNotations.
Set Warnings "-register-all".
Local Open Scope string_scope.
Local Open Scope Z_scope.

(** ** Strings

    A string is held as the bytes of its UTF-8 encoding, so that a literal
    of this file is the string it shows.  Equality of strings is equality of
    their bytes. *)

Fixpoint string_forallb (p : ascii -> bool) (s : string) : bool :=
  match s with
  | EmptyString => true
  | String c r => p c && string_forallb p r
  end.

Fixpoint string_map (f : ascii -> ascii) (s : string) : string :=
  match s with
  | EmptyString => EmptyString
  | String c r => String (f c) (string_map f r)
  end.

Definition between (lo hi : nat) (c : ascii) : bool :=
  let n := nat_of_ascii c in (lo <=? n)%nat && (n <=? hi)%nat.

Definition isDigit (c : ascii) : bool := between 48 57 c.
Definition isUpper (c : ascii) : bool := between 65 90 c.
Definition isHexDigit (c : ascii) : bool :=
  isDigit c || between 97 102 c || between 65 70 c.

(** [toLowerCase] on one ASCII character; a byte of another character is
    left as it is. *)
Definition toLower (c : ascii) : ascii :=
  if isUpper c then ascii_of_nat (nat_of_ascii c + 32) else c.

(** A byte that continues a character ([10xxxxxx]); every other byte
    starts one. *)
Definition isContinuation (c : ascii) : bool := between 128 191 c.

(** [s.length], the number of UTF-16 units of the string: one for a
    character, two for a character beyond U+FFFF (whose first byte is [F0]
    or more).  This is the length the schema's [maxlength] compares. *)
Fixpoint length16 (s : string) : Z :=
  match s with
  | EmptyString => 0
  | String c r =>
      (if isContinuation c then 0 else if between 240 255 c then 2 else 1)
      + length16 r
  end.

(** Does the string start with a variation selector, U+FE0E or U+FE0F
    ([EF B8 8E], [EF B8 8F])? *)
Definition starts_selector (s : string) : bool :=
  match s with
  | String a (String b (String c _)) =>
      (nat_of_ascii a =? 239)%nat && (nat_of_ascii b =? 184)%nat
      && between 142 143 c
  | _ => false
  end.

(** The length [isLength] of the validation library compares:
    [str.length] less the surrogate pairs and less the variation selectors,
    which is the number of characters that are no variation selector. *)
Fixpoint strlen (s : string) : Z :=
  match s with
  | EmptyString => 0
  | String c r =>
      (if isContinuation c || starts_selector (String c r) then 0 else 1)
      + strlen r
  end.

(** The white space [trim] removes, in the validation library as in
    [String.prototype.trim]: U+0009 to U+000D, U+0020, U+00A0, U+1680,
    U+2000 to U+200A, U+2028, U+2029, U+202F, U+205F, U+3000 and U+FEFF,
    each as its bytes. *)
Definition whiteSpace : list (list ascii) :=
  map (map ascii_of_nat)
    [[9]; [10]; [11]; [12]; [13]; [32]; [194; 160]; [225; 154; 128];
     [226; 128; 128]; [226; 128; 129]; [226; 128; 130]; [226; 128; 131];
     [226; 128; 132]; [226; 128; 133]; [226; 128; 134]; [226; 128; 135];
     [226; 128; 136]; [226; 128; 137]; [226; 128; 138]; [226; 128; 168];
     [226; 128; 169]; [226; 128; 175]; [226; 129; 159]; [227; 128; 128];
     [239; 187; 191]]%nat.

(** What is left of [l] after the prefix [p], when [l] starts with it. *)
Fixpoint dropPrefix (p l : list ascii) : option (list ascii) :=
  match p with
  | [] => Some l
  | a :: p' =>
      match l with
      | b :: l' => if Ascii.eqb a b then dropPrefix p' l' else None
      | [] => None
      end
  end.

(** One of the sequences [sp] off the front, when the bytes start with
    one. *)
Fixpoint dropOne (sp : list (list ascii)) (l : list ascii)
  : option (list ascii) :=
  match sp with
  | [] => None
  | p :: rest =>
      match dropPrefix p l with
      | Some r => Some r
      | None => dropOne rest l
      end
  end.

(** The sequences [sp] off the front for as long as there is one, in at
    most [n] steps. *)
Fixpoint dropAll (sp : list (list ascii)) (n : nat) (l : list ascii)
  : list ascii :=
  match n with
  | O => l
  | S n' =>
      match dropOne sp l with
      | Some r => dropAll sp n' r
      | None => l
      end
  end.

Definition ltrim (l : list ascii) : list ascii :=
  dropAll whiteSpace (List.length l) l.

(** White space off the end: off the front of the bytes read backwards. *)
Definition rtrim (l : list ascii) : list ascii :=
  rev (dropAll (map (@rev ascii) whiteSpace) (List.length l) (rev l)).

Definition trim (s : string) : string :=
  string_of_list_ascii (rtrim (ltrim (list_ascii_of_string s))).

Definition isIn (s : string) (l : list string) : bool :=
  existsb (String.eqb s) l.

(** ** Identifiers and dates *)

(** An [ObjectId] is kept in the form [toString()] gives it: 24 lower-case
    hexadecimal digits.  Every comparison of identifiers in the routes goes
    through [toString()]. *)
Definition ObjectId := string.

(** The cast Mongoose applies to the [:id] parameter before a query
    ([findById], [findByIdAndUpdate], [findByIdAndDelete]): a string of 24
    hexadecimal digits, either case, names an identifier; any other string
    raises a [CastError] of kind ['ObjectId'] ([None] here).  The 12-byte
    strings some versions of the driver also take for identifiers are left
    out. *)
Definition castObjectId (s : string) : option ObjectId :=
  if (String.length s =? 24)%nat && string_forallb isHexDigit s
  then Some (string_map toLower s)
  else None.

(** A [Date] as milliseconds since the epoch. *)
Definition Date := Z.

(** ** JSON values and responses *)

Inductive JSON : Type :=
| JNull
| JBool (b : bool)
| JNum (n : Z)
| JStr (s : string)
| JArr (items : list JSON)
| JObj (fields : list (string * JSON)).

(** [res.json] leaves out a property whose value is [undefined]. *)
Definition optField {A} (k : string) (f : A -> JSON) (v : option A)
  : list (string * JSON) :=
  match v with
  | Some a => [(k, f a)]
  | None => []
  end.

(** Does the key [k] occur in an object anywhere inside [j]? *)
Fixpoint hasKey (k : string) (j : JSON) : bool :=
  match j with
  | JArr items => existsb (hasKey k) items
  | JObj fields =>
      existsb (fun kv => match kv with
                         | (k', v) => String.eqb k' k || hasKey k v
                         end) fields
  | _ => false
  end.

(** The value under the top-level key [k] of an object. *)
Fixpoint assoc (k : string) (fields : list (string * JSON)) : option JSON :=
  match fields with
  | [] => None
  | (k', v) :: rest => if String.eqb k' k then Some v else assoc k rest
  end.

Definition property (k : string) (j : JSON) : option JSON :=
  match j with
  | JObj fields => assoc k fields
  | _ => None
  end.

Record Response : Type := mkResponse { statusCode : Z; body : JSON }.

(** [res.json(b)] and [res.status(c).json(b)]. *)
Definition json (b : JSON) : Response := mkResponse 200 b.
Definition status_json (c : Z) (b : JSON) : Response := mkResponse c b.
Definition message (m : string) : JSON := JObj [("message", JStr m)].

(** ** Control flow of a handler

    Every handler is one [try { ... } catch (error) { ... }].  Inside the
    [try], a step either goes on with a value, ends the handler with a
    response ([return res...]), or throws.  The only thing a [catch] reads of
    the error is whether [error.kind === 'ObjectId']. *)

Inductive JsError : Type :=
| CastError_ObjectId   (* Mongoose CastError, kind 'ObjectId' *)
| ValidationError      (* Mongoose ValidationError *)
| TypeError            (* property read on null *)
| MongoServerError.    (* the database refused the command *)

Definition kind_is_ObjectId (e : JsError) : bool :=
  match e with
  | CastError_ObjectId => true
  | _ => false
  end.

Inductive Step (A : Type) : Type :=
| Next (a : A)
| Done (r : Response)
| Thrown (e : JsError).
Arguments Next {A} a.
Arguments Done {A} r.
Arguments Thrown {A} e.

Definition bind {A B} (m : Step A) (k : A -> Step B) : Step B :=
  match m with
  | Next a => k a
  | Done r => Done r
  | Thrown e => Thrown e
  end.

Notation "x <- m ;; k" := (bind m (fun x => k))
  (at level 61, m at next level, right associativity).
Notation "'check' c 'orelse' r ;; k" := (if c then k else Done r)
  (at level 61, c at next level, r at next level, right associativity).

Definition orThrow {A} (e : JsError) (o : option A) : Step A :=
  match o with
  | Some a => Next a
  | None => Thrown e
  end.

(** The [catch] of the by-identifier routes: 400 with [invalid] for a
    [CastError] on an identifier, 500 otherwise. *)
Definition catch_id (invalid : string) (m : Step Response) : Response :=
  match m with
  | Next r => r
  | Done r => r
  | Thrown e =>
      if kind_is_ObjectId e
      then status_json 400 (message invalid)
      else status_json 500 (message "Server error")
  end.

(** The same [catch] for a handler that writes: a handler that ends early or
    throws has written nothing, every write being the last thing it does. *)
Definition catch_id_write {S} (invalid : string) (before : S)
  (m : Step (Response * S)) : Response * S :=
  match m with
  | Next rs => rs
  | Done r => (r, before)
  | Thrown e => (catch_id invalid (Thrown e), before)
  end.

(** The [catch] of the list routes: always 500. *)
Definition catch_500 (m : Step Response) : Response :=
  match m with
  | Next r => r
  | Done r => r
  | Thrown _ => status_json 500 (message "Server error")
  end.

(** ** Collections *)

Section Collection.
Context {A : Type} (key : A -> ObjectId).

(** [Model.findById]. *)
Definition findById (oid : ObjectId) (l : list A) : option A :=
  find (fun a => String.eqb (key a) oid) l.

(** The write of [findByIdAndUpdate] and of [save]: the first document with
    the identifier is replaced. *)
Fixpoint updateOne (oid : ObjectId) (f : A -> A) (l : list A) : list A :=
  match l with
  | [] => []
  | a :: r =>
      if String.eqb (key a) oid then f a :: r else a :: updateOne oid f r
  end.

(** [Model.findByIdAndDelete]. *)
Fixpoint deleteOne (oid : ObjectId) (l : list A) : list A :=
  match l with
  | [] => []
  | a :: r => if String.eqb (key a) oid then r else a :: deleteOne oid r
  end.
End Collection.

(** ** The Task model (models/Task.js) *)

Module Task.

Record t : Type := mk {
  _id : ObjectId;
  title : string;
  description : option string;
  status : string;
  priority : string;
  dueDate : option Date;
  completedAt : option Date;
  tags : list string;
  assignedTo : option ObjectId;
  createdBy : ObjectId;
  isPublic : bool;
  createdAt : Date;
  updatedAt : Date
}.

Definition set_status (s : string) (x : t) : t :=
  mk (_id x) (title x) (description x) s (priority x) (dueDate x)
     (completedAt x) (tags x) (assignedTo x) (createdBy x) (isPublic x)
     (createdAt x) (updatedAt x).

Definition set_completedAt (c : option Date) (x : t) : t :=
  mk (_id x) (title x) (description x) (status x) (priority x) (dueDate x)
     c (tags x) (assignedTo x) (createdBy x) (isPublic x)
     (createdAt x) (updatedAt x).

Definition set_assignedTo (a : option ObjectId) (x : t) : t :=
  mk (_id x) (title x) (description x) (status x) (priority x) (dueDate x)
     (completedAt x) (tags x) a (createdBy x) (isPublic x)
     (createdAt x) (updatedAt x).

Definition set_updatedAt (u : Date) (x : t) : t :=
  mk (_id x) (title x) (description x) (status x) (priority x) (dueDate x)
     (completedAt x) (tags x) (assignedTo x) (createdBy x) (isPublic x)
     (createdAt x) u.

Definition statuses : list string :=
  ["pending"; "in-progress"; "completed"; "cancelled"].
Definition priorities : list string := ["low"; "medium"; "high"; "urgent"].

(** The validator of [dueDate]: [!v || v > new Date()]. *)
Definition dueDate_ok (now : Date) (v : option Date) : bool :=
  match v with
  | None => true
  | Some d => now <? d
  end.

(** The schema's validators (Task.js, lines 4-54) on a whole document:
    what [save] checks before the pre-save hooks run. *)
Definition validate (now : Date) (x : t) : bool :=
  negb (String.eqb (title x) "") && (length16 (title x) <=? 100)
  && match description x with Some d => length16 d <=? 500 | None => true end
  && isIn (status x) statuses
  && isIn (priority x) priorities
  && dueDate_ok now (dueDate x)
  && forallb (fun g => length16 g <=? 20) (tags x).

(** The virtual [isOverdue] (lines 62-65). *)
Definition isOverdue (now : Date) (x : t) : bool :=
  match dueDate x with
  | None => false
  | Some d => if String.eqb (status x) "completed" then false else d <? now
  end.

(** The virtual [age] (lines 68-70), in whole days. *)
Definition age (now : Date) (x : t) : Z :=
  (now - createdAt x) / (1000 * 60 * 60 * 24).

End Task.

(** A task as a Mongoose document in a handler: its fields, what
    [isModified('status')] answers, and whether another path is modified.
    An assignment marks the path modified when it changes the value. *)
Record TaskDoc : Type := mkDoc {
  fields : Task.t;
  modified_status : bool;
  modified_other : bool
}.

(** A document as [findById] returns it. *)
Definition hydrate (x : Task.t) : TaskDoc := mkDoc x false false.

(** [doc.isModified()]. *)
Definition isModified (d : TaskDoc) : bool :=
  modified_status d || modified_other d.

Definition same_date (a b : option Date) : bool :=
  match a, b with
  | Some x, Some y => x =? y
  | None, None => true
  | _, _ => false
  end.

(** [task.status = s]. *)
Definition assign_status (s : string) (d : TaskDoc) : TaskDoc :=
  mkDoc (Task.set_status s (fields d))
        (modified_status d || negb (String.eqb s (Task.status (fields d))))
        (modified_other d).

(** [task.completedAt = c]. *)
Definition assign_completedAt (c : option Date) (d : TaskDoc) : TaskDoc :=
  mkDoc (Task.set_completedAt c (fields d))
        (modified_status d)
        (modified_other d || negb (same_date c (Task.completedAt (fields d)))).

Definition isSome {A} (o : option A) : bool :=
  match o with Some _ => true | None => false end.

(** The hook of [timestamps: true]: a modified document gets a new
    [updatedAt]. *)
Definition timestampsPreSave (now : Date) (d : TaskDoc) : TaskDoc :=
  if isModified d
  then mkDoc (Task.set_updatedAt now (fields d))
             (modified_status d) (modified_other d)
  else d.

(** [taskSchema.pre('save')] (Task.js, lines 80-87). *)
Definition preSave (now : Date) (d : TaskDoc) : TaskDoc :=
  if modified_status d
     && String.eqb (Task.status (fields d)) "completed"
     && negb (isSome (Task.completedAt (fields d)))
  then assign_completedAt (Some now) d
  else if modified_status d
          && negb (String.eqb (Task.status (fields d)) "completed")
  then assign_completedAt None d
  else d.

(** [doc.save()] of a document that is in the collection: the schema's
    validators on the whole document, then the pre-save hooks in the order
    the schema registered them, then the write.  A validator that fails throws a
    [ValidationError] and nothing is written. *)
Definition save (now : Date) (d : TaskDoc) (tasks : list Task.t)
  : Step (list Task.t) :=
  if Task.validate now (fields d)
  then
    let d' := preSave now (timestampsPreSave now d) in
    Next (updateOne Task._id (Task._id (fields d')) (fun _ => fields d') tasks)
  else Thrown ValidationError.

(** [taskSchema.methods.markComplete] (lines 109-113). *)
Definition markComplete (now : Date) (d : TaskDoc) (tasks : list Task.t)
  : Step (list Task.t) :=
  save now (assign_completedAt (Some now) (assign_status "completed" d)) tasks.

(** [taskSchema.methods.assignTo] (lines 116-119). *)
Definition assignTo (now : Date) (userId : ObjectId) (d : TaskDoc)
  (tasks : list Task.t) : Step (list Task.t) :=
  save now
       (mkDoc (Task.set_assignedTo (Some userId) (fields d))
              (modified_status d)
              (modified_other d
               || negb (match Task.assignedTo (fields d) with
                        | Some a => String.eqb a userId
                        | None => false
                        end)))
       tasks.

(** ** The User collection

    Modelled from the spec: [models/User.js] is not among the sources.  The
    record holds the fields the spec's data model lists for a user: identity
    (username, email), hashed password, role ([user] or [admin]), active
    flag, created and updated timestamps.  [password] is [None] in a
    document whose query deselected the path ([.select('-password')]). *)

Module User.

Record t : Type := mk {
  _id : ObjectId;
  username : string;
  email : string;
  password : option string;
  role : string;
  isActive : bool;
  createdAt : Date;
  updatedAt : Date
}.

(** [.select('-password')]. *)
Definition select_minus_password (u : t) : t :=
  mk (_id u) (username u) (email u) None (role u) (isActive u)
     (createdAt u) (updatedAt u).

End User.

(** The document store: the two collections. *)
Record Db : Type := mkDb { tasks : list Task.t; users : list User.t }.

Definition with_tasks (ts : list Task.t) (db : Db) : Db := mkDb ts (users db).
Definition with_users (us : list User.t) (db : Db) : Db := mkDb (tasks db) us.

(** ** Population and serialisation of a task *)

(** What [populate(path, 'username email')] puts in place of a reference:
    the selected fields of the user and its [_id]. *)
Record UserRef : Type := mkRef {
  ref_id : ObjectId;
  ref_username : string;
  ref_email : option string
}.

(** A reference after [populate]: the user's fields, or [null] when no user
    has the identifier. *)
Definition populate_ref (withEmail : bool) (us : list User.t) (oid : ObjectId)
  : option UserRef :=
  match findById User._id oid us with
  | Some u =>
      Some (mkRef (User._id u) (User.username u)
                  (if withEmail then Some (User.email u) else None))
  | None => None
  end.

(** A task after [.populate('assignedTo', ..).populate('createdBy', ..)].
    [p_createdBy] is [None] for [null]; [p_assignedTo] is [None] when the task
    has no assignee ([undefined]) and [Some None] when the assignee's user
    is gone ([null]). *)
Record PopulatedTask : Type := mkPop {
  p_task : Task.t;
  p_assignedTo : option (option UserRef);
  p_createdBy : option UserRef
}.

Definition populate (db : Db) (x : Task.t) : PopulatedTask :=
  mkPop x
        (option_map (populate_ref true (users db)) (Task.assignedTo x))
        (populate_ref true (users db) (Task.createdBy x)).

(** [Task.find({ isPublic: true }).populate('createdBy', 'username')]: the
    assignee stays a bare identifier. *)
Definition populate_createdBy (db : Db) (x : Task.t) : PopulatedTask :=
  mkPop x None (populate_ref false (users db) (Task.createdBy x)).

Definition refJSON (r : UserRef) : JSON :=
  JObj ([("_id", JStr (ref_id r)); ("username", JStr (ref_username r))]
        ++ optField "email" JStr (ref_email r)).

Definition nullable {A} (f : A -> JSON) (o : option A) : JSON :=
  match o with
  | Some a => f a
  | None => JNull
  end.

(** [toJSON] of a populated task, virtuals included ([toJSON: { virtuals:
    true }]).  A date is written as its milliseconds. *)
Definition taskJSON (now : Date) (p : PopulatedTask) : JSON :=
  let x := p_task p in
  JObj ([("_id", JStr (Task._id x)); ("title", JStr (Task.title x))]
        ++ optField "description" JStr (Task.description x)
        ++ [("status", JStr (Task.status x));
            ("priority", JStr (Task.priority x))]
        ++ optField "dueDate" JNum (Task.dueDate x)
        ++ optField "completedAt" JNum (Task.completedAt x)
        ++ [("tags", JArr (map JStr (Task.tags x)))]
        ++ match p_assignedTo p with
           | Some a => [("assignedTo", nullable refJSON a)]
           | None => optField "assignedTo" JStr (Task.assignedTo x)
           end
        ++ [("createdBy", nullable refJSON (p_createdBy p));
            ("isPublic", JBool (Task.isPublic x));
            ("createdAt", JNum (Task.createdAt x));
            ("updatedAt", JNum (Task.updatedAt x));
            ("isOverdue", JBool (Task.isOverdue now x));
            ("age", JNum (Task.age now x));
            ("id", JStr (Task._id x))]).

(** ** Requests on a task *)

(** The members of a request body that are named after a path of the
    schema, each optional.  Members the route's validators type-check
    ([isISO8601], [isArray], [isBoolean]) carry a value of that type; the
    two references are the strings the client sent. *)
Record TaskBody : Type := mkBody {
  b_title : option string;
  b_description : option string;
  b_status : option string;
  b_priority : option string;
  b_dueDate : option Date;
  b_completedAt : option Date;
  b_tags : option (list string);
  b_assignedTo : option string;
  b_createdBy : option string;
  b_isPublic : option bool
}.

(** The body of [PUT /api/tasks/:id], which the route hands whole to
    [findByIdAndUpdate]: the members named after a path, and beside them
    the update operator [$set] with the members it holds, which no
    validator of the route reads.  Of the update operators [$set] is the
    one modelled. *)
Record UpdateBody : Type := mkUpdate {
  members : TaskBody;
  op_set : option TaskBody       (* $set: { ... } *)
}.

(** A body that holds no update operator. *)
Definition no_operator (b : TaskBody) : UpdateBody := mkUpdate b None.
Coercion no_operator : TaskBody >-> UpdateBody.

(** [delete updates.createdBy]: the member of the body itself. *)
Definition delete_createdBy (b : TaskBody) : TaskBody :=
  mkBody (b_title b) (b_description b) (b_status b) (b_priority b)
         (b_dueDate b) (b_completedAt b) (b_tags b) (b_assignedTo b)
         None (b_isPublic b).

(** One entry of [errors.array()]. *)
Definition fieldError (path value msg : string) : JSON :=
  JObj [("type", JStr "field"); ("value", JStr value); ("msg", JStr msg);
        ("path", JStr path); ("location", JStr "body")].

Definition validationFailed (errors : list JSON) : Response :=
  status_json 400
    (JObj [("message", JStr "Validation failed"); ("errors", JArr errors)]).

(** An optional member under a validator: no error when it is absent. *)
Definition optional (path msg : string) (ok : string -> bool)
  (v : option string) : list JSON :=
  match v with
  | Some s => if ok s then [] else [fieldError path s msg]
  | None => []
  end.

(** The sanitizers of the chain ([trim] on title and description): they
    rewrite [req.body] before the validators read it. *)
Definition sanitize_put (b : TaskBody) : TaskBody :=
  mkBody (option_map trim (b_title b)) (option_map trim (b_description b))
         (b_status b) (b_priority b) (b_dueDate b) (b_completedAt b)
         (b_tags b) (b_assignedTo b) (b_createdBy b) (b_isPublic b).

(** [validationResult(req).array()] for the chain of [PUT /api/tasks/:id]
    (tasks.js, lines 230-261), on the sanitized body. *)
Definition validate_put (b : TaskBody) : list JSON :=
  optional "title" "Task title must be less than 100 characters"
           (fun s => (1 <=? strlen s) && (strlen s <=? 100)) (b_title b)
  ++ optional "description" "Description must be less than 500 characters"
           (fun s => strlen s <=? 500) (b_description b)
  ++ optional "status"
           "Status must be pending, in-progress, completed, or cancelled"
           (fun s => isIn s Task.statuses) (b_status b)
  ++ optional "priority" "Priority must be low, medium, high, or urgent"
           (fun s => isIn s Task.priorities) (b_priority b).

(** The chain of [PATCH /api/tasks/:id/status] (lines 310-314): [status] is
    not optional. *)
Definition validate_patch (status : option string) : list JSON :=
  match status with
  | Some s =>
      if isIn s Task.statuses then []
      else [fieldError "status" s
              "Status must be pending, in-progress, completed, or cancelled"]
  | None =>
      [JObj [("type", JStr "field");
             ("msg", JStr
                "Status must be pending, in-progress, completed, or cancelled");
             ("path", JStr "status"); ("location", JStr "body")]]
  end.

Definition isEmpty {A} (l : list A) : bool :=
  match l with [] => true | _ => false end.

(** ** [Task.findByIdAndUpdate(id, updates, { new: true, runValidators: true })] *)

Definition orElse {A} (new : option A) (old : A) : A :=
  match new with Some a => a | None => old end.

Definition orKeep {A} (new old : option A) : option A :=
  match new with Some a => Some a | None => old end.

(** The update as Mongoose reads it: a member beside the operators is moved
    into [$set], over what [$set] holds under the same key. *)
Definition set_sugar (updates : UpdateBody) : TaskBody :=
  match op_set updates with
  | None => members updates
  | Some s =>
      let b := members updates in
      mkBody (orKeep (b_title b) (b_title s))
             (orKeep (b_description b) (b_description s))
             (orKeep (b_status b) (b_status s))
             (orKeep (b_priority b) (b_priority s))
             (orKeep (b_dueDate b) (b_dueDate s))
             (orKeep (b_completedAt b) (b_completedAt s))
             (orKeep (b_tags b) (b_tags s))
             (orKeep (b_assignedTo b) (b_assignedTo s))
             (orKeep (b_createdBy b) (b_createdBy s))
             (orKeep (b_isPublic b) (b_isPublic s))
  end.

Definition cast_ref (v : option string) : Step (option ObjectId) :=
  match v with
  | None => Next None
  | Some s => o <- orThrow CastError_ObjectId (castObjectId s) ;; Next (Some o)
  end.

(** The update cast against the schema: strings with [trim: true] are
    trimmed, references become identifiers or raise a [CastError]. *)
Definition castUpdate (b : TaskBody) : Step TaskBody :=
  a <- cast_ref (b_assignedTo b) ;;
  c <- cast_ref (b_createdBy b) ;;
  Next (mkBody (option_map trim (b_title b))
               (option_map trim (b_description b))
               (b_status b) (b_priority b) (b_dueDate b) (b_completedAt b)
               (option_map (map trim) (b_tags b)) a c (b_isPublic b)).

(** [runValidators: true]: the schema's validators on the paths the update
    sets. *)
Definition validate_update (now : Date) (u : TaskBody) : bool :=
  match b_title u with
  | Some s => negb (String.eqb s "") && (length16 s <=? 100)
  | None => true
  end
  && match b_description u with Some d => length16 d <=? 500 | None => true end
  && match b_status u with Some s => isIn s Task.statuses | None => true end
  && match b_priority u with Some s => isIn s Task.priorities | None => true end
  && Task.dueDate_ok now (b_dueDate u)
  && match b_tags u with
     | Some l => forallb (fun g => length16 g <=? 20) l
     | None => true
     end.


(** The [$set] of a cast update: each path the update holds is overwritten,
    the others stay; [timestamps: true] stamps [updatedAt].  No [save]
    middleware runs on this path. *)
Definition apply_update (now : Date) (u : TaskBody) (x : Task.t) : Task.t :=
  Task.mk (Task._id x)
          (orElse (b_title u) (Task.title x))
          (orKeep (b_description u) (Task.description x))
          (orElse (b_status u) (Task.status x))
          (orElse (b_priority u) (Task.priority x))
          (orKeep (b_dueDate u) (Task.dueDate x))
          (orKeep (b_completedAt u) (Task.completedAt x))
          (orElse (b_tags u) (Task.tags x))
          (orKeep (b_assignedTo u) (Task.assignedTo x))
          (orElse (b_createdBy u) (Task.createdBy x))
          (orElse (b_isPublic u) (Task.isPublic x))
          (Task.createdAt x)
          now.

(** The collection after the update and the document [new: true] returns. *)
Definition findByIdAndUpdate (now : Date) (oid : ObjectId)
  (updates : UpdateBody) (ts : list Task.t)
  : Step (list Task.t * option Task.t) :=
  u <- castUpdate (set_sugar updates) ;;
  if validate_update now u
  then
    let ts' := updateOne Task._id oid (apply_update now u) ts in
    Next (ts', findById Task._id oid ts')
  else Thrown ValidationError.

(** ** The by-identifier routes of routes/tasks.js *)

Definition notFound (what : string) : Response :=
  status_json 404 (message (what ++ " not found")).
Definition accessDenied : Response := status_json 403 (message "Access denied").

Definition taskReply (now : Date) (db : Db) (msg : string) (x : option Task.t)
  : JSON :=
  JObj [("message", JStr msg);
        ("task", nullable (taskJSON now) (option_map (populate db) x))].

(** [GET /api/tasks/:id] (lines 131-156). *)
Definition get_task (db : Db) (now : Date) (user : User.t) (id : string)
  : Response :=
  catch_id "Invalid task ID" (
    oid <- orThrow CastError_ObjectId (castObjectId id) ;;
    match findById Task._id oid (tasks db) with
    | None => Done (notFound "Task")
    | Some x =>
        let task := populate db x in
        denied <-
          (if negb (Task.isPublic x)
           then
             (* task.createdBy._id: a TypeError when populate left null *)
             c <- orThrow TypeError (p_createdBy task) ;;
             Next (negb (String.eqb (ref_id c) (User._id user))
                   && match p_assignedTo task with
                      | Some (Some a) =>
                          negb (String.eqb (ref_id a) (User._id user))
                      | _ => true
                      end)
           else Next false) ;;
        check negb denied orelse accessDenied ;;
        Next (json (JObj [("task", taskJSON now task)]))
    end).

(** [PUT /api/tasks/:id] (lines 230-305). *)
Definition put_task (db : Db) (now : Date) (user : User.t) (id : string)
  (reqBody : UpdateBody) : Response * Db :=
  catch_id_write "Invalid task ID" db (
    let body := sanitize_put (members reqBody) in
    let errors := validate_put body in
    check isEmpty errors orelse validationFailed errors ;;
    oid <- orThrow CastError_ObjectId (castObjectId id) ;;
    match findById Task._id oid (tasks db) with
    | None => Done (notFound "Task")
    | Some task =>
        check String.eqb (Task.createdBy task) (User._id user)
          orelse accessDenied ;;
        let updates := mkUpdate (delete_createdBy body) (op_set reqBody) in
        r <- findByIdAndUpdate now oid updates (tasks db) ;;
        let db' := with_tasks (fst r) db in
        Next (json (taskReply now db' "Task updated successfully" (snd r)), db')
    end).

(** The validated [req.body.status] of the status route. *)
Definition checked_status (status : option string) : Step string :=
  match status with
  | Some s =>
      check isIn s Task.statuses orelse validationFailed (validate_patch status) ;;
      Next s
  | None => Done (validationFailed (validate_patch status))
  end.

(** May [user] change the status of [task]?  (lines 332-333) *)
Definition may_set_status (user : User.t) (task : Task.t) : bool :=
  negb (negb (String.eqb (Task.createdBy task) (User._id user))
        && match Task.assignedTo task with
           | None => true
           | Some a => negb (String.eqb a (User._id user))
           end).

(** [PATCH /api/tasks/:id/status] (lines 310-361). *)
Definition patch_status (db : Db) (now : Date) (user : User.t) (id : string)
  (status : option string) : Response * Db :=
  catch_id_write "Invalid task ID" db (
    s <- checked_status status ;;
    oid <- orThrow CastError_ObjectId (castObjectId id) ;;
    match findById Task._id oid (tasks db) with
    | None => Done (notFound "Task")
    | Some x =>
        check may_set_status user x orelse accessDenied ;;
        let task := assign_status s (hydrate x) in
        let task :=
          if String.eqb s "completed"
          then assign_completedAt (Some now) task
          else assign_completedAt None task in
        ts <- save now task (tasks db) ;;
        let db' := with_tasks ts db in
        Next (json (taskReply now db' "Task status updated successfully"
                      (findById Task._id (Task._id x) ts)), db')
    end).

(** [DELETE /api/tasks/:id] (lines 366-389). *)
Definition delete_task (db : Db) (user : User.t) (id : string)
  : Response * Db :=
  catch_id_write "Invalid task ID" db (
    oid <- orThrow CastError_ObjectId (castObjectId id) ;;
    match findById Task._id oid (tasks db) with
    | None => Done (notFound "Task")
    | Some task =>
        check String.eqb (Task.createdBy task) (User._id user)
          orelse accessDenied ;;
        Next (json (message "Task deleted successfully"),
              with_tasks (deleteOne Task._id oid (tasks db)) db)
    end).

(** ** Regular expressions of the search routes

    [new RegExp(search, 'i')] reads its argument as a pattern.  The patterns
    modelled are the alternations of literal text, [a|b|c]: the request
    carries the pattern, and [source] is the string the client sent.  A
    pattern of one alternative is plain text.  Other patterns, and the
    strings [new RegExp] rejects, are outside the model.  Under the flag
    [i] the case of an ASCII letter is ignored; any other character matches
    itself only, the database's folding of such characters not being in
    the sources. *)

Inductive Pattern : Type := Alt (first : string) (rest : list string).

Definition alternatives (p : Pattern) : list string :=
  match p with Alt a r => a :: r end.

(** The syntax characters of a pattern: [^ $ \ . * + ? ( ) [ ] { } |]. *)
Definition isSyntaxChar (c : ascii) : bool :=
  existsb (Ascii.eqb c)
    ["^"; "$"; "\"; "."; "*"; "+"; "?"; "("; ")"; "["; "]"; "{"; "}"; "|"]%char.

(** Literal text as a pattern writes it: a syntax character is escaped. *)
Fixpoint escape (s : string) : string :=
  match s with
  | EmptyString => EmptyString
  | String c r =>
      if isSyntaxChar c then String "\" (String c (escape r))
      else String c (escape r)
  end.

Definition source (p : Pattern) : string :=
  match p with
  | Alt a r => escape a ++ String.concat "" (map (fun b => "|" ++ escape b) r)
  end.

(** Text with no syntax character: its pattern is the text itself. *)
Definition plain (s : string) : bool :=
  string_forallb (fun c => negb (isSyntaxChar c)) s.

Fixpoint ci_prefix (needle hay : string) : bool :=
  match needle with
  | EmptyString => true
  | String a n =>
      match hay with
      | EmptyString => false
      | String b h => Ascii.eqb (toLower a) (toLower b) && ci_prefix n h
      end
  end.

(** Does [needle] occur in [hay], letter case ignored? *)
Fixpoint ci_contains (needle hay : string) : bool :=
  ci_prefix needle hay
  || match hay with
     | EmptyString => false
     | String _ h => ci_contains needle h
     end.

(** [regex.test(s)] under the flag [i]: some alternative occurs in [s]. *)
Definition test (re : Pattern) (s : string) : bool :=
  existsb (fun a => ci_contains a s) (alternatives re).

(** ** Filters of [find] and [countDocuments] on tasks *)

Inductive Filter : Type :=
| F_or (fs : list Filter)            (* $or: [...] *)
| F_and (fs : list Filter)           (* $and: [...] *)
| F_createdBy (u : ObjectId)         (* createdBy: u *)
| F_assignedTo (u : ObjectId)        (* assignedTo: u *)
| F_isPublic (b : bool)              (* isPublic: b *)
| F_status (s : string)              (* status: s *)
| F_priority (s : string)            (* priority: s *)
| F_title (re : Pattern)             (* title: re *)
| F_description (re : Pattern)       (* description: re *)
| F_tags_in (res : list Pattern).    (* tags: { $in: [...] } *)

Fixpoint matches (f : Filter) (x : Task.t) : bool :=
  match f with
  | F_or fs => existsb (fun g => matches g x) fs
  | F_and fs => forallb (fun g => matches g x) fs
  | F_createdBy u => String.eqb (Task.createdBy x) u
  | F_assignedTo u =>
      match Task.assignedTo x with
      | Some a => String.eqb a u
      | None => false
      end
  | F_isPublic b => Bool.eqb (Task.isPublic x) b
  | F_status s => String.eqb (Task.status x) s
  | F_priority s => String.eqb (Task.priority x) s
  | F_title re => test re (Task.title x)
  | F_description re =>
      match Task.description x with
      | Some d => test re d
      | None => false
      end
  | F_tags_in res => existsb (fun g => existsb (fun re => test re g) res) (Task.tags x)
  end.

(** A query object: every key has to match. *)
Definition Query := list Filter.

Definition find_tasks (q : Query) (ts : list Task.t) : list Task.t :=
  filter (fun x => forallb (fun f => matches f x) q) ts.

Definition countDocuments (q : Query) (ts : list Task.t) : Z :=
  Z.of_nat (List.length (find_tasks q ts)).

(** ** Sorting and paging *)

Section Paging.
Context {A : Type} (createdAt : A -> Date).

Fixpoint insert_desc (a : A) (l : list A) : list A :=
  match l with
  | [] => [a]
  | b :: r =>
      if createdAt b <? createdAt a then a :: l else b :: insert_desc a r
  end.

(** [.sort({ createdAt: -1 })]: newest first. *)
Definition sort_desc (l : list A) : list A := fold_right insert_desc [] l.

(** [.skip(n)]: the database refuses a negative skip. *)
Definition skip (n : Z) (l : list A) : Step (list A) :=
  if n <? 0 then Thrown MongoServerError else Next (skipn (Z.to_nat n) l).

(** [.limit(n)] for [n] other than zero: a negative limit counts as its
    absolute value. *)
Definition limit (n : Z) (l : list A) : list A := firstn (Z.to_nat (Z.abs n)) l.

(** [.sort({ createdAt: -1 }).skip((page - 1) * limit).limit(limit)]. *)
Definition page_of (page lim : Z) (l : list A) : Step (list A) :=
  rest <- skip ((page - 1) * lim) (sort_desc l) ;;
  Next (limit lim rest).
End Paging.

(** [parseInt(v) || dflt]: [None] is [NaN], for a parameter that is absent
    or does not start with a number. *)
Definition orDefault (v : option Z) (dflt : Z) : Z :=
  match v with
  | Some n => if n =? 0 then dflt else n
  | None => dflt
  end.

(** [Math.ceil(total / limit)] for [limit] other than zero. *)
Definition ceilDiv (total lim : Z) : Z := - ((- total) / lim).

Definition pagination (page lim total : Z) : JSON :=
  JObj [("page", JNum page); ("limit", JNum lim); ("total", JNum total);
        ("pages", JNum (ceilDiv total lim))].

(** A string in a condition: the empty string is falsy, as is an absent
    parameter. *)
Definition truthy (v : option string) : option string :=
  match v with
  | Some s => if String.eqb s "" then None else Some s
  | None => None
  end.

(** ** The list routes of routes/tasks.js *)

(** The query string of a list route.  [q_page] and [q_limit] hold what
    [parseInt] returns. *)
Record ListQuery : Type := mkQuery {
  q_page : option Z;
  q_limit : option Z;
  q_status : option string;
  q_priority : option string;
  q_search : option Pattern
}.

(** The [options] object: [status] and [priority], each when truthy. *)
Record Options : Type := mkOptions {
  o_status : option string;
  o_priority : option string
}.

(** [...options] inside a query object. *)
Definition spread (o : Options) : list Filter :=
  match truthy (o_status o) with Some s => [F_status s] | None => [] end
  ++ match truthy (o_priority o) with Some s => [F_priority s] | None => [] end.

(** The [$or] of the three ways a task is a user's to see. *)
Definition mine_or_public (userId : ObjectId) : Filter :=
  F_or [F_createdBy userId; F_assignedTo userId; F_isPublic true].

(** The query of [taskSchema.statics.findByUser] (Task.js, lines 90-106);
    sorting and population are applied where the route awaits it. *)
Definition findByUser (userId : ObjectId) (o : Options) : list Filter :=
  [mine_or_public userId]
  ++ match truthy (o_status o) with Some s => [F_status s] | None => [] end
  ++ match truthy (o_priority o) with Some s => [F_priority s] | None => [] end.

Definition search_query (userId : ObjectId) (re : Pattern) (o : Options)
  : list Filter :=
  [mine_or_public userId;
   F_and [F_or [F_title re; F_description re; F_tags_in [re]]]]
  ++ spread o.

(** Is the search parameter truthy?  Only the empty string is not. *)
Definition truthy_search (v : option Pattern) : option Pattern :=
  match v with
  | Some re => if String.eqb (source re) "" then None else Some re
  | None => None
  end.

Definition listReply (key : string) (items : list JSON) (page lim total : Z)
  : Response :=
  json (JObj [(key, JArr items); ("pagination", pagination page lim total)]).

(** [GET /api/tasks] (lines 11-95). *)
Definition get_tasks (db : Db) (now : Date) (user : User.t) (q : ListQuery)
  : Response :=
  catch_500 (
    let page := orDefault (q_page q) 1 in
    let lim := orDefault (q_limit q) 10 in
    let options := mkOptions (truthy (q_status q)) (truthy (q_priority q)) in
    let query :=
      match truthy_search (q_search q) with
      | Some searchRegex => search_query (User._id user) searchRegex options
      | None => findByUser (User._id user) options
      end in
    let count_query :=
      match truthy_search (q_search q) with
      | Some searchRegex => search_query (User._id user) searchRegex options
      | None => ([mine_or_public (User._id user)] ++ spread options)%list
      end in
    found <- page_of Task.createdAt page lim (find_tasks query (tasks db)) ;;
    let total := countDocuments count_query (tasks db) in
    Next (listReply "tasks" (map (fun x => taskJSON now (populate db x)) found)
                    page lim total)).

(** [GET /api/tasks/public] (lines 100-126). *)
Definition get_public_tasks (db : Db) (now : Date) (q : ListQuery) : Response :=
  catch_500 (
    let page := orDefault (q_page q) 1 in
    let lim := orDefault (q_limit q) 10 in
    found <- page_of Task.createdAt page lim
               (find_tasks [F_isPublic true] (tasks db)) ;;
    let total := countDocuments [F_isPublic true] (tasks db) in
    Next (listReply "tasks"
            (map (fun x => taskJSON now (populate_createdBy db x)) found)
            page lim total)).

(** ** Filters of [find], [findOne] and [countDocuments] on users *)

Inductive UserFilter : Type :=
| U_or (fs : list UserFilter)        (* $or: [...] *)
| U_username (s : string)            (* username: s *)
| U_email (s : string)               (* email: s *)
| U_username_re (re : Pattern)       (* username: re *)
| U_email_re (re : Pattern)          (* email: re *)
| U_id_ne (oid : ObjectId).          (* _id: { $ne: oid } *)

Fixpoint matchesUser (f : UserFilter) (u : User.t) : bool :=
  match f with
  | U_or fs => existsb (fun g => matchesUser g u) fs
  | U_username s => String.eqb (User.username u) s
  | U_email s => String.eqb (User.email u) s
  | U_username_re re => test re (User.username u)
  | U_email_re re => test re (User.email u)
  | U_id_ne oid => negb (String.eqb (User._id u) oid)
  end.

Definition find_users (q : list UserFilter) (us : list User.t) : list User.t :=
  filter (fun u => forallb (fun f => matchesUser f u) q) us.

Definition findOne (q : list UserFilter) (us : list User.t) : option User.t :=
  find (fun u => forallb (fun f => matchesUser f u) q) us.

Definition countUsers (q : list UserFilter) (us : list User.t) : Z :=
  Z.of_nat (List.length (find_users q us)).

(** ** The routes of routes/users.js

    Every route but [GET /api/users/:id] sits behind [adminAuth]; the
    handlers below are what runs once the middleware has let the request
    through and set [req.user].

    Three things the handlers call are not among the sources and are
    parameters here: the method [getPublicProfile] of a user document, and
    the checks [isEmail] and [normalizeEmail] of the validation library.  So
    is the verdict of the User schema's validators on an update. *)

(** The body of [PUT /api/users/:id]. *)
Record UserBody : Type := mkUserBody {
  ub_username : option string;
  ub_email : option string;
  ub_role : option string;
  ub_isActive : option bool
}.

(** The [$set] of [User.findByIdAndUpdate], with the stamp of
    [timestamps]. *)
Definition apply_user_update (now : Date) (b : UserBody) (u : User.t) : User.t :=
  User.mk (User._id u)
          (orElse (ub_username b) (User.username u))
          (orElse (ub_email b) (User.email u))
          (User.password u)
          (orElse (ub_role b) (User.role u))
          (orElse (ub_isActive b) (User.isActive u))
          (User.createdAt u)
          now.

Section UserRoutes.
Variable getPublicProfile : User.t -> JSON.
Variable isEmail : string -> bool.
Variable normalizeEmail : string -> string.
Variable userSchemaAccepts : UserBody -> bool.

Definition userJSON (u : User.t) : JSON :=
  getPublicProfile (User.select_minus_password u).

(** [GET /api/users] (lines 11-38). *)
Definition get_users (db : Db) (q : ListQuery) : Response :=
  catch_500 (
    let page := orDefault (q_page q) 1 in
    let lim := orDefault (q_limit q) 10 in
    found <- page_of User.createdAt page lim (find_users [] (users db)) ;;
    let total := countUsers [] (users db) in
    Next (listReply "users" (map userJSON found) page lim total)).

(** [GET /api/users/:id] (lines 43-64). *)
Definition get_user (db : Db) (reqUser : User.t) (id : string) : Response :=
  catch_id "Invalid user ID" (
    oid <- orThrow CastError_ObjectId (castObjectId id) ;;
    match findById User._id oid (users db) with
    | None => Done (notFound "User")
    | Some user =>
        check negb (negb (String.eqb (User.role reqUser) "admin")
                    && negb (String.eqb (User._id reqUser) id))
          orelse accessDenied ;;
        Next (json (JObj [("user", userJSON user)]))
    end).

Definition sanitize_user (b : UserBody) : UserBody :=
  mkUserBody (ub_username b) (option_map normalizeEmail (ub_email b))
             (ub_role b) (ub_isActive b).

(** The chain of [PUT /api/users/:id] (lines 69-87).  [isEmail] reads the
    address as sent; [normalizeEmail] then rewrites it in [req.body]. *)
Definition validate_user (sent : UserBody) : list JSON :=
  optional "username" "Username must be between 3 and 30 characters"
           (fun s => (3 <=? strlen s) && (strlen s <=? 30)) (ub_username sent)
  ++ optional "email" "Please provide a valid email" isEmail (ub_email sent)
  ++ optional "role" "Role must be either user or admin"
           (fun s => isIn s ["user"; "admin"]) (ub_role sent).

(** The [$or] of the uniqueness check: the address and the name, each when
    truthy. *)
Definition taken_by (b : UserBody) : list UserFilter :=
  match truthy (ub_email b) with Some e => [U_email e] | None => [] end
  ++ match truthy (ub_username b) with Some n => [U_username n] | None => [] end.

(** [PUT /api/users/:id] (lines 69-144). *)
Definition put_user (db : Db) (now : Date) (id : string) (reqBody : UserBody)
  : Response * Db :=
  catch_id_write "Invalid user ID" db (
    let errors := validate_user reqBody in
    check isEmpty errors orelse validationFailed errors ;;
    let updates := sanitize_user reqBody in
    _ <- (if isEmpty (taken_by updates) then Next tt
          else
            other <- orThrow CastError_ObjectId (castObjectId id) ;;
            match findOne [U_or (taken_by updates); U_id_ne other] (users db) with
            | Some existingUser =>
                Done (status_json 400
                        (message "Username or email already exists"))
            | None => Next tt
            end) ;;
    oid <- orThrow CastError_ObjectId (castObjectId id) ;;
    _ <- (if userSchemaAccepts updates then Next tt
          else Thrown ValidationError) ;;
    let us := updateOne User._id oid (apply_user_update now updates) (users db) in
    match findById User._id oid us with
    | None => Done (notFound "User")
    | Some user =>
        Next (json (JObj [("message", JStr "User updated successfully");
                          ("user", userJSON user)]),
              with_users us db)
    end).

(** [GET /api/users/search/:query] (lines 177-217). *)
Definition search_users (db : Db) (query : Pattern) (q : ListQuery) : Response :=
  catch_500 (
    let page := orDefault (q_page q) 1 in
    let lim := orDefault (q_limit q) 10 in
    let searchRegex := query in
    let filter := [U_or [U_username_re searchRegex; U_email_re searchRegex]] in
    found <- page_of User.createdAt page lim (find_users filter (users db)) ;;
    let total := countUsers filter (users db) in
    Next (listReply "users" (map userJSON found) page lim total)).

End UserRoutes.

(** [DELETE /api/users/:id] (lines 149-172). *)
Definition delete_user (db : Db) (reqUser : User.t) (id : string)
  : Response * Db :=
  catch_id_write "Invalid user ID" db (
    oid <- orThrow CastError_ObjectId (castObjectId id) ;;
    match findById User._id oid (users db) with
    | None => Done (notFound "User")
    | Some user =>
        check negb (String.eqb (User._id reqUser) id)
          orelse status_json 400 (message "Cannot delete your own account") ;;
        Next (json (message "User deleted successfully"),
              with_users (deleteOne User._id oid (users db)) db)
    end).

(** Modelled from the spec: [getPublicProfile] belongs to [models/User.js],
    which is not among the sources.  The spec has the password never
    serialized to clients: the profile is the document's other paths. *)
Definition publicProfile (u : User.t) : JSON :=
  JObj [("_id", JStr (User._id u)); ("username", JStr (User.username u));
        ("email", JStr (User.email u)); ("role", JStr (User.role u));
        ("isActive", JBool (User.isActive u));
        ("createdAt", JNum (User.createdAt u));
        ("updatedAt", JNum (User.updatedAt u))].

(** ** [POST /api/tasks] (routes/tasks.js, lines 161-225) *)

(** The [catch] of the create route: always 500, and nothing written. *)
Definition catch_500_write {S} (before : S) (m : Step (Response * S))
  : Response * S :=
  match m with
  | Next rs => rs
  | Done r => (r, before)
  | Thrown _ => (status_json 500 (message "Server error"), before)
  end.

(** The sanitizers of the create chain: [trim] on the title, which is not
    optional (an absent title reads as the empty string), and on the
    description. *)
Definition sanitize_post (b : TaskBody) : TaskBody :=
  mkBody (Some (trim (orElse (b_title b) ""))) (option_map trim (b_description b))
         (b_status b) (b_priority b) (b_dueDate b) (b_completedAt b)
         (b_tags b) (b_assignedTo b) (b_createdBy b) (b_isPublic b).

(** [validationResult(req).array()] for the chain of [POST /api/tasks]
    (lines 161-187), on the sanitized body. *)
Definition validate_post (b : TaskBody) : list JSON :=
  (let s := orElse (b_title b) "" in
   if (1 <=? strlen s) && (strlen s <=? 100) then []
   else [fieldError "title" s
           "Task title is required and must be less than 100 characters"])
  ++ optional "description" "Description must be less than 500 characters"
           (fun s => strlen s <=? 500) (b_description b)
  ++ optional "priority" "Priority must be low, medium, high, or urgent"
           (fun s => isIn s Task.priorities) (b_priority b).

(** [new Task({ title, description, priority, dueDate, tags, assignedTo,
    isPublic: isPublic || false, createdBy: req.user._id })] with the
    identifier Mongoose gives the document and the stamps of [timestamps]:
    the members the route does not pass ([status], [completedAt], the
    body's [createdBy]) are not read, and the schema fills in its defaults.
    [None] when [assignedTo] does not cast, which [save] reports as a
    [ValidationError]. *)
Definition new_Task (newId : ObjectId) (now : Date) (user : User.t)
  (b : TaskBody) : option Task.t :=
  match cast_ref (b_assignedTo b) with
  | Next a =>
      Some (Task.mk newId
                    (trim (orElse (b_title b) ""))
                    (option_map trim (b_description b))
                    "pending"
                    (orElse (b_priority b) "medium")
                    (b_dueDate b)
                    None
                    (map trim (orElse (b_tags b) []))
                    a
                    (User._id user)
                    (orElse (b_isPublic b) false)
                    now
                    now)
  | _ => None
  end.

(** [task.save()] of a new document: the schema's validators, the pre-save
    hook (for which [status], left to its default, is not modified), then
    the insert, which the database refuses when the identifier is in use. *)
Definition insert (now : Date) (x : Task.t) (ts : list Task.t)
  : Step (list Task.t) :=
  if Task.validate now x
  then
    match findById Task._id (Task._id x) ts with
    | Some _ => Thrown MongoServerError
    | None => Next (ts ++ [fields (preSave now (mkDoc x false true))])%list
    end
  else Thrown ValidationError.

(** [POST /api/tasks]. *)
Definition post_task (db : Db) (now : Date) (newId : ObjectId) (user : User.t)
  (reqBody : TaskBody) : Response * Db :=
  catch_500_write db (
    let body := sanitize_post reqBody in
    let errors := validate_post body in
    check isEmpty errors orelse validationFailed errors ;;
    task <- orThrow ValidationError (new_Task newId now user body) ;;
    ts <- insert now task (tasks db) ;;
    let db' := with_tasks ts db in
    Next (status_json 201
            (taskReply now db' "Task created successfully"
               (findById Task._id (Task._id task) ts)), db')).

(** ** A small store for the examples

    Three users (Alice an admin, Bob and Carol), three tasks of Alice (a
    private one assigned to Bob, a public one, and a completed one) and a
    private task of Bob assigned to Carol. *)

Module Sample.

Definition alice_id : ObjectId := "aaaaaaaaaaaaaaaaaaaaaaaa".
Definition bob_id : ObjectId := "bbbbbbbbbbbbbbbbbbbbbbbb".
Definition carol_id : ObjectId := "cccccccccccccccccccccccc".

Definition alice : User.t :=
  User.mk alice_id "alice" "alice@example.com" (Some "$2a$10$hashA") "admin" true 10 10.
Definition bob : User.t :=
  User.mk bob_id "bob" "bob@example.com" (Some "$2a$10$hashB") "user" true 20 20.
Definition carol : User.t :=
  User.mk carol_id "carol" "carol@example.com" (Some "$2a$10$hashC") "user" true 30 30.

Definition t1_id : ObjectId := "111111111111111111111111".
Definition t2_id : ObjectId := "222222222222222222222222".
Definition t3_id : ObjectId := "333333333333333333333333".

Definition t1 : Task.t :=
  Task.mk t1_id "Write report" (Some "quarterly numbers") "pending" "medium"
          None None ["work"] (Some bob_id) alice_id false 100 100.
Definition t2 : Task.t :=
  Task.mk t2_id "Plan party" None "in-progress" "low"
          None None ["fun"; "abc"] None alice_id true 200 200.
Definition t3 : Task.t :=
  Task.mk t3_id "File taxes" None "completed" "high"
          None (Some 250) [] (Some bob_id) alice_id false 300 300.

Definition t4_id : ObjectId := "444444444444444444444444".
Definition t4 : Task.t :=
  Task.mk t4_id "Book venue" None "pending" "urgent"
          (Some 5000) None [] (Some carol_id) bob_id false 400 400.

Definition db : Db := mkDb [t1; t2; t3; t4] [alice; bob; carol].

(** The clock of the examples. *)
Definition now : Date := 1000.

Definition statusBody (s : string) : TaskBody :=
  mkBody None None (Some s) None None None None None None None.

End Sample.

(** ** Vocabulary of the statements *)

(** The answer to a string that is no identifier. *)
Definition invalidId (what : string) : Response :=
  status_json 400 (message ("Invalid " ++ what ++ " ID")).

(** The answer of [GET /api/tasks/:id] that shows the task. *)
Definition taskFound (now : Date) (db : Db) (x : Task.t) : Response :=
  json (JObj [("task", taskJSON now (populate db x))]).

(** The update [findByIdAndUpdate] reads from the body of a full update:
    the sanitized members without [createdBy], moved into [$set]. *)
Definition handed (reqBody : UpdateBody) : TaskBody :=
  set_sugar (mkUpdate (delete_createdBy (sanitize_put (members reqBody)))
                      (op_set reqBody)).

(** An update the schema accepts: it casts and passes the validators. *)
Definition accepted (now : Date) (updates : TaskBody) : option TaskBody :=
  match castUpdate updates with
  | Next u => if validate_update now u then Some u else None
  | _ => None
  end.

(** The document of the status route as it reaches [save]. *)
Definition routed (now : Date) (s : string) (x : Task.t) : TaskDoc :=
  assign_completedAt (if String.eqb s "completed" then Some now else None)
    (assign_status s (hydrate x)).

(** What the status route stores. *)
Definition after_patch (now : Date) (s : string) (x : Task.t) : Task.t :=
  fields (timestampsPreSave now (routed now s x)).

(** What a task holds of its status after a request. *)
Definition status_and_completedAt (oid : ObjectId) (db : Db)
  : option (string * option Date) :=
  option_map (fun x => (Task.status x, Task.completedAt x))
             (findById Task._id oid (tasks db)).

(** Is a name or address of the update held by a user other than the one
    being updated?  (the [findOne] of users.js, lines 107-121) *)
Definition taken (us : list User.t) (other : ObjectId) (updates : UserBody)
  : bool :=
  negb (isEmpty (taken_by updates))
  && isSome (findOne [U_or (taken_by updates); U_id_ne other] us).

(** The page a list route shows of the documents that match. *)
Definition paged {A : Type} (createdAt : A -> Date) (page lim : Z)
  (l : list A) : list A :=
  limit lim (skipn (Z.to_nat ((page - 1) * lim)) (sort_desc createdAt l)).

(** The body of a list response: the documents of the page under [key], and
    the four numbers of the pagination. *)
Definition paginated (key : string) (items : list JSON) (page lim total : Z)
  : Response :=
  mkResponse 200
    (JObj [(key, JArr items);
           ("pagination",
            JObj [("page", JNum page); ("limit", JNum lim);
                  ("total", JNum total);
                  ("pages", JNum (ceilDiv total lim))])]).



(** The query of [GET /api/tasks], in either branch of the route. *)
Definition tasks_query (user : User.t) (q : ListQuery) : list Filter :=
  let options := mkOptions (truthy (q_status q)) (truthy (q_priority q)) in
  match truthy_search (q_search q) with
  | Some re => search_query (User._id user) re options
  | None => findByUser (User._id user) options
  end.

(** [needle] occurs in [hay], letter case ignored: a stretch of [hay] is
    [needle] once both are written in lower case. *)
Definition occurs (needle hay : string) : Prop :=
  exists pre mid post,
    hay = pre ++ mid ++ post
    /\ string_map toLower mid = string_map toLower needle.

(** Does the title, the description or a tag of the task hold [s], letter
    case ignored? *)
Definition mentions (s : string) (x : Task.t) : bool :=
  ci_contains s (Task.title x)
  || match Task.description x with
     | Some d => ci_contains s d
     | None => false
     end
  || existsb (ci_contains s) (Task.tags x).

(** The tasks [GET /api/tasks] is to list for [user] under the query [q]:
    created by the user, assigned to the user or public; of the status and
    of the priority asked for, when one is; and, when a search is asked
    for, matched by it in the title, the description or a tag. *)
Definition selected (user : User.t) (q : ListQuery) (x : Task.t) : Prop :=
  (Task.createdBy x = User._id user
   \/ Task.assignedTo x = Some (User._id user)
   \/ Task.isPublic x = true)
  /\ (forall s, truthy (q_status q) = Some s -> Task.status x = s)
  /\ (forall s, truthy (q_priority q) = Some s -> Task.priority x = s)
  /\ (forall re, truthy_search (q_search q) = Some re ->
        test re (Task.title x) = true
        \/ (exists d, Task.description x = Some d /\ test re d = true)
        \/ (exists g, In g (Task.tags x) /\ test re g = true)).

(** The query string [?search=...] and nothing else. *)
Definition searchFor (re : Pattern) : ListQuery :=
  mkQuery None None None None (Some re).

(** A body that tries to hand Alice's first task to Bob. *)
Definition takeoverBody : TaskBody :=
  mkBody (Some "  Write the report ") None (Some "in-progress") None None None
         None None (Some Sample.bob_id) (Some true).

(** An identifier no task and no user has. *)
Definition nobody_id : string := "dddddddddddddddddddddddd".

(** Three characters by their bytes: U+00E9 (e with acute accent), U+00A0
    (no-break space) and U+1F600 (a character beyond U+FFFF). *)
Definition e_acute : string :=
  String (ascii_of_nat 195) (String (ascii_of_nat 169) "").
Definition nbsp : string :=
  String (ascii_of_nat 194) (String (ascii_of_nat 160) "").
Definition grinning : string :=
  String (ascii_of_nat 240)
    (String (ascii_of_nat 159)
       (String (ascii_of_nat 152) (String (ascii_of_nat 128) ""))).

(** A body whose title is [n] times the character [c]. *)
Definition titled (n : nat) (c : string) : TaskBody :=
  mkBody (Some (String.concat "" (repeat c n))) None None None None None None
         None None None.

(** Alice's identifier with its first digit in upper case. *)
Definition alice_id_capital : string := "Aaaaaaaaaaaaaaaaaaaaaaaa".

(** A body that asks for the username Carol has. *)
Definition takeCarolsName : UserBody := mkUserBody (Some "carol") None None None.

(** A body that renames a user. *)
Definition renameBody : UserBody := mkUserBody (Some "dora") None None None.

(** A body for a new task that also names a status, a completion time and
    a creator. *)
Definition createBody : TaskBody :=
  mkBody (Some " Order cake ") (Some "for the party") (Some "completed") None
         (Some 2000) (Some 900) (Some ["fun "]) (Some "CCCCCCCCCCCCCCCCCCCCCCCC")
         (Some Sample.alice_id) None.

(** A body whose due date has passed at the clock of the examples. *)
Definition dueYesterday : TaskBody :=
  mkBody (Some "Renew passport") None None None (Some 999) None None None
         None None.

(** A body that names the assignee by username. *)
Definition assignToBobByName : TaskBody :=
  mkBody (Some "Renew passport") None None None None None None (Some "bob")
         None None.

(** A body with nothing beside [$set], which names Bob as the creator. *)
Definition handoverBody : UpdateBody :=
  mkUpdate (mkBody None None None None None None None None None None)
           (Some (mkBody None None None None None None None None
                         (Some Sample.bob_id) None)).

(** What the JSON of a task shows of the task. *)
Definition shows (j : JSON) (x : Task.t) : Prop :=
  property "_id" j = Some (JStr (Task._id x))
  /\ property "title" j = Some (JStr (Task.title x))
  /\ property "status" j = Some (JStr (Task.status x))
  /\ property "priority" j = Some (JStr (Task.priority x))
  /\ property "isPublic" j = Some (JBool (Task.isPublic x)).

(** The store once Alice has deleted Bob's account. *)
Definition db_without_bob : Db :=
  snd (delete_user Sample.db Sample.alice Sample.bob_id).

(** The store once Carol has completed Bob's task at 4000, before it is
    due. *)
Definition db_t4_done : Db :=
  snd (patch_status Sample.db 4000 Sample.carol Sample.t4_id (Some "completed")).

(** Newest first: no document comes before one that was created later. *)
Fixpoint newest_first {A : Type} (createdAt : A -> Date) (l : list A) : Prop :=
  match l with
  | [] => True
  | a :: r => (forall b, In b r -> createdAt b <= createdAt a)
              /\ newest_first createdAt r
  end.

(** * Properties *)

(** ** Collections *)

Section CollectionFacts.
Context {A : Type} (key : A -> ObjectId).

Lemma findById_key (oid : ObjectId) (l : list A) (a : A) :
  findById key oid l = Some a -> key a = oid.
Proof.
  unfold findById. intros H. apply find_some in H.
  now apply String.eqb_eq.
Qed.

Lemma findById_In (oid : ObjectId) (l : list A) (a : A) :
  findById key oid l = Some a -> In a l.
Proof. unfold findById. intros H. now apply find_some in H. Qed.

Lemma findById_updateOne (oid : ObjectId) (f : A -> A) (l : list A) :
  (forall a, key a = oid -> key (f a) = oid) ->
  findById key oid (updateOne key oid f l) = option_map f (findById key oid l).
Proof.
  intros Hf. unfold findById. induction l as [|a r IH]; simpl; [reflexivity|].
  destruct (String.eqb (key a) oid) eqn:E; simpl.
  - apply String.eqb_eq in E. rewrite (Hf a E), String.eqb_refl. reflexivity.
  - rewrite E. exact IH.
Qed.

Lemma updateOne_absent (oid : ObjectId) (f : A -> A) (l : list A) :
  findById key oid l = None -> updateOne key oid f l = l.
Proof.
  unfold findById. induction l as [|a r IH]; simpl; [reflexivity|].
  destruct (String.eqb (key a) oid); [discriminate|].
  intros H. now rewrite IH.
Qed.

Lemma findById_deleteOne_other (oid oid' : ObjectId) (l : list A) :
  oid' <> oid ->
  findById key oid' (deleteOne key oid l) = findById key oid' l.
Proof.
  intros Hne. unfold findById. induction l as [|a r IH]; simpl; [reflexivity|].
  destruct (String.eqb (key a) oid) eqn:E; simpl.
  - apply String.eqb_eq in E.
    destruct (String.eqb (key a) oid') eqn:E'; [|reflexivity].
    apply String.eqb_eq in E'. congruence.
  - now rewrite IH.
Qed.
Lemma findById_absent (oid : ObjectId) (l : list A) :
  ~ In oid (map key l) -> findById key oid l = None.
Proof.
  unfold findById. induction l as [|a r IH]; [reflexivity|]. cbn.
  intros H. destruct (String.eqb (key a) oid) eqn:E.
  - apply String.eqb_eq in E. exfalso. apply H. now left.
  - apply IH. intros Hin. apply H. now right.
Qed.

(** Where identifiers are distinct, a deleted document is not found. *)
Lemma findById_deleteOne_same (oid : ObjectId) (l : list A) :
  NoDup (map key l) -> findById key oid (deleteOne key oid l) = None.
Proof.
  induction l as [|a r IH]; [reflexivity|]. cbn. intros H.
  inversion H as [|? ? Hnotin Hnodup]; subst.
  destruct (String.eqb (key a) oid) eqn:E.
  - apply String.eqb_eq in E. subst oid. now apply findById_absent.
  - unfold findById in *. cbn. rewrite E. now apply IH.
Qed.

(** Deleting a document that is there leaves one document less. *)
Lemma deleteOne_length (oid : ObjectId) (l : list A) (a : A) :
  findById key oid l = Some a ->
  S (List.length (deleteOne key oid l)) = List.length l.
Proof.
  unfold findById. induction l as [|b r IH]; cbn; [discriminate|].
  destruct (String.eqb (key b) oid); [reflexivity|].
  intros H. cbn. now rewrite (IH H).
Qed.
End CollectionFacts.

(** ** The completion timestamp *)

Lemma isIn_statuses (s : string) :
  isIn s Task.statuses = true ->
  s = "pending" \/ s = "in-progress" \/ s = "completed" \/ s = "cancelled".
Proof.
  unfold isIn, Task.statuses. simpl. intros H.
  repeat (apply orb_prop in H; destruct H as [H|H]);
    try (apply String.eqb_eq in H; auto); discriminate.
Qed.

Lemma validate_assign (now : Date) (x : Task.t) (s : string) (c : option Date) :
  Task.validate now x = true -> isIn s Task.statuses = true ->
  Task.validate now (Task.set_completedAt c (Task.set_status s x)) = true.
Proof.
  unfold Task.validate. simpl. intros H Hs.
  repeat (apply andb_prop in H; destruct H as [H ?]).
  repeat (apply andb_true_intro; split); assumption.
Qed.

(** The hook leaves alone a document whose [completedAt] already agrees
    with its status. *)
Lemma preSave_settled (now : Date) (d : TaskDoc) :
  isSome (Task.completedAt (fields d))
  = String.eqb (Task.status (fields d)) "completed" ->
  fields (preSave now d) = fields d.
Proof.
  intros H. unfold preSave.
  destruct (String.eqb (Task.status (fields d)) "completed");
    rewrite H; cbn; rewrite ?andb_false_r; cbn.
  - reflexivity.
  - destruct (modified_status d); cbn; [|reflexivity].
    destruct d as [x ms mo].
    destruct x as [i t de st pr du co ta asg cb ip ca ua]. cbn in *.
    destruct co; [discriminate|reflexivity].
Qed.

Lemma after_patch_status (now : Date) (s : string) (x : Task.t) :
  Task._id (after_patch now s x) = Task._id x
  /\ Task.status (after_patch now s x) = s
  /\ Task.completedAt (after_patch now s x)
     = (if String.eqb s "completed" then Some now else None)
  /\ Task.createdBy (after_patch now s x) = Task.createdBy x.
Proof.
  unfold after_patch, timestampsPreSave, routed.
  destruct (isModified _); cbn; repeat split; reflexivity.
Qed.

Lemma validate_set_status (now : Date) (x : Task.t) (s : string) :
  Task.validate now x = true -> isIn s Task.statuses = true ->
  Task.validate now (Task.set_status s x) = true.
Proof.
  intros H Hs. exact (validate_assign now x s (Task.completedAt x) H Hs).
Qed.

(** What [save] validates on the status route is the stored task with the
    new status: [completedAt] has no validator. *)
Lemma validate_routed (now : Date) (s : string) (x : Task.t) :
  Task.validate now (fields (routed now s x))
  = Task.validate now (Task.set_status s x).
Proof. reflexivity. Qed.

Lemma save_routed (now : Date) (s : string) (x : Task.t) (ts : list Task.t) :
  Task.validate now (Task.set_status s x) = true ->
  save now (routed now s x) ts
  = Next (updateOne Task._id (Task._id x) (fun _ => after_patch now s x) ts).
Proof.
  intros Hval.
  destruct (after_patch_status now s x) as (Hi & Hst & Hc & _).
  unfold save. rewrite validate_routed, Hval.
  cbv zeta.
  rewrite preSave_settled.
  2:{ fold (after_patch now s x). rewrite Hst, Hc.
      destruct (String.eqb s "completed"); reflexivity. }
  fold (after_patch now s x). now rewrite Hi.
Qed.

(** [markComplete] stores the status and the time, like the status route. *)
Lemma markComplete_stores (now : Date) (x : Task.t) (ts : list Task.t) :
  Task.validate now x = true ->
  markComplete now (hydrate x) ts
  = Next (updateOne Task._id (Task._id x)
            (fun _ => after_patch now "completed" x) ts).
Proof.
  intros Hval. apply save_routed. now apply validate_set_status.
Qed.

Lemma patch_status_ok (db : Db) (now : Date) (user : User.t) (id : string)
  (oid : ObjectId) (x : Task.t) (s : string) :
  castObjectId id = Some oid ->
  findById Task._id oid (tasks db) = Some x ->
  isIn s Task.statuses = true ->
  may_set_status user x = true ->
  Task.validate now (Task.set_status s x) = true ->
  let db' := with_tasks (updateOne Task._id oid (fun _ => after_patch now s x)
                           (tasks db)) db in
  patch_status db now user id (Some s)
  = (json (taskReply now db' "Task status updated successfully"
             (Some (after_patch now s x))), db').
Proof.
  intros Hid Hx Hs Hmay Hval db'.
  pose proof (findById_key _ _ _ _ Hx) as Hk.
  destruct (after_patch_status now s x) as (Hi & _).
  unfold patch_status, checked_status. rewrite Hs. cbn [bind].
  rewrite Hid. cbn [orThrow bind]. rewrite Hx, Hmay.
  replace (if String.eqb s "completed"
           then assign_completedAt (Some now) (assign_status s (hydrate x))
           else assign_completedAt None (assign_status s (hydrate x)))
    with (routed now s x)
    by (unfold routed; destruct (String.eqb s "completed"); reflexivity).
  rewrite (save_routed now s x (tasks db) Hval), Hk. cbn [bind].
  fold db'. unfold db' at 2. cbn [tasks with_tasks].
  rewrite findById_updateOne by (intros; rewrite Hi; exact Hk).
  rewrite Hx. reflexivity.
Qed.

(** A stored task that fails a validator of the schema cannot be saved:
    the status route answers 500 and writes nothing. *)
Lemma patch_status_invalid (db : Db) (now : Date) (user : User.t) (id : string)
  (oid : ObjectId) (x : Task.t) (s : string) :
  castObjectId id = Some oid ->
  findById Task._id oid (tasks db) = Some x ->
  isIn s Task.statuses = true ->
  may_set_status user x = true ->
  Task.validate now (Task.set_status s x) = false ->
  patch_status db now user id (Some s)
  = (status_json 500 (message "Server error"), db).
Proof.
  intros Hid Hx Hs Hmay Hval.
  unfold patch_status, checked_status. rewrite Hs. cbn [bind].
  rewrite Hid. cbn [orThrow bind]. rewrite Hx, Hmay.
  replace (if String.eqb s "completed"
           then assign_completedAt (Some now) (assign_status s (hydrate x))
           else assign_completedAt None (assign_status s (hydrate x)))
    with (routed now s x)
    by (unfold routed; destruct (String.eqb s "completed"); reflexivity).
  unfold save. rewrite validate_routed, Hval. reflexivity.
Qed.

(** ** The full update *)

(** *** Trimming

    Trimming twice is trimming once: the route's sanitizer and the schema's
    [trim: true] agree. *)

Lemma dropPrefix_split (p l r : list ascii) :
  dropPrefix p l = Some r -> l = (p ++ r)%list.
Proof.
  revert l. induction p as [|a p IH]; intros l; cbn.
  - now intros [= ->].
  - destruct l as [|b l]; [discriminate|].
    destruct (Ascii.eqb a b) eqn:E; [|discriminate].
    apply Ascii.eqb_eq in E. subst b. intros H. now rewrite (IH _ H).
Qed.

Lemma dropPrefix_app (p l r t : list ascii) :
  dropPrefix p l = Some r -> dropPrefix p (l ++ t) = Some (r ++ t)%list.
Proof.
  revert l. induction p as [|a p IH]; intros l; cbn.
  - now intros [= ->].
  - destruct l as [|b l]; [discriminate|]. cbn.
    destruct (Ascii.eqb a b); [apply IH|discriminate].
Qed.

Lemma dropOne_split (sp : list (list ascii)) (l r : list ascii) :
  dropOne sp l = Some r -> exists p, In p sp /\ l = (p ++ r)%list.
Proof.
  induction sp as [|p sp IH]; cbn; [discriminate|].
  destruct (dropPrefix p l) as [r'|] eqn:E.
  - intros [= ->]. exists p. split; [now left|]. now apply dropPrefix_split.
  - intros H. destruct (IH H) as (q & Hq & Hl). exists q. split; [now right|].
    exact Hl.
Qed.

(** Bytes that start with no sequence of [sp] still start with none when
    cut short. *)
Lemma dropOne_app (sp : list (list ascii)) (l t : list ascii) :
  dropOne sp (l ++ t) = None -> dropOne sp l = None.
Proof.
  induction sp as [|p sp IH]; cbn; [reflexivity|].
  destruct (dropPrefix p l) as [r|] eqn:E.
  - rewrite (dropPrefix_app _ _ _ t E). discriminate.
  - destruct (dropPrefix p (l ++ t)); [discriminate|]. exact IH.
Qed.

Lemma dropAll_suffix (sp : list (list ascii)) (n : nat) (l : list ascii) :
  exists w, l = (w ++ dropAll sp n l)%list.
Proof.
  revert l. induction n as [|n IH]; intros l; cbn; [now exists []|].
  destruct (dropOne sp l) as [r|] eqn:E; [|now exists []].
  destruct (dropOne_split _ _ _ E) as (p & _ & ->).
  destruct (IH r) as [w Hw]. exists (p ++ w)%list.
  rewrite <- app_assoc. now rewrite <- Hw.
Qed.

Lemma dropAll_done (sp : list (list ascii)) (n : nat) (l : list ascii) :
  Forall (fun p => p <> []) sp ->
  (List.length l <= n)%nat ->
  dropOne sp (dropAll sp n l) = None.
Proof.
  intros Hsp. revert l. induction n as [|n IH]; intros l Hn; cbn.
  - destruct l; [|cbn in Hn; lia].
    destruct (dropOne sp []) as [r|] eqn:E; [|reflexivity].
    destruct (dropOne_split _ _ _ E) as (p & Hp & Hl).
    destruct p; [|discriminate].
    rewrite Forall_forall in Hsp. now destruct (Hsp _ Hp).
  - destruct (dropOne sp l) as [r|] eqn:E; [|exact E].
    apply IH. destruct (dropOne_split _ _ _ E) as (p & Hp & ->).
    rewrite Forall_forall in Hsp. specialize (Hsp _ Hp).
    rewrite length_app in Hn. destruct p; [contradiction|]. cbn in Hn. lia.
Qed.

Lemma dropAll_id (sp : list (list ascii)) (n : nat) (l : list ascii) :
  dropOne sp l = None -> dropAll sp n l = l.
Proof. destruct n; cbn; [reflexivity|]. now intros ->. Qed.

Lemma whiteSpace_nonempty :
  Forall (fun p => p <> []) whiteSpace
  /\ Forall (fun p => p <> []) (map (@rev ascii) whiteSpace).
Proof. split; vm_compute; repeat constructor; discriminate. Qed.

Lemma ltrim_done (l : list ascii) : dropOne whiteSpace (ltrim l) = None.
Proof. apply dropAll_done; [apply whiteSpace_nonempty|apply Nat.le_refl]. Qed.

(** What [rtrim] leaves is a prefix. *)
Lemma rtrim_prefix (l : list ascii) : exists w, l = (rtrim l ++ w)%list.
Proof.
  unfold rtrim.
  destruct (dropAll_suffix (map (@rev ascii) whiteSpace) (List.length l) (rev l))
    as [w Hw].
  exists (rev w). rewrite <- rev_app_distr, <- Hw. now rewrite rev_involutive.
Qed.

Lemma rtrim_idem (l : list ascii) : rtrim (rtrim l) = rtrim l.
Proof.
  assert (E : rev (rtrim l)
              = dropAll (map (@rev ascii) whiteSpace) (List.length l) (rev l))
    by (unfold rtrim; apply rev_involutive).
  unfold rtrim at 1. rewrite E. rewrite dropAll_id; [reflexivity|].
  apply dropAll_done; [apply whiteSpace_nonempty|].
  rewrite length_rev. apply Nat.le_refl.
Qed.

Lemma trim_idem (s : string) : trim (trim s) = trim s.
Proof.
  unfold trim. rewrite list_ascii_of_string_of_list_ascii. f_equal.
  set (t := ltrim (list_ascii_of_string s)).
  assert (H : dropOne whiteSpace (rtrim t) = None).
  { destruct (rtrim_prefix t) as [w Hw]. apply (dropOne_app _ _ w).
    rewrite <- Hw. apply ltrim_done. }
  unfold ltrim. rewrite (dropAll_id _ _ _ H). apply rtrim_idem.
Qed.

(** Characters, not bytes: a title of 51 accented letters (102 bytes) passes
    the chain and the schema; a title of 100 characters beyond U+FFFF
    passes the chain, which counts 100, and fails the schema, which counts
    200; a title that is one no-break space is trimmed to nothing. *)
Lemma lengths_count_characters :
  String.length (String.concat "" (repeat e_acute 51)) = 102%nat
  /\ validate_put (sanitize_put (titled 51 e_acute)) = []
  /\ statusCode (fst (put_task Sample.db Sample.now Sample.alice Sample.t1_id
                        (titled 51 e_acute))) = 200
  /\ validate_put (sanitize_put (titled 100 grinning)) = []
  /\ statusCode (fst (put_task Sample.db Sample.now Sample.alice Sample.t1_id
                        (titled 100 grinning))) = 500
  /\ trim nbsp = ""
  /\ statusCode (fst (put_task Sample.db Sample.now Sample.alice Sample.t1_id
                        (titled 1 nbsp))) = 400.
Proof. vm_compute. repeat split; reflexivity. Qed.

Lemma castUpdate_delete_createdBy (b u : TaskBody) :
  castUpdate (delete_createdBy b) = Next u ->
  b_createdBy u = None
  /\ b_title u = option_map trim (b_title b)
  /\ b_description u = option_map trim (b_description b)
  /\ b_status u = b_status b
  /\ b_priority u = b_priority b
  /\ b_dueDate u = b_dueDate b
  /\ b_completedAt u = b_completedAt b
  /\ b_tags u = option_map (map trim) (b_tags b)
  /\ b_isPublic u = b_isPublic b.
Proof.
  unfold castUpdate, delete_createdBy, cast_ref. cbn.
  destruct (b_assignedTo b) as [a|]; cbn;
    [destruct (castObjectId a); cbn; [|discriminate]|];
    intros H; injection H as <-; cbn; repeat split.
Qed.

Lemma put_task_ok (db : Db) (now : Date) (user : User.t) (id : string)
  (body : UpdateBody) (oid : ObjectId) (x : Task.t) (u : TaskBody) :
  validate_put (sanitize_put (members body)) = [] ->
  castObjectId id = Some oid ->
  findById Task._id oid (tasks db) = Some x ->
  Task.createdBy x = User._id user ->
  accepted now (handed body) = Some u ->
  let db' := with_tasks (updateOne Task._id oid (apply_update now u) (tasks db))
                        db in
  put_task db now user id body
  = (json (taskReply now db' "Task updated successfully"
             (Some (apply_update now u x))), db').
Proof.
  intros Hv Hid Hx Hc Hacc db'.
  unfold put_task. cbv zeta. rewrite Hv. cbn [isEmpty].
  rewrite Hid. cbn [orThrow bind]. rewrite Hx, Hc, String.eqb_refl.
  unfold accepted in Hacc. unfold findByIdAndUpdate. fold (handed body).
  destruct (castUpdate (handed body)) as [u'| |]; try discriminate.
  cbn [bind]. destruct (validate_update now u'); [|discriminate].
  injection Hacc as ->. cbn [fst snd catch_id_write]. fold db'.
  rewrite findById_updateOne
    by (intros a Ha; cbn; exact Ha).
  rewrite Hx. reflexivity.
Qed.

Lemma castUpdate_not_Done (b : TaskBody) (r : Response) :
  castUpdate b <> Done r.
Proof.
  unfold castUpdate, cast_ref.
  destruct (b_assignedTo b) as [a|]; cbn;
    [destruct (castObjectId a); cbn; [|discriminate]|];
    (destruct (b_createdBy b) as [c|]; cbn;
     [destruct (castObjectId c); cbn|]); discriminate.
Qed.

(** A full update answered with 200 went through every check. *)
Lemma put_task_200 (db : Db) (now : Date) (user : User.t) (id : string)
  (body : UpdateBody) :
  statusCode (fst (put_task db now user id body)) = 200 ->
  exists oid x u,
    validate_put (sanitize_put (members body)) = []
    /\ castObjectId id = Some oid
    /\ findById Task._id oid (tasks db) = Some x
    /\ Task.createdBy x = User._id user
    /\ accepted now (handed body) = Some u.
Proof.
  unfold put_task. cbv zeta.
  destruct (validate_put (sanitize_put (members body))) eqn:Hv; cbn;
    [|discriminate].
  destruct (castObjectId id) as [oid|] eqn:Hid; cbn; [|discriminate].
  destruct (findById Task._id oid (tasks db)) as [x|] eqn:Hx; cbn;
    [|discriminate].
  destruct (String.eqb (Task.createdBy x) (User._id user)) eqn:Hc; cbn;
    [|discriminate].
  unfold findByIdAndUpdate, accepted. fold (handed body).
  destruct (castUpdate (handed body)) as [u|r|e] eqn:Hu; cbn.
  - destruct (validate_update now u) eqn:Hw; cbn; [|discriminate].
    intros _. exists oid, x, u. apply String.eqb_eq in Hc. auto.
  - now apply castUpdate_not_Done in Hu.
  - destruct (kind_is_ObjectId e); cbn; discriminate.
Qed.

(** A full update whose body holds no update operator and that is answered
    with 200 leaves [createdBy] as it was, whatever [createdBy] the body
    carried; the other members the body submitted are what the task holds
    afterwards. *)
Theorem put_task_keeps_createdBy (db : Db) (now : Date) (user : User.t)
  (id : string) (body : TaskBody) :
  statusCode (fst (put_task db now user id body)) = 200 ->
  exists oid x x',
    castObjectId id = Some oid
    /\ findById Task._id oid (tasks db) = Some x
    /\ findById Task._id oid (tasks (snd (put_task db now user id body)))
       = Some x'
    /\ Task.createdBy x' = Task.createdBy x
    /\ Task.title x' = orElse (option_map trim (b_title body)) (Task.title x)
    /\ Task.status x' = orElse (b_status body) (Task.status x)
    /\ Task.priority x' = orElse (b_priority body) (Task.priority x)
    /\ Task.dueDate x' = orKeep (b_dueDate body) (Task.dueDate x)
    /\ Task.isPublic x' = orElse (b_isPublic body) (Task.isPublic x).
Proof.
  intros H200.
  destruct (put_task_200 _ _ _ _ _ H200) as (oid & x & u & Hv & Hid & Hx & Hc & Hacc).
  pose proof (put_task_ok db now user id body oid x u Hv Hid Hx Hc Hacc) as Hput.
  cbv zeta in Hput.
  exists oid, x, (apply_update now u x). rewrite Hput. cbn [snd tasks with_tasks].
  rewrite findById_updateOne by (intros a Ha; cbn; exact Ha).
  rewrite Hx. cbn [option_map].
  change (accepted now (delete_createdBy (sanitize_put body)) = Some u) in Hacc.
  unfold accepted in Hacc.
  destruct (castUpdate (delete_createdBy (sanitize_put body))) as [u'| |] eqn:Hu;
    try discriminate.
  destruct (validate_update now u'); [|discriminate]. injection Hacc as ->.
  apply castUpdate_delete_createdBy in Hu.
  destruct Hu as (Hcb & Ht & _ & Hs & Hp & Hd & _ & _ & Hi).
  cbn [apply_update Task.createdBy Task.title Task.status Task.priority
       Task.dueDate Task.isPublic].
  rewrite Hcb, Ht, Hs, Hp, Hd, Hi. cbn.
  repeat split; try assumption; try reflexivity.
  destruct (b_title body) as [t|]; cbn; [|reflexivity]. apply trim_idem.
Qed.

Lemma put_task_keeps_createdBy_witness :
  exists oid x x',
    castObjectId Sample.t1_id = Some oid
    /\ findById Task._id oid (tasks Sample.db) = Some x
    /\ findById Task._id oid
         (tasks (snd (put_task Sample.db Sample.now Sample.alice Sample.t1_id
                        takeoverBody)))
       = Some x'
    /\ Task.createdBy x' = Task.createdBy x
    /\ Task.title x'
       = orElse (option_map trim (b_title takeoverBody)) (Task.title x)
    /\ Task.status x' = orElse (b_status takeoverBody) (Task.status x)
    /\ Task.priority x' = orElse (b_priority takeoverBody) (Task.priority x)
    /\ Task.dueDate x' = orKeep (b_dueDate takeoverBody) (Task.dueDate x)
    /\ Task.isPublic x' = orElse (b_isPublic takeoverBody) (Task.isPublic x).
Proof.
  apply (put_task_keeps_createdBy Sample.db Sample.now Sample.alice
           Sample.t1_id takeoverBody).
  vm_compute. reflexivity.
Defined.

(** C8, on a body with an update operator: the route deletes the member
    [createdBy] of the body and hands the rest to [findByIdAndUpdate], so a
    [createdBy] under [$set] is applied.  Alice's update of her first task
    with [{ createdBy: bob, ... }] is answered 200 and leaves her the
    creator; with [{ $set: { createdBy: bob } }] it is answered 200 and
    makes Bob the creator, after which Alice's next update is refused. *)
Theorem set_operator_changes_createdBy :
  option_map Task.createdBy (findById Task._id Sample.t1_id (tasks Sample.db))
  = Some Sample.alice_id
  /\ b_createdBy takeoverBody = Some Sample.bob_id
  /\ statusCode (fst (put_task Sample.db Sample.now Sample.alice Sample.t1_id
                        takeoverBody)) = 200
  /\ option_map Task.createdBy
       (findById Task._id Sample.t1_id
          (tasks (snd (put_task Sample.db Sample.now Sample.alice Sample.t1_id
                         takeoverBody))))
     = Some Sample.alice_id
  /\ statusCode (fst (put_task Sample.db Sample.now Sample.alice Sample.t1_id
                        handoverBody)) = 200
  /\ option_map Task.createdBy
       (findById Task._id Sample.t1_id
          (tasks (snd (put_task Sample.db Sample.now Sample.alice Sample.t1_id
                         handoverBody))))
     = Some Sample.bob_id
  /\ fst (put_task
            (snd (put_task Sample.db Sample.now Sample.alice Sample.t1_id
                    handoverBody))
            Sample.now Sample.alice Sample.t1_id (Sample.statusBody "cancelled"))
     = accessDenied.
Proof. vm_compute. repeat split; reflexivity. Qed.

(** On a task that is already completed and passes the schema's validators
    at the time of the request, the status route with ['completed'], asked
    by the creator or the assignee, stores the current time as
    [completedAt], whatever time was there; saving the document through the
    model keeps the time that was there, since the hook sets [completedAt]
    only when it is absent. *)
Theorem patch_overwrites_completedAt_save_keeps_it (db : Db) (now : Date)
  (user : User.t) (id : string) (oid : ObjectId) (x : Task.t) (c0 : Date) :
  castObjectId id = Some oid ->
  findById Task._id oid (tasks db) = Some x ->
  Task.status x = "completed" ->
  Task.completedAt x = Some c0 ->
  may_set_status user x = true ->
  Task.validate now x = true ->
  (statusCode (fst (patch_status db now user id (Some "completed"))) = 200
   /\ option_map Task.completedAt
        (findById Task._id oid
           (tasks (snd (patch_status db now user id (Some "completed")))))
      = Some (Some now))
  /\ (forall ms mo,
        Task.completedAt (fields (preSave now (mkDoc x ms mo))) = Some c0)
  /\ exists ts,
       save now (hydrate x) (tasks db) = Next ts
       /\ option_map Task.completedAt (findById Task._id oid ts)
          = Some (Some c0).
Proof.
  intros Hid Hx Hst Hc Hmay Hval.
  pose proof (findById_key _ _ _ _ Hx) as Hk.
  destruct (after_patch_status now "completed" x) as (Hi & _ & Hca & _).
  split; [|split].
  - rewrite (patch_status_ok db now user id oid x "completed" Hid Hx
               eq_refl Hmay
               (validate_set_status now x "completed" Hval eq_refl)).
    cbn [fst snd statusCode json tasks with_tasks]. split; [reflexivity|].
    rewrite findById_updateOne by (intros; rewrite Hi; exact Hk).
    rewrite Hx. cbn [option_map]. rewrite Hca. reflexivity.
  - intros ms mo. rewrite preSave_settled; cbn [fields]; [exact Hc|].
    now rewrite Hst, Hc.
  - unfold save, hydrate. cbn [fields]. rewrite Hval. cbv zeta.
    rewrite preSave_settled
      by (unfold timestampsPreSave; cbn; now rewrite Hst, Hc).
    unfold timestampsPreSave. cbn [isModified modified_status modified_other
                                   orb fields].
    rewrite Hk. eexists. split; [reflexivity|].
    rewrite findById_updateOne by (intros; exact Hk).
    rewrite Hx. cbn. rewrite Hc. reflexivity.
Qed.

Lemma patch_overwrites_completedAt_save_keeps_it_witness :
  (statusCode (fst (patch_status Sample.db Sample.now Sample.bob Sample.t3_id
                      (Some "completed"))) = 200
   /\ option_map Task.completedAt
        (findById Task._id Sample.t3_id
           (tasks (snd (patch_status Sample.db Sample.now Sample.bob
                          Sample.t3_id (Some "completed")))))
      = Some (Some Sample.now))
  /\ (forall ms mo,
        Task.completedAt (fields (preSave Sample.now (mkDoc Sample.t3 ms mo)))
        = Some 250)
  /\ exists ts,
       save Sample.now (hydrate Sample.t3) (tasks Sample.db) = Next ts
       /\ option_map Task.completedAt (findById Task._id Sample.t3_id ts)
          = Some (Some 250).
Proof.
  apply (patch_overwrites_completedAt_save_keeps_it Sample.db Sample.now
           Sample.bob Sample.t3_id Sample.t3_id Sample.t3 250);
    vm_compute; reflexivity.
Defined.

(** C1, on the full update: [PUT /api/tasks/:id] by the creator with the body
    [{ status: 'completed' }] is answered with 200 and stores the status, yet
    the task has no [completedAt] afterwards; with [{ status: 'pending' }] on
    a completed task, the status changes and the old [completedAt] stays. *)
Theorem put_status_leaves_completedAt :
  statusCode (fst (put_task Sample.db Sample.now Sample.alice Sample.t1_id
                     (Sample.statusBody "completed"))) = 200
  /\ status_and_completedAt Sample.t1_id Sample.db = Some ("pending", None)
  /\ status_and_completedAt Sample.t1_id
       (snd (put_task Sample.db Sample.now Sample.alice Sample.t1_id
               (Sample.statusBody "completed")))
     = Some ("completed", None)
  /\ statusCode (fst (put_task Sample.db Sample.now Sample.alice Sample.t3_id
                        (Sample.statusBody "pending"))) = 200
  /\ status_and_completedAt Sample.t3_id Sample.db
     = Some ("completed", Some 250)
  /\ status_and_completedAt Sample.t3_id
       (snd (put_task Sample.db Sample.now Sample.alice Sample.t3_id
               (Sample.statusBody "pending")))
     = Some ("pending", Some 250).
Proof. vm_compute. repeat split; reflexivity. Qed.

(** On the status route the claim of C1 holds wherever the route can save:
    asked by the creator or the assignee with a status of the schema, on a
    stored task that passes the schema's validators with the new status,
    the task afterwards has that status and [completedAt] set to the time
    of the request for ['completed'] and unset for the three other
    statuses.  On a stored task that fails a validator (a due date that has
    passed, say) the route answers 500 and stores nothing. *)
Lemma patch_status_sets_or_clears_completedAt (db : Db) (now : Date)
  (user : User.t) (id : string) (oid : ObjectId) (x : Task.t) (s : string) :
  castObjectId id = Some oid ->
  findById Task._id oid (tasks db) = Some x ->
  isIn s Task.statuses = true ->
  may_set_status user x = true ->
  (Task.validate now (Task.set_status s x) = true ->
   statusCode (fst (patch_status db now user id (Some s))) = 200
   /\ status_and_completedAt oid (snd (patch_status db now user id (Some s)))
      = Some (s, if String.eqb s "completed" then Some now else None))
  /\ (Task.validate now (Task.set_status s x) = false ->
      patch_status db now user id (Some s)
      = (status_json 500 (message "Server error"), db)).
Proof.
  intros Hid Hx Hs Hmay. split; intros Hval.
  - pose proof (findById_key _ _ _ _ Hx) as Hk.
    destruct (after_patch_status now s x) as (Hi & Hst & Hca & _).
    rewrite (patch_status_ok db now user id oid x s Hid Hx Hs Hmay Hval).
    cbn [fst snd statusCode json]. split; [reflexivity|].
    unfold status_and_completedAt. cbn [tasks with_tasks].
    rewrite findById_updateOne by (intros; rewrite Hi; exact Hk).
    rewrite Hx. cbn [option_map]. now rewrite Hst, Hca.
  - exact (patch_status_invalid db now user id oid x s Hid Hx Hs Hmay Hval).
Qed.

(** Bob completes Alice's first task, which has no due date; Carol cannot
    complete Bob's task once its due date has passed. *)
Lemma patch_status_sets_or_clears_completedAt_witness :
  (statusCode (fst (patch_status Sample.db Sample.now Sample.bob Sample.t1_id
                      (Some "completed"))) = 200
   /\ status_and_completedAt Sample.t1_id
        (snd (patch_status Sample.db Sample.now Sample.bob Sample.t1_id
                (Some "completed")))
      = Some ("completed", Some Sample.now))
  /\ patch_status Sample.db 6000 Sample.carol Sample.t4_id (Some "completed")
     = (status_json 500 (message "Server error"), Sample.db).
Proof.
  split.
  - apply (patch_status_sets_or_clears_completedAt Sample.db Sample.now
             Sample.bob Sample.t1_id Sample.t1_id Sample.t1 "completed");
      vm_compute; reflexivity.
  - apply (patch_status_sets_or_clears_completedAt Sample.db 6000
             Sample.carol Sample.t4_id Sample.t4_id Sample.t4 "completed");
      vm_compute; reflexivity.
Defined.

(** The full update never runs the hook: for a body that holds no update
    operator, unless the body itself carries a [completedAt], the stored one
    is left as it was, whatever status the body sets. *)
Lemma put_task_keeps_completedAt (db : Db) (now : Date) (user : User.t)
  (id : string) (body : TaskBody) :
  statusCode (fst (put_task db now user id body)) = 200 ->
  b_completedAt body = None ->
  exists oid x x',
    castObjectId id = Some oid
    /\ findById Task._id oid (tasks db) = Some x
    /\ findById Task._id oid (tasks (snd (put_task db now user id body)))
       = Some x'
    /\ Task.status x' = orElse (b_status body) (Task.status x)
    /\ Task.completedAt x' = Task.completedAt x.
Proof.
  intros H200 Hnone.
  destruct (put_task_200 _ _ _ _ _ H200) as (oid & x & u & Hv & Hid & Hx & Hc & Hacc).
  pose proof (put_task_ok db now user id body oid x u Hv Hid Hx Hc Hacc) as Hput.
  cbv zeta in Hput.
  exists oid, x, (apply_update now u x). rewrite Hput. cbn [snd tasks with_tasks].
  rewrite findById_updateOne by (intros a Ha; cbn; exact Ha).
  rewrite Hx. cbn [option_map].
  change (accepted now (delete_createdBy (sanitize_put body)) = Some u) in Hacc.
  unfold accepted in Hacc.
  destruct (castUpdate (delete_createdBy (sanitize_put body))) as [u'| |] eqn:Hu;
    try discriminate.
  destruct (validate_update now u'); [|discriminate]. injection Hacc as ->.
  apply castUpdate_delete_createdBy in Hu.
  destruct Hu as (_ & _ & _ & Hs & _ & _ & Hca & _ & _).
  cbn [apply_update Task.status Task.completedAt].
  rewrite Hs, Hca. cbn. rewrite Hnone.
  repeat split; try assumption; reflexivity.
Qed.

Lemma put_task_keeps_completedAt_witness :
  exists oid x x',
    castObjectId Sample.t1_id = Some oid
    /\ findById Task._id oid (tasks Sample.db) = Some x
    /\ findById Task._id oid
         (tasks (snd (put_task Sample.db Sample.now Sample.alice Sample.t1_id
                        (Sample.statusBody "completed"))))
       = Some x'
    /\ Task.status x'
       = orElse (b_status (Sample.statusBody "completed")) (Task.status x)
    /\ Task.completedAt x' = Task.completedAt x.
Proof.
  apply (put_task_keeps_completedAt Sample.db Sample.now Sample.alice
           Sample.t1_id (Sample.statusBody "completed"));
    vm_compute; reflexivity.
Defined.

(** ** Who may do what *)

Lemma may_set_status_iff (user : User.t) (x : Task.t) :
  may_set_status user x = true
  <-> Task.createdBy x = User._id user
      \/ Task.assignedTo x = Some (User._id user).
Proof.
  unfold may_set_status.
  destruct (String.eqb (Task.createdBy x) (User._id user)) eqn:Ec; cbn.
  - apply String.eqb_eq in Ec. tauto.
  - apply String.eqb_neq in Ec.
    destruct (Task.assignedTo x) as [a|]; cbn.
    + destruct (String.eqb a (User._id user)) eqn:Ea; cbn.
      * apply String.eqb_eq in Ea. subst a. tauto.
      * apply String.eqb_neq in Ea. split; [discriminate|].
        intros [H|H]; [contradiction|]. injection H as H. contradiction.
    + split; [discriminate|]. intros [H|H]; [contradiction|discriminate].
Qed.

Lemma delete_task_by (db : Db) (user : User.t) (id : string) (oid : ObjectId)
  (x : Task.t) :
  castObjectId id = Some oid ->
  findById Task._id oid (tasks db) = Some x ->
  delete_task db user id
  = if String.eqb (Task.createdBy x) (User._id user)
    then (json (message "Task deleted successfully"),
          with_tasks (deleteOne Task._id oid (tasks db)) db)
    else (accessDenied, db).
Proof.
  intros Hid Hx. unfold delete_task. rewrite Hid. cbn [orThrow bind].
  rewrite Hx. destruct (String.eqb (Task.createdBy x) (User._id user));
    reflexivity.
Qed.

Lemma put_task_denied (db : Db) (now : Date) (user : User.t) (id : string)
  (body : UpdateBody) (oid : ObjectId) (x : Task.t) :
  validate_put (sanitize_put (members body)) = [] ->
  castObjectId id = Some oid ->
  findById Task._id oid (tasks db) = Some x ->
  Task.createdBy x <> User._id user ->
  put_task db now user id body = (accessDenied, db).
Proof.
  intros Hv Hid Hx Hc. unfold put_task. cbv zeta. rewrite Hv. cbn [isEmpty].
  rewrite Hid. cbn [orThrow bind]. rewrite Hx.
  apply String.eqb_neq in Hc. rewrite Hc. reflexivity.
Qed.

(** Whoever is not the creator leaves the store as it was. *)
Lemma put_task_not_creator (db : Db) (now : Date) (user : User.t) (id : string)
  (body : UpdateBody) (oid : ObjectId) (x : Task.t) :
  castObjectId id = Some oid ->
  findById Task._id oid (tasks db) = Some x ->
  Task.createdBy x <> User._id user ->
  snd (put_task db now user id body) = db
  /\ statusCode (fst (put_task db now user id body)) <> 200.
Proof.
  intros Hid Hx Hc. unfold put_task. cbv zeta.
  destruct (validate_put (sanitize_put (members body))); cbn [isEmpty].
  - rewrite Hid. cbn [orThrow bind]. rewrite Hx.
    apply String.eqb_neq in Hc. rewrite Hc. cbn. split; [reflexivity|].
    discriminate.
  - cbn. split; [reflexivity|discriminate].
Qed.

Lemma patch_status_denied (db : Db) (now : Date) (user : User.t) (id : string)
  (oid : ObjectId) (x : Task.t) (s : string) :
  castObjectId id = Some oid ->
  findById Task._id oid (tasks db) = Some x ->
  isIn s Task.statuses = true ->
  may_set_status user x = false ->
  patch_status db now user id (Some s) = (accessDenied, db).
Proof.
  intros Hid Hx Hs Hmay. unfold patch_status, checked_status.
  rewrite Hs. cbn [bind]. rewrite Hid. cbn [orThrow bind].
  rewrite Hx, Hmay. reflexivity.
Qed.

(** On an existing task the three writes are the creator's, the status
    update also the assignee's, and each succeeds exactly when the request
    also passes what the route and the schema validate.  The delete is
    answered 200 exactly for the creator, and the task is then gone.  The
    full update is answered 200 exactly for the creator with a body that
    passes the chain and an update the schema accepts, and the task then
    holds the update.  The status update with a status of the schema is
    answered 200 exactly for the creator or the assignee on a stored task
    that passes the schema's validators with the new status, and the task
    then holds the status.  Whoever else asks leaves the store as it was
    and, when the body passes the chain, is answered 403. *)
Theorem creator_edits_assignee_sets_status (db : Db) (now : Date)
  (user : User.t) (id : string) (oid : ObjectId) (x : Task.t)
  (body : UpdateBody) (s : string) :
  castObjectId id = Some oid ->
  findById Task._id oid (tasks db) = Some x ->
  isIn s Task.statuses = true ->
  (* DELETE /api/tasks/:id *)
  ((statusCode (fst (delete_task db user id)) = 200
    <-> Task.createdBy x = User._id user)
   /\ (Task.createdBy x = User._id user ->
       S (List.length (tasks (snd (delete_task db user id))))
       = List.length (tasks db)
       /\ (NoDup (map Task._id (tasks db)) ->
           findById Task._id oid (tasks (snd (delete_task db user id)))
           = None))
   /\ (Task.createdBy x <> User._id user ->
       delete_task db user id = (accessDenied, db)))
  (* PUT /api/tasks/:id *)
  /\ ((statusCode (fst (put_task db now user id body)) = 200
       <-> Task.createdBy x = User._id user
           /\ validate_put (sanitize_put (members body)) = []
           /\ isSome (accepted now (handed body)) = true)
      /\ (forall u,
            Task.createdBy x = User._id user ->
            validate_put (sanitize_put (members body)) = [] ->
            accepted now (handed body) = Some u ->
            findById Task._id oid (tasks (snd (put_task db now user id body)))
            = Some (apply_update now u x))
      /\ (Task.createdBy x <> User._id user ->
          snd (put_task db now user id body) = db
          /\ (validate_put (sanitize_put (members body)) = [] ->
              fst (put_task db now user id body) = accessDenied)))
  (* PATCH /api/tasks/:id/status *)
  /\ ((statusCode (fst (patch_status db now user id (Some s))) = 200
       <-> (Task.createdBy x = User._id user
            \/ Task.assignedTo x = Some (User._id user))
           /\ Task.validate now (Task.set_status s x) = true)
      /\ (Task.createdBy x = User._id user
          \/ Task.assignedTo x = Some (User._id user) ->
          Task.validate now (Task.set_status s x) = true ->
          findById Task._id oid
            (tasks (snd (patch_status db now user id (Some s))))
          = Some (after_patch now s x))
      /\ (~ (Task.createdBy x = User._id user
             \/ Task.assignedTo x = Some (User._id user)) ->
          patch_status db now user id (Some s) = (accessDenied, db))).
Proof.
  intros Hid Hx Hs.
  pose proof (findById_key _ _ _ _ Hx) as Hk.
  split; [|split].
  - rewrite (delete_task_by db user id oid x Hid Hx).
    destruct (String.eqb (Task.createdBy x) (User._id user)) eqn:Ec.
    + apply String.eqb_eq in Ec. cbn [fst snd statusCode json tasks with_tasks].
      split; [tauto|]. split; [|contradiction]. intros _. split.
      * exact (deleteOne_length _ _ _ _ Hx).
      * apply findById_deleteOne_same.
    + apply String.eqb_neq in Ec. cbn. repeat split; auto;
        try contradiction. discriminate.
  - split; [|split].
    + split.
      * intros H200.
        destruct (put_task_200 _ _ _ _ _ H200)
          as (oid' & x' & u & Hv & Hid' & Hx' & Hc & Hacc).
        rewrite Hid in Hid'. injection Hid' as <-.
        rewrite Hx in Hx'. injection Hx' as <-.
        rewrite Hacc. auto.
      * intros (Hc & Hv & Hacc).
        destruct (accepted now (handed body)) as [u|] eqn:Hu; [|discriminate].
        now rewrite (put_task_ok db now user id body oid x u Hv Hid Hx Hc Hu).
    + intros u Hc Hv Hacc.
      rewrite (put_task_ok db now user id body oid x u Hv Hid Hx Hc Hacc).
      cbn [fst snd statusCode json tasks with_tasks].
      rewrite findById_updateOne by (intros a Ha; cbn; exact Ha).
      now rewrite Hx.
    + intros Hc. split.
      * exact (proj1 (put_task_not_creator db now user id body oid x Hid Hx Hc)).
      * intros Hv.
        now rewrite (put_task_denied db now user id body oid x Hv Hid Hx Hc).
  - destruct (may_set_status user x) eqn:Hmay.
    + pose proof (proj1 (may_set_status_iff user x) Hmay) as Hwho.
      destruct (Task.validate now (Task.set_status s x)) eqn:Hval.
      * rewrite (patch_status_ok db now user id oid x s Hid Hx Hs Hmay Hval).
        cbn [fst snd statusCode json tasks with_tasks].
        rewrite findById_updateOne
          by (intros; rewrite (proj1 (after_patch_status now s x)); exact Hk).
        rewrite Hx. repeat split; auto. contradiction.
      * rewrite (patch_status_invalid db now user id oid x s Hid Hx Hs Hmay Hval).
        cbn. split; [|split].
        -- split; [discriminate|]. intros [_ H]. discriminate.
        -- intros _ H. discriminate.
        -- intros H. contradiction.
    + assert (Hwho : ~ (Task.createdBy x = User._id user
                        \/ Task.assignedTo x = Some (User._id user))).
      { intros H. apply may_set_status_iff in H. congruence. }
      rewrite (patch_status_denied db now user id oid x s Hid Hx Hs Hmay).
      cbn. split; [|split].
      * split; [discriminate|]. intros [H _]. contradiction.
      * intros H. contradiction.
      * reflexivity.
Qed.

(** Bob, the assignee of Alice's first task, may set its status and may
    neither edit nor delete it. *)
Lemma creator_edits_assignee_sets_status_witness :
  delete_task Sample.db Sample.bob Sample.t1_id = (accessDenied, Sample.db)
  /\ fst (put_task Sample.db Sample.now Sample.bob Sample.t1_id takeoverBody)
     = accessDenied
  /\ findById Task._id Sample.t1_id
       (tasks (snd (patch_status Sample.db Sample.now Sample.bob Sample.t1_id
                      (Some "cancelled"))))
     = Some (after_patch Sample.now "cancelled" Sample.t1).
Proof.
  destruct (creator_edits_assignee_sets_status Sample.db Sample.now Sample.bob
              Sample.t1_id Sample.t1_id Sample.t1 takeoverBody "cancelled")
    as ((_ & _ & Hdel) & (_ & _ & Hput) & (_ & Hpatch & _));
    try (vm_compute; reflexivity).
  split; [|split].
  - apply Hdel. vm_compute. discriminate.
  - apply Hput; [vm_compute; discriminate|reflexivity].
  - apply Hpatch; [right; reflexivity|reflexivity].
Defined.

(** C3, on a task whose due date has passed: [save] runs every validator of
    the schema on the stored task, the one of [dueDate] among them, so the
    status route cannot save it.  Bob's task, due at 5000 and assigned to
    Carol, takes a new status from Carol at 4000; at 6000 Carol and Bob are
    answered 500 and nothing is stored (Alice, who is neither, is answered
    403), while Bob's full update with the same status, which validates the
    paths of the update alone, is answered 200 and stores it. *)
Theorem status_route_fails_once_due_date_passed :
  Task.createdBy Sample.t4 = Sample.bob_id
  /\ Task.assignedTo Sample.t4 = Some Sample.carol_id
  /\ Task.dueDate Sample.t4 = Some 5000
  /\ statusCode (fst (patch_status Sample.db 4000 Sample.carol Sample.t4_id
                        (Some "in-progress"))) = 200
  /\ patch_status Sample.db 6000 Sample.carol Sample.t4_id (Some "in-progress")
     = (status_json 500 (message "Server error"), Sample.db)
  /\ patch_status Sample.db 6000 Sample.bob Sample.t4_id (Some "in-progress")
     = (status_json 500 (message "Server error"), Sample.db)
  /\ patch_status Sample.db 6000 Sample.alice Sample.t4_id (Some "in-progress")
     = (accessDenied, Sample.db)
  /\ statusCode (fst (put_task Sample.db 6000 Sample.bob Sample.t4_id
                        (Sample.statusBody "in-progress"))) = 200
  /\ status_and_completedAt Sample.t4_id
       (snd (put_task Sample.db 6000 Sample.bob Sample.t4_id
               (Sample.statusBody "in-progress")))
     = Some ("in-progress", None).
Proof. vm_compute. repeat split; reflexivity. Qed.

(** C10, on a completed task whose due date has passed: the status route
    assigns the new time and then cannot save.  Carol completes Bob's task
    (due at 5000) at 4000; completing it again at 4500 overwrites the time;
    completing it again at 6000 is answered 500 and the time of 4000
    stays. *)
Theorem completed_again_after_due_date :
  status_and_completedAt Sample.t4_id db_t4_done = Some ("completed", Some 4000)
  /\ statusCode (fst (patch_status db_t4_done 4500 Sample.carol Sample.t4_id
                        (Some "completed"))) = 200
  /\ status_and_completedAt Sample.t4_id
       (snd (patch_status db_t4_done 4500 Sample.carol Sample.t4_id
               (Some "completed")))
     = Some ("completed", Some 4500)
  /\ patch_status db_t4_done 6000 Sample.carol Sample.t4_id (Some "completed")
     = (status_json 500 (message "Server error"), db_t4_done)
  /\ status_and_completedAt Sample.t4_id
       (snd (patch_status db_t4_done 6000 Sample.carol Sample.t4_id
               (Some "completed")))
     = Some ("completed", Some 4000).
Proof. vm_compute. repeat split; reflexivity. Qed.


(** ** Reading one task *)

Lemma populate_ref_found (w : bool) (us : list User.t) (oid : ObjectId) :
  isSome (findById User._id oid us) = true ->
  exists r, populate_ref w us oid = Some r /\ ref_id r = oid.
Proof.
  unfold populate_ref.
  destruct (findById User._id oid us) as [u|] eqn:Hu; [|discriminate].
  intros _. eexists. split; [reflexivity|]. cbn.
  exact (findById_key _ _ _ _ Hu).
Qed.

(** The body of the answer that shows a task holds the task. *)
Lemma taskFound_shows (now : Date) (db : Db) (x : Task.t) :
  statusCode (taskFound now db x) = 200
  /\ exists j, property "task" (body (taskFound now db x)) = Some j
               /\ shows j x.
Proof.
  split; [reflexivity|]. eexists. split; [reflexivity|].
  unfold shows, taskJSON, populate. cbn [p_task p_assignedTo p_createdBy].
  destruct (Task.description x), (Task.dueDate x), (Task.completedAt x),
    (Task.assignedTo x); cbn; repeat split; reflexivity.
Qed.

Lemma get_task_decides (db : Db) (now : Date) (user : User.t)
  (id : string) (oid : ObjectId) (x : Task.t) :
  castObjectId id = Some oid ->
  findById Task._id oid (tasks db) = Some x ->
  isSome (findById User._id (Task.createdBy x) (users db)) = true ->
  isSome (findById User._id (User._id user) (users db)) = true ->
  (Task.isPublic x = false ->
   Task.createdBy x <> User._id user ->
   Task.assignedTo x <> Some (User._id user) ->
   get_task db now user id = accessDenied)
  /\ (Task.isPublic x = true
      \/ Task.createdBy x = User._id user
      \/ Task.assignedTo x = Some (User._id user) ->
      get_task db now user id = taskFound now db x).
Proof.
  intros Hid Hx Hcreator Hreq.
  unfold get_task, taskFound. rewrite Hid. cbn [orThrow bind]. rewrite Hx.
  destruct (populate_ref_found true _ _ Hcreator) as (c & Hc & Hcid).
  unfold populate. cbn [p_createdBy p_assignedTo]. rewrite Hc.
  destruct (Task.isPublic x) eqn:Hpub; cbn [negb bind orThrow].
  - split; [discriminate|]. intros _. reflexivity.
  - rewrite Hcid.
    destruct (String.eqb (Task.createdBy x) (User._id user)) eqn:Ec;
      cbn [negb andb bind].
    + apply String.eqb_eq in Ec. split; [contradiction|]. reflexivity.
    + apply String.eqb_neq in Ec.
      destruct (Task.assignedTo x) as [a|] eqn:Ha; cbn [option_map].
      * destruct (String.eqb a (User._id user)) eqn:Ea.
        -- apply String.eqb_eq in Ea. subst a.
           destruct (populate_ref_found true _ _ Hreq) as (r & Hr & Hrid).
           rewrite Hr, Hrid, String.eqb_refl. cbn.
           split; [intros _ _ H; now contradiction H|]. reflexivity.
        -- apply String.eqb_neq in Ea.
           assert (Hden :
             match populate_ref true (users db) a with
             | Some a0 => negb (String.eqb (ref_id a0) (User._id user))
             | None => true
             end = true).
           { unfold populate_ref.
             destruct (findById User._id a (users db)) as [u'|] eqn:Hu';
               [|reflexivity].
             cbn. rewrite (findById_key _ _ _ _ Hu').
             apply String.eqb_neq in Ea. now rewrite Ea. }
           destruct (populate_ref true (users db) a) as [r|];
             cbn in Hden |- *; rewrite ?Hden; cbn.
           ++ split; [auto|]. intros [H|[H|H]]; try discriminate;
                try contradiction. injection H as H. contradiction.
           ++ split; [auto|]. intros [H|[H|H]]; try discriminate;
                try contradiction. injection H as H. contradiction.
      * cbn. split; [auto|].
        intros [H|[H|H]]; try discriminate; contradiction.
Qed.

(** Where the creator's user document is in the store, as is the
    requester's: a task that is not public is shown to its creator and to
    its assignee and to nobody else, who is answered 403 with no task in the
    body; a public task is shown to everyone.  The answer that shows the
    task is a 200 whose body holds, under [task], the identifier, title,
    status, priority and visibility of the stored task. *)
Theorem get_task_visibility (db : Db) (now : Date) (user : User.t)
  (id : string) (oid : ObjectId) (x : Task.t) :
  castObjectId id = Some oid ->
  findById Task._id oid (tasks db) = Some x ->
  isSome (findById User._id (Task.createdBy x) (users db)) = true ->
  isSome (findById User._id (User._id user) (users db)) = true ->
  (Task.isPublic x = false ->
   Task.createdBy x <> User._id user ->
   Task.assignedTo x <> Some (User._id user) ->
   get_task db now user id = accessDenied
   /\ property "task" (body (get_task db now user id)) = None)
  /\ (Task.isPublic x = true
      \/ Task.createdBy x = User._id user
      \/ Task.assignedTo x = Some (User._id user) ->
      get_task db now user id = taskFound now db x
      /\ statusCode (get_task db now user id) = 200
      /\ exists j, property "task" (body (get_task db now user id)) = Some j
                   /\ shows j x).
Proof.
  intros Hid Hx Hcreator Hreq.
  destruct (get_task_decides db now user id oid x Hid Hx Hcreator Hreq)
    as [Hden Hall].
  split.
  - intros Hpub Hc Ha. rewrite (Hden Hpub Hc Ha). split; reflexivity.
  - intros Hwho. rewrite (Hall Hwho). split; [reflexivity|].
    apply taskFound_shows.
Qed.

(** Carol is neither the creator nor the assignee of Alice's first task;
    Bob is its assignee. *)
Lemma get_task_visibility_witness :
  (get_task Sample.db Sample.now Sample.carol Sample.t1_id = accessDenied
   /\ property "task"
        (body (get_task Sample.db Sample.now Sample.carol Sample.t1_id))
      = None)
  /\ (get_task Sample.db Sample.now Sample.bob Sample.t1_id
      = taskFound Sample.now Sample.db Sample.t1
      /\ statusCode (get_task Sample.db Sample.now Sample.bob Sample.t1_id)
         = 200
      /\ exists j,
           property "task"
             (body (get_task Sample.db Sample.now Sample.bob Sample.t1_id))
           = Some j
           /\ shows j Sample.t1).
Proof.
  split.
  - apply (get_task_visibility Sample.db Sample.now Sample.carol Sample.t1_id
             Sample.t1_id Sample.t1);
      try (vm_compute; reflexivity); vm_compute; discriminate.
  - apply (get_task_visibility Sample.db Sample.now Sample.bob Sample.t1_id
             Sample.t1_id Sample.t1);
      try (vm_compute; reflexivity).
    right. right. reflexivity.
Defined.

(** C2, on a task whose creator was deleted: [populate] leaves [null] for
    the creator and the route reads [task.createdBy._id] of it, where for
    the assignee it asks [!task.assignedTo] first.  Carol reads Bob's
    private task, which is assigned to her; once Alice, an admin, has
    deleted Bob's account the task is still stored and still hers to do,
    and her request is answered 500, as is Alice's, who is neither creator
    nor assignee and is owed a 403. *)
Theorem assignee_reads_until_creator_is_deleted :
  Task.isPublic Sample.t4 = false
  /\ Task.createdBy Sample.t4 = Sample.bob_id
  /\ Task.assignedTo Sample.t4 = Some Sample.carol_id
  /\ get_task Sample.db Sample.now Sample.carol Sample.t4_id
     = taskFound Sample.now Sample.db Sample.t4
  /\ statusCode (fst (delete_user Sample.db Sample.alice Sample.bob_id)) = 200
  /\ findById Task._id Sample.t4_id (tasks db_without_bob) = Some Sample.t4
  /\ findById User._id Sample.carol_id (users db_without_bob)
     = Some Sample.carol
  /\ get_task db_without_bob Sample.now Sample.carol Sample.t4_id
     = status_json 500 (message "Server error")
  /\ get_task db_without_bob Sample.now Sample.alice Sample.t4_id
     = status_json 500 (message "Server error").
Proof. vm_compute. repeat split; reflexivity. Qed.

(** Without the creator's user document the route cannot read
    [task.createdBy._id]: a task that is not public is answered 500 to
    everyone, the assignee included. *)
Lemma get_task_creator_gone (db : Db) (now : Date) (user : User.t)
  (id : string) (oid : ObjectId) (x : Task.t) :
  castObjectId id = Some oid ->
  findById Task._id oid (tasks db) = Some x ->
  Task.isPublic x = false ->
  findById User._id (Task.createdBy x) (users db) = None ->
  get_task db now user id = status_json 500 (message "Server error").
Proof.
  intros Hid Hx Hpub Hgone.
  unfold get_task. rewrite Hid. cbn [orThrow bind]. rewrite Hx, Hpub.
  unfold populate, populate_ref. cbn [p_createdBy]. rewrite Hgone.
  reflexivity.
Qed.

(** Such a store is one request away: once Alice, an admin, has deleted
    Bob's account, Bob's task is still there and Carol, its assignee, is
    answered 500. *)
Lemma get_task_creator_gone_witness :
  get_task (snd (delete_user Sample.db Sample.alice Sample.bob_id)) Sample.now
           Sample.carol Sample.t4_id
  = status_json 500 (message "Server error").
Proof.
  apply (get_task_creator_gone
           (snd (delete_user Sample.db Sample.alice Sample.bob_id)) Sample.now
           Sample.carol Sample.t4_id Sample.t4_id Sample.t4);
    vm_compute; reflexivity.
Defined.

(** ** Identifiers that name nothing, and strings that are no identifier *)

(** C5, as the code has it: on every by-identifier route a body that fails
    the route's validation chain is answered 400 'Validation failed' before
    the identifier is read; otherwise a string that is no identifier is
    answered 400 'Invalid task ID' or 'Invalid user ID', and an identifier
    that casts and names no document is answered 404, except on
    [PUT /api/users/:id], which first answers 400 when the name or the
    address of the body is another user's and 500 when the schema's
    validators refuse the update.  Nothing is written in any of these
    cases. *)
Theorem absent_is_404_malformed_is_400
  (getPublicProfile : User.t -> JSON) (isEmail : string -> bool)
  (normalizeEmail : string -> string) (userSchemaAccepts : UserBody -> bool)
  (db : Db) (now : Date) (user : User.t) (id : string)
  (body : UpdateBody) (status : option string) (ub : UserBody) :
  (castObjectId id = None ->
     get_task db now user id = invalidId "task"
     /\ delete_task db user id = (invalidId "task", db)
     /\ put_task db now user id body
        = (if isEmpty (validate_put (sanitize_put (members body)))
           then invalidId "task"
           else validationFailed (validate_put (sanitize_put (members body))),
           db)
     /\ patch_status db now user id status
        = (if isEmpty (validate_patch status)
           then invalidId "task"
           else validationFailed (validate_patch status),
           db)
     /\ get_user getPublicProfile db user id = invalidId "user"
     /\ delete_user db user id = (invalidId "user", db)
     /\ put_user getPublicProfile isEmail normalizeEmail userSchemaAccepts
          db now id ub
        = (if isEmpty (validate_user isEmail ub)
           then invalidId "user"
           else validationFailed (validate_user isEmail ub),
           db))
  /\ (forall oid,
        castObjectId id = Some oid ->
        findById Task._id oid (tasks db) = None ->
        get_task db now user id = notFound "Task"
        /\ delete_task db user id = (notFound "Task", db)
        /\ put_task db now user id body
           = (if isEmpty (validate_put (sanitize_put (members body)))
              then notFound "Task"
              else validationFailed
                     (validate_put (sanitize_put (members body))),
              db)
        /\ patch_status db now user id status
           = (if isEmpty (validate_patch status)
              then notFound "Task"
              else validationFailed (validate_patch status),
              db))
  /\ (forall oid,
        castObjectId id = Some oid ->
        findById User._id oid (users db) = None ->
        get_user getPublicProfile db user id = notFound "User"
        /\ delete_user db user id = (notFound "User", db)
        /\ put_user getPublicProfile isEmail normalizeEmail userSchemaAccepts
             db now id ub
           = (if isEmpty (validate_user isEmail ub)
              then
                if taken (users db) oid (sanitize_user normalizeEmail ub)
                then status_json 400
                       (message "Username or email already exists")
                else if userSchemaAccepts (sanitize_user normalizeEmail ub)
                     then notFound "User"
                     else status_json 500 (message "Server error")
              else validationFailed (validate_user isEmail ub),
              db)).
Proof.
  split; [|split].
  - intros Hid. repeat split.
    + unfold get_task. now rewrite Hid.
    + unfold delete_task. now rewrite Hid.
    + unfold put_task. cbv zeta.
      destruct (validate_put (sanitize_put (members body)));
        cbn [isEmpty]; [|reflexivity].
      now rewrite Hid.
    + unfold patch_status, checked_status, validate_patch.
      destruct status as [s|]; [|reflexivity].
      destruct (isIn s Task.statuses); cbn [isEmpty bind]; [|reflexivity].
      now rewrite Hid.
    + unfold get_user. now rewrite Hid.
    + unfold delete_user. now rewrite Hid.
    + unfold put_user. cbv zeta.
      destruct (validate_user isEmail ub); cbn [isEmpty]; [|reflexivity].
      rewrite Hid.
      destruct (isEmpty (taken_by (sanitize_user normalizeEmail ub)));
        reflexivity.
  - intros oid Hid Hx. repeat split.
    + unfold get_task. rewrite Hid. cbn. now rewrite Hx.
    + unfold delete_task. rewrite Hid. cbn. now rewrite Hx.
    + unfold put_task. cbv zeta.
      destruct (validate_put (sanitize_put (members body)));
        cbn [isEmpty]; [|reflexivity].
      rewrite Hid. cbn. now rewrite Hx.
    + unfold patch_status, checked_status, validate_patch.
      destruct status as [s|]; [|reflexivity].
      destruct (isIn s Task.statuses); cbn [isEmpty bind]; [|reflexivity].
      rewrite Hid. cbn [orThrow bind]. now rewrite Hx.
  - intros oid Hid Hx. repeat split.
    + unfold get_user. rewrite Hid. cbn. now rewrite Hx.
    + unfold delete_user. rewrite Hid. cbn. now rewrite Hx.
    + unfold put_user, taken. cbv zeta.
      destruct (validate_user isEmail ub); cbn [isEmpty]; [|reflexivity].
      rewrite Hid. cbn [orThrow bind].
      destruct (isEmpty (taken_by (sanitize_user normalizeEmail ub)));
        cbn [negb andb bind].
      * destruct (userSchemaAccepts (sanitize_user normalizeEmail ub));
          cbn [bind]; [|reflexivity].
        rewrite findById_updateOne by (intros a Ha; cbn; exact Ha).
        now rewrite Hx.
      * destruct (findOne _ (users db)); cbn [isSome bind]; [reflexivity|].
        destruct (userSchemaAccepts (sanitize_user normalizeEmail ub));
          cbn [bind]; [|reflexivity].
        rewrite findById_updateOne by (intros a Ha; cbn; exact Ha).
        now rewrite Hx.
Qed.

Lemma absent_is_404_malformed_is_400_witness :
  (get_task Sample.db Sample.now Sample.alice nobody_id = notFound "Task"
   /\ delete_task Sample.db Sample.alice nobody_id
      = (notFound "Task", Sample.db)
   /\ put_task Sample.db Sample.now Sample.alice nobody_id takeoverBody
      = (notFound "Task", Sample.db)
   /\ patch_status Sample.db Sample.now Sample.alice nobody_id (Some "pending")
      = (notFound "Task", Sample.db))
  /\ (get_user publicProfile Sample.db Sample.alice nobody_id = notFound "User"
      /\ delete_user Sample.db Sample.alice nobody_id
         = (notFound "User", Sample.db)
      /\ put_user publicProfile (fun _ => true) (fun e => e) (fun _ => true)
           Sample.db Sample.now nobody_id renameBody
         = (notFound "User", Sample.db)).
Proof.
  destruct (absent_is_404_malformed_is_400 publicProfile (fun _ => true)
              (fun e => e) (fun _ => true) Sample.db Sample.now Sample.alice
              nobody_id takeoverBody (Some "pending") renameBody)
    as (_ & Htask & Huser).
  split.
  - apply (Htask nobody_id); vm_compute; reflexivity.
  - apply (Huser nobody_id); vm_compute; reflexivity.
Defined.

(** C5, as stated, fails: on a string that is no identifier the task route
    and the user route answer 400; and on an identifier that names no user,
    an update that asks for Carol's username is answered 400 for the name,
    not 404 for the identifier. *)
Lemma malformed_is_400_and_a_taken_name_comes_first :
  castObjectId "not-an-id" = None
  /\ statusCode (get_task Sample.db Sample.now Sample.alice "not-an-id") = 400
  /\ statusCode (get_user publicProfile Sample.db Sample.alice "not-an-id") = 400
  /\ castObjectId nobody_id = Some nobody_id
  /\ findById User._id nobody_id (users Sample.db) = None
  /\ put_user publicProfile (fun _ => true) (fun e => e) (fun _ => true)
       Sample.db Sample.now nobody_id takeCarolsName
     = (status_json 400 (message "Username or email already exists"),
        Sample.db).
Proof. vm_compute. repeat split; reflexivity. Qed.

(** ** An admin's own account *)

(** [DELETE /api/users/:id] with the string of the requester's own
    identifier is answered 400 and the store is left as it was; with the
    identifier of any other user in the store it deletes that user and
    nothing else: in a store of distinct identifiers the user is not found
    afterwards, the requester still is, and no task is touched. *)
Theorem delete_user_spares_oneself (db : Db) (reqUser : User.t) :
  castObjectId (User._id reqUser) = Some (User._id reqUser) ->
  isSome (findById User._id (User._id reqUser) (users db)) = true ->
  NoDup (map User._id (users db)) ->
  delete_user db reqUser (User._id reqUser)
  = (status_json 400 (message "Cannot delete your own account"), db)
  /\ forall id oid victim,
       castObjectId id = Some oid ->
       findById User._id oid (users db) = Some victim ->
       oid <> User._id reqUser ->
       fst (delete_user db reqUser id)
       = json (message "User deleted successfully")
       /\ findById User._id oid (users (snd (delete_user db reqUser id)))
          = None
       /\ S (List.length (users (snd (delete_user db reqUser id))))
          = List.length (users db)
       /\ findById User._id (User._id reqUser)
            (users (snd (delete_user db reqUser id)))
          = findById User._id (User._id reqUser) (users db)
       /\ tasks (snd (delete_user db reqUser id)) = tasks db.
Proof.
  intros Hcanon Hstored Hdistinct. split.
  - unfold delete_user. rewrite Hcanon. cbn [orThrow bind].
    destruct (findById User._id (User._id reqUser) (users db));
      [|discriminate].
    rewrite String.eqb_refl. reflexivity.
  - intros id oid victim Hid Hv Hne.
    assert (Hdel : delete_user db reqUser id
                   = (json (message "User deleted successfully"),
                      with_users (deleteOne User._id oid (users db)) db)).
    { unfold delete_user. rewrite Hid. cbn [orThrow bind]. rewrite Hv.
      destruct (String.eqb (User._id reqUser) id) eqn:E; [|reflexivity].
      apply String.eqb_eq in E. subst id. congruence. }
    rewrite Hdel. cbn [fst snd users tasks with_users].
    split; [reflexivity|]. split; [now apply findById_deleteOne_same|].
    split; [exact (deleteOne_length _ _ _ _ Hv)|].
    split; [|reflexivity]. apply findById_deleteOne_other. congruence.
Qed.

Lemma delete_user_spares_oneself_witness :
  delete_user Sample.db Sample.alice Sample.alice_id
  = (status_json 400 (message "Cannot delete your own account"), Sample.db)
  /\ fst (delete_user Sample.db Sample.alice Sample.bob_id)
     = json (message "User deleted successfully")
  /\ findById User._id Sample.bob_id
       (users (snd (delete_user Sample.db Sample.alice Sample.bob_id)))
     = None.
Proof.
  destruct (delete_user_spares_oneself Sample.db Sample.alice)
    as (Hself & Hother);
    try (vm_compute; reflexivity).
  { repeat constructor; cbn; intuition discriminate. }
  split; [exact Hself|].
  destruct (Hother Sample.bob_id Sample.bob_id Sample.bob) as (H1 & H2 & _);
    try (vm_compute; reflexivity).
  { vm_compute. discriminate. }
  split; assumption.
Defined.

(** C9, on the requester's own identifier in another spelling: [findById]
    casts the parameter, for which the case of a hexadecimal digit does not
    matter, while the guard compares the parameter as a string with
    [req.user._id.toString()].  Alice is refused with her identifier as
    [toString()] writes it, and deletes her own account with its first
    digit in upper case. *)
Theorem own_id_in_another_case_is_deleted :
  findById User._id Sample.alice_id (users Sample.db) = Some Sample.alice
  /\ delete_user Sample.db Sample.alice Sample.alice_id
     = (status_json 400 (message "Cannot delete your own account"), Sample.db)
  /\ castObjectId alice_id_capital = Some Sample.alice_id
  /\ fst (delete_user Sample.db Sample.alice alice_id_capital)
     = json (message "User deleted successfully")
  /\ findById User._id Sample.alice_id
       (users (snd (delete_user Sample.db Sample.alice alice_id_capital)))
     = None.
Proof. vm_compute. repeat split; reflexivity. Qed.

(** The comparison of line 158 is between strings: the requester's own
    identifier written in upper case names the same user to [findById] and
    is not the string [toString()] gives, so the account is deleted. *)
Lemma delete_user_own_id_upper_case :
  castObjectId "AAAAAAAAAAAAAAAAAAAAAAAA" = Some (User._id Sample.alice)
  /\ statusCode (fst (delete_user Sample.db Sample.alice
                        "AAAAAAAAAAAAAAAAAAAAAAAA")) = 200
  /\ findById User._id (User._id Sample.alice)
       (users (snd (delete_user Sample.db Sample.alice
                      "AAAAAAAAAAAAAAAAAAAAAAAA")))
     = None.
Proof. vm_compute. repeat split; reflexivity. Qed.

(** ** The password stays on the server *)

Lemma page_of_cases {A : Type} (createdAt : A -> Date) (page lim : Z)
  (l : list A) :
  page_of createdAt page lim l = Thrown MongoServerError
  \/ page_of createdAt page lim l
     = Next (limit lim (skipn (Z.to_nat ((page - 1) * lim))
                          (sort_desc createdAt l))).
Proof.
  unfold page_of, skip.
  destruct ((page - 1) * lim <? 0); cbn; [left|right]; reflexivity.
Qed.

Lemma fieldError_no_password (path value msg : string) :
  hasKey "password" (fieldError path value msg) = false.
Proof. reflexivity. Qed.

Lemma optional_no_password (path msg : string) (ok : string -> bool)
  (v : option string) :
  existsb (hasKey "password") (optional path msg ok v) = false.
Proof.
  unfold optional. destruct v as [s|]; [|reflexivity].
  destruct (ok s); [reflexivity|].
  cbn [existsb]. now rewrite fieldError_no_password.
Qed.

Section NoPassword.
Variable getPublicProfile : User.t -> JSON.
Variable isEmail : string -> bool.
Variable normalizeEmail : string -> string.
Variable userSchemaAccepts : UserBody -> bool.

(** The profile shows nothing of a password the document does not hold. *)
Hypothesis profile_of_selected :
  forall u, User.password u = None ->
            hasKey "password" (getPublicProfile u) = false.

Lemma userJSON_no_password (u : User.t) :
  hasKey "password" (userJSON getPublicProfile u) = false.
Proof. unfold userJSON. now apply profile_of_selected. Qed.

Lemma users_reply_no_password (found : list User.t) (page lim total : Z) :
  hasKey "password"
    (body (listReply "users" (map (userJSON getPublicProfile) found)
                     page lim total)) = false.
Proof.
  cbn. rewrite orb_false_r.
  induction found as [|u r IH]; [reflexivity|].
  cbn. now rewrite userJSON_no_password.
Qed.

Lemma paged_users_no_password (m : Step (list User.t)) (page lim total : Z) :
  (m = Thrown MongoServerError \/ exists found, m = Next found) ->
  hasKey "password"
    (body (catch_500
             (found <- m ;;
              Next (listReply "users" (map (userJSON getPublicProfile) found)
                              page lim total)))) = false.
Proof.
  intros [-> | (found & ->)]; [reflexivity|].
  cbn [bind catch_500]. apply users_reply_no_password.
Qed.

(** C7: no response of the user list, the user read, the user update or
    the user search holds a [password] key, at any depth. *)
Theorem user_routes_hold_no_password (db : Db) (now : Date) (reqUser : User.t)
  (id : string) (q : ListQuery) (query : Pattern) (ub : UserBody) :
  hasKey "password" (body (get_users getPublicProfile db q)) = false
  /\ hasKey "password" (body (get_user getPublicProfile db reqUser id)) = false
  /\ hasKey "password"
       (body (fst (put_user getPublicProfile isEmail normalizeEmail
                     userSchemaAccepts db now id ub))) = false
  /\ hasKey "password" (body (search_users getPublicProfile db query q))
     = false.
Proof.
  split; [|split; [|split]].
  - unfold get_users. cbv zeta. apply paged_users_no_password.
    destruct (page_of_cases User.createdAt (orDefault (q_page q) 1)
                (orDefault (q_limit q) 10) (find_users [] (users db)))
      as [H|H]; [left|right; eexists]; exact H.
  - unfold get_user. destruct (castObjectId id) as [oid|]; [|reflexivity].
    cbn [orThrow bind].
    destruct (findById User._id oid (users db)) as [u|]; [|reflexivity].
    destruct (negb _); [|reflexivity].
    cbn. now rewrite userJSON_no_password.
  - unfold put_user. cbv zeta.
    destruct (validate_user isEmail ub) as [|e es] eqn:Hv.
    + cbn [isEmpty].
      destruct (isEmpty (taken_by (sanitize_user normalizeEmail ub))).
      * cbn [bind]. destruct (castObjectId id) as [oid|]; [|reflexivity].
        cbn [orThrow bind]. destruct (userSchemaAccepts _); [|reflexivity].
        cbn [bind]. destruct (findById User._id oid _); [|reflexivity].
        cbn. now rewrite userJSON_no_password.
      * destruct (castObjectId id) as [oid|]; [|reflexivity].
        cbn [orThrow bind]. destruct (findOne _ _); [reflexivity|].
        cbn [orThrow bind]. destruct (userSchemaAccepts _); [|reflexivity].
        cbn [bind]. destruct (findById User._id oid _); [|reflexivity].
        cbn. now rewrite userJSON_no_password.
    + cbn [isEmpty catch_id_write fst body validationFailed status_json].
      rewrite <- Hv. unfold validate_user.
      change (false || (false || existsb (hasKey "password")
                (optional "username"
                   "Username must be between 3 and 30 characters"
                   (fun s => (3 <=? strlen s) && (strlen s <=? 30))
                   (ub_username ub)
                 ++ optional "email" "Please provide a valid email" isEmail
                      (ub_email ub)
                 ++ optional "role" "Role must be either user or admin"
                      (fun s => isIn s ["user"; "admin"]) (ub_role ub))
              || false) = false).
      rewrite !existsb_app, !optional_no_password. reflexivity.
  - unfold search_users. cbv zeta. apply paged_users_no_password.
    match goal with
    | |- page_of ?c ?p ?l ?xs = _ \/ _ =>
        destruct (page_of_cases c p l xs) as [H|H];
          [left|right; eexists]; exact H
    end.
Qed.
End NoPassword.

Lemma user_routes_hold_no_password_witness :
  hasKey "password"
    (body (get_users publicProfile Sample.db
             (mkQuery None None None None None))) = false
  /\ hasKey "password"
       (body (get_user publicProfile Sample.db Sample.bob Sample.bob_id))
     = false
  /\ hasKey "password"
       (body (fst (put_user publicProfile (fun _ => true) (fun e => e)
                     (fun _ => true) Sample.db Sample.now Sample.bob_id
                     renameBody))) = false
  /\ hasKey "password"
       (body (search_users publicProfile Sample.db (Alt "o" [])
                (mkQuery None None None None None))) = false.
Proof.
  apply (user_routes_hold_no_password publicProfile (fun _ => true)
           (fun e => e) (fun _ => true)).
  intros u _. reflexivity.
Defined.

(** ** Pages *)

Lemma page_of_paged {A : Type} (createdAt : A -> Date) (page lim : Z)
  (l : list A) :
  0 <= (page - 1) * lim ->
  page_of createdAt page lim l = Next (paged createdAt page lim l).
Proof.
  intros H. unfold page_of, skip, paged.
  destruct ((page - 1) * lim <? 0) eqn:E; [|reflexivity].
  apply Z.ltb_lt in E. lia.
Qed.


Lemma get_tasks_paged (db : Db) (now : Date) (user : User.t) (q : ListQuery) :
  0 <= (orDefault (q_page q) 1 - 1) * orDefault (q_limit q) 10 ->
  get_tasks db now user q
  = paginated "tasks"
      (map (fun x => taskJSON now (populate db x))
           (paged Task.createdAt (orDefault (q_page q) 1)
                  (orDefault (q_limit q) 10)
                  (find_tasks (tasks_query user q) (tasks db))))
      (orDefault (q_page q) 1) (orDefault (q_limit q) 10)
      (Z.of_nat (List.length (find_tasks (tasks_query user q) (tasks db)))).
Proof.
  intros H. unfold get_tasks, tasks_query. cbv zeta.
  destruct (truthy_search (q_search q)) as [re|];
    rewrite (page_of_paged _ _ _ _ H); reflexivity.
Qed.






(** ** Searching *)

Lemma ci_prefix_spec (needle hay : string) :
  ci_prefix needle hay = true
  <-> exists mid post,
        hay = mid ++ post
        /\ string_map toLower mid = string_map toLower needle.
Proof.
  revert hay. induction needle as [|a n IH]; intros hay; cbn.
  - split; [|reflexivity]. intros _. exists "", hay. split; reflexivity.
  - destruct hay as [|b h].
    + split; [discriminate|]. intros (mid & post & Hh & Hm).
      destruct mid; cbn in *; discriminate.
    + rewrite andb_true_iff, Ascii.eqb_eq, IH. split.
      * intros (Hab & mid & post & -> & Hm).
        exists (String b mid), post. cbn. split; [reflexivity|].
        now rewrite Hm, Hab.
      * intros (mid & post & Hh & Hm).
        destruct mid as [|c mid]; cbn in *; [discriminate|].
        injection Hh as -> ->. injection Hm as Hc Hm.
        split; [now symmetry|]. now exists mid, post.
Qed.

Lemma ci_contains_spec (needle hay : string) :
  ci_contains needle hay = true <-> occurs needle hay.
Proof.
  unfold occurs. induction hay as [|b h IH].
  - cbn. rewrite orb_false_r, ci_prefix_spec. split.
    + intros (mid & post & Hh & Hm). now exists "", mid, post.
    + intros (pre & mid & post & Hh & Hm).
      destruct pre; cbn in Hh; [|discriminate]. now exists mid, post.
  - cbn [ci_contains]. rewrite orb_true_iff, ci_prefix_spec, IH. split.
    + intros [(mid & post & Hh & Hm) | (pre & mid & post & Hh & Hm)].
      * now exists "", mid, post.
      * exists (String b pre), mid, post. cbn. now rewrite Hh.
    + intros (pre & mid & post & Hh & Hm). destruct pre as [|c pre].
      * left. now exists mid, post.
      * right. cbn in Hh. injection Hh as -> ->. now exists pre, mid, post.
Qed.

(** A pattern matches a string when one of its alternatives occurs in it. *)
Lemma test_spec (re : Pattern) (s : string) :
  test re s = true <-> exists a, In a (alternatives re) /\ occurs a s.
Proof.
  unfold test. rewrite existsb_exists.
  split; intros (a & Ha & H); exists a; split; try assumption;
    now apply ci_contains_spec.
Qed.

Lemma append_empty (s : string) : s ++ "" = s.
Proof. induction s as [|c r IH]; cbn; [reflexivity|now rewrite IH]. Qed.

(** Text with no syntax character is its own pattern. *)
Lemma source_plain (s : string) : plain s = true -> source (Alt s []) = s.
Proof.
  unfold source. cbn [map String.concat]. rewrite append_empty.
  unfold plain. induction s as [|c r IH]; cbn; [reflexivity|].
  intros H. apply andb_prop in H. destruct H as [Hc Hr].
  apply negb_true_iff in Hc. rewrite Hc, (IH Hr). reflexivity.
Qed.

Lemma mine_or_public_spec (userId : ObjectId) (x : Task.t) :
  matches (mine_or_public userId) x = true
  <-> Task.createdBy x = userId
      \/ Task.assignedTo x = Some userId
      \/ Task.isPublic x = true.
Proof.
  cbn. rewrite orb_false_r, !orb_true_iff, String.eqb_eq.
  destruct (Task.assignedTo x) as [a|].
  - rewrite String.eqb_eq. destruct (Task.isPublic x); cbn;
      intuition (try congruence).
  - destruct (Task.isPublic x); cbn; intuition (try congruence).
Qed.

Lemma truthy_idem (v : option string) : truthy (truthy v) = truthy v.
Proof.
  destruct v as [s|]; [|reflexivity]. cbn.
  destruct (String.eqb s "") eqn:E; [reflexivity|]. cbn. now rewrite E.
Qed.

Lemma spread_spec (q : ListQuery) (x : Task.t) :
  forallb (fun f => matches f x)
          (spread (mkOptions (truthy (q_status q)) (truthy (q_priority q))))
  = true
  <-> (forall s, truthy (q_status q) = Some s -> Task.status x = s)
      /\ (forall s, truthy (q_priority q) = Some s -> Task.priority x = s).
Proof.
  unfold spread. cbn [o_status o_priority]. rewrite !truthy_idem.
  destruct (truthy (q_status q)) as [s|], (truthy (q_priority q)) as [p|];
    cbn; rewrite ?andb_true_r, ?andb_true_iff, ?String.eqb_eq.
  - split.
    + intros [Hs Hp]. split; intros ? [= <-]; assumption.
    + intros [Hs Hp]. split; [now apply Hs|now apply Hp].
  - split.
    + intros Hs. split; [intros ? [= <-]; assumption|discriminate].
    + intros [Hs _]. now apply Hs.
  - split.
    + intros Hp. split; [discriminate|intros ? [= <-]; assumption].
    + intros [_ Hp]. now apply Hp.
  - split; [|reflexivity]. intros _. split; discriminate.
Qed.

Lemma search_spec (re : Pattern) (x : Task.t) :
  matches (F_and [F_or [F_title re; F_description re; F_tags_in [re]]]) x
  = true
  <-> test re (Task.title x) = true
      \/ (exists d, Task.description x = Some d /\ test re d = true)
      \/ (exists g, In g (Task.tags x) /\ test re g = true).
Proof.
  cbn. rewrite andb_true_r, orb_false_r, !orb_true_iff, existsb_exists.
  split.
  - intros [H|[H|(g & Hg & H)]]; [now left| |].
    + right. left. destruct (Task.description x) as [d|]; [|discriminate].
      now exists d.
    + right. right. exists g. rewrite orb_false_r in H. now split.
  - intros [H|[(d & Hd & H)|(g & Hg & H)]]; [now left| |].
    + right. left. now rewrite Hd.
    + right. right. exists g. now rewrite H.
Qed.

Lemma tasks_query_spec (user : User.t) (q : ListQuery) (x : Task.t) :
  forallb (fun f => matches f x) (tasks_query user q) = true
  <-> selected user q x.
Proof.
  unfold tasks_query, selected, search_query, findByUser. cbv zeta.
  fold (spread (mkOptions (truthy (q_status q)) (truthy (q_priority q)))).
  destruct (truthy_search (q_search q)) as [re|].
  - cbn [forallb app]. rewrite !andb_true_iff.
    rewrite mine_or_public_spec, search_spec, spread_spec. split.
    + intros (Hm & Hs & Ho1 & Ho2). repeat split; try assumption.
      now intros ? [= <-].
    + intros (Hm & Ho1 & Ho2 & Hs). repeat split; try assumption.
      now apply Hs.
  - cbn [forallb app]. rewrite !andb_true_iff.
    rewrite mine_or_public_spec, spread_spec. split.
    + intros (Hm & Ho1 & Ho2). repeat split; try assumption. discriminate.
    + intros (Hm & Ho1 & Ho2 & _). repeat split; assumption.
Qed.

Section PagingFacts.
Context {A : Type} (createdAt : A -> Date).

Lemma insert_desc_In (a x : A) (l : list A) :
  In x (insert_desc createdAt a l) <-> x = a \/ In x l.
Proof.
  induction l as [|b r IH]; cbn; [intuition|].
  destruct (createdAt b <? createdAt a); cbn; [intuition|].
  rewrite IH. intuition.
Qed.

Lemma sort_desc_In (x : A) (l : list A) :
  In x (sort_desc createdAt l) <-> In x l.
Proof.
  unfold sort_desc. induction l as [|a r IH]; cbn; [reflexivity|].
  rewrite insert_desc_In, IH. intuition.
Qed.

Lemma insert_desc_length (a : A) (l : list A) :
  List.length (insert_desc createdAt a l) = S (List.length l).
Proof.
  induction l as [|b r IH]; cbn; [reflexivity|].
  destruct (createdAt b <? createdAt a); cbn; [reflexivity|now rewrite IH].
Qed.

Lemma sort_desc_length (l : list A) :
  List.length (sort_desc createdAt l) = List.length l.
Proof.
  unfold sort_desc. induction l as [|a r IH]; cbn; [reflexivity|].
  now rewrite insert_desc_length, IH.
Qed.

(** A page shows documents that match, and nothing else. *)
Lemma paged_In (page lim : Z) (x : A) (l : list A) :
  In x (paged createdAt page lim l) -> In x l.
Proof.
  unfold paged, limit. intros H.
  apply sort_desc_In.
  rewrite <- (firstn_skipn (Z.to_nat ((page - 1) * lim))
                           (sort_desc createdAt l)).
  apply in_or_app. right.
  rewrite <- (firstn_skipn (Z.to_nat (Z.abs lim))
                (skipn (Z.to_nat ((page - 1) * lim)) (sort_desc createdAt l))).
  apply in_or_app. now left.
Qed.

(** The first page shows every document that matches when there are no
    more of them than the limit. *)
Lemma paged_all (lim : Z) (x : A) (l : list A) :
  Z.of_nat (List.length l) <= lim ->
  In x l -> In x (paged createdAt 1 lim l).
Proof.
  unfold paged, limit. intros Hlen H.
  replace ((1 - 1) * lim) with 0 by lia. cbn [Z.to_nat skipn].
  rewrite firstn_all2 by (rewrite sort_desc_length; lia).
  now apply sort_desc_In.
Qed.
End PagingFacts.

Lemma plain_search (s : string) (x : Task.t) :
  test (Alt s []) (Task.title x) = true
  \/ (exists d, Task.description x = Some d /\ test (Alt s []) d = true)
  \/ (exists g, In g (Task.tags x) /\ test (Alt s []) g = true)
  <-> mentions s x = true.
Proof.
  unfold mentions, test. cbn [alternatives existsb].
  rewrite !orb_false_r, !orb_true_iff, existsb_exists. split.
  - intros [H|[(d & Hd & H)|(g & Hg & H)]].
    + now left; left.
    + left; right. rewrite Hd. now rewrite orb_false_r in H.
    + right. exists g. rewrite orb_false_r in H. now split.
  - intros [[H|H]|(g & Hg & H)].
    + now left.
    + right; left. destruct (Task.description x) as [d|]; [|discriminate].
      exists d. rewrite orb_false_r. now split.
    + right; right. exists g. rewrite orb_false_r. now split.
Qed.

(** C4, as the code has it: [GET /api/tasks] shows a page, newest first, of
    exactly the tasks that are the user's (created by, assigned to) or
    public, of the status and the priority asked for, and matched by the
    search; [total] counts exactly those tasks.  For a search with no
    syntax character of a pattern, the tasks matched are those that hold
    the search string in the title, the description or a tag, letter case
    ignored. *)
Theorem get_tasks_selects (db : Db) (now : Date) (user : User.t)
  (q : ListQuery) :
  0 <= (orDefault (q_page q) 1 - 1) * orDefault (q_limit q) 10 ->
  get_tasks db now user q
  = paginated "tasks"
      (map (fun x => taskJSON now (populate db x))
           (paged Task.createdAt (orDefault (q_page q) 1)
                  (orDefault (q_limit q) 10)
                  (find_tasks (tasks_query user q) (tasks db))))
      (orDefault (q_page q) 1) (orDefault (q_limit q) 10)
      (Z.of_nat (List.length (find_tasks (tasks_query user q) (tasks db))))
  /\ (forall x, In x (find_tasks (tasks_query user q) (tasks db))
                <-> In x (tasks db) /\ selected user q x)
  /\ (forall x, In x (paged Task.createdAt (orDefault (q_page q) 1)
                        (orDefault (q_limit q) 10)
                        (find_tasks (tasks_query user q) (tasks db)))
                -> In x (tasks db) /\ selected user q x)
  /\ (orDefault (q_page q) 1 = 1 ->
      Z.of_nat (List.length (find_tasks (tasks_query user q) (tasks db)))
      <= orDefault (q_limit q) 10 ->
      forall x, In x (tasks db) -> selected user q x ->
                In x (paged Task.createdAt (orDefault (q_page q) 1)
                        (orDefault (q_limit q) 10)
                        (find_tasks (tasks_query user q) (tasks db))))
  /\ (forall s, plain s = true -> s <> "" -> q_search q = Some (Alt s []) ->
      source (Alt s []) = s
      /\ forall x,
           selected user q x
           <-> (Task.createdBy x = User._id user
                \/ Task.assignedTo x = Some (User._id user)
                \/ Task.isPublic x = true)
               /\ (forall st, truthy (q_status q) = Some st ->
                              Task.status x = st)
               /\ (forall pr, truthy (q_priority q) = Some pr ->
                              Task.priority x = pr)
               /\ mentions s x = true).
Proof.
  intros Hskip.
  assert (Hsel : forall x, In x (find_tasks (tasks_query user q) (tasks db))
                           <-> In x (tasks db) /\ selected user q x).
  { intros x. unfold find_tasks. rewrite filter_In, tasks_query_spec.
    reflexivity. }
  split; [exact (get_tasks_paged db now user q Hskip)|].
  split; [exact Hsel|]. split; [|split].
  - intros x Hx. apply Hsel. exact (paged_In _ _ _ _ _ Hx).
  - intros Hpage Hlen x Hx Hs. rewrite Hpage.
    apply paged_all; [exact Hlen|]. apply Hsel. now split.
  - intros s Hplain Hne Hq.
    pose proof (source_plain s Hplain) as Hsrc. split; [exact Hsrc|].
    intros x. unfold selected. rewrite Hq. unfold truthy_search.
    rewrite Hsrc. apply String.eqb_neq in Hne. rewrite Hne.
    rewrite <- plain_search. split.
    + intros (Hm & Hs & Hp & Hre). repeat split; try assumption.
      now apply Hre.
    + intros (Hm & Hs & Hp & Hre). repeat split; try assumption.
      now intros ? [= <-].
Qed.

Lemma get_tasks_selects_witness :
  get_tasks Sample.db Sample.now Sample.bob (searchFor (Alt "REPORT" []))
  = paginated "tasks"
      [taskJSON Sample.now (populate Sample.db Sample.t1)] 1 10 1
  /\ source (Alt "REPORT" []) = "REPORT"
  /\ mentions "REPORT" Sample.t1 = true.
Proof.
  destruct (get_tasks_selects Sample.db Sample.now Sample.bob
              (searchFor (Alt "REPORT" [])))
    as (Hget & Hsel & _ & _ & Hplain); [vm_compute; discriminate|].
  destruct (Hplain "REPORT" eq_refl ltac:(discriminate) eq_refl)
    as (Hsrc & Hiff).
  split; [rewrite Hget; reflexivity|]. split; [exact Hsrc|].
  assert (Hin : In Sample.t1
                  (find_tasks
                     (tasks_query Sample.bob (searchFor (Alt "REPORT" [])))
                     (tasks Sample.db)))
    by (vm_compute; auto).
  exact (proj2 (proj2 (proj2
           (proj1 (Hiff Sample.t1) (proj2 (proj1 (Hsel Sample.t1) Hin)))))).
Defined.

(** C4, as stated, fails twice.  A search is a pattern: [report|party]
    brings Alice her two tasks that hold one of the words, and neither holds
    the search string.  And the response is one page: with [limit=1] Alice
    is shown her newest task alone, of the three that are hers. *)
Lemma search_is_a_pattern_and_list_is_a_page :
  source (Alt "report" ["party"]) = "report|party"
  /\ get_tasks Sample.db Sample.now Sample.alice
               (searchFor (Alt "report" ["party"]))
     = paginated "tasks"
         (map (fun x => taskJSON Sample.now (populate Sample.db x))
              [Sample.t2; Sample.t1]) 1 10 2
  /\ mentions "report|party" Sample.t1 = false
  /\ mentions "report|party" Sample.t2 = false
  /\ get_tasks Sample.db Sample.now Sample.alice
               (mkQuery None (Some 1) None None None)
     = paginated "tasks"
         (map (fun x => taskJSON Sample.now (populate Sample.db x))
              [Sample.t3]) 1 1 3
  /\ Task.createdBy Sample.t1 = User._id Sample.alice
  /\ Task.createdBy Sample.t2 = User._id Sample.alice.
Proof. vm_compute. repeat split; reflexivity. Qed.

(** * Further properties *)

(** ** Creating a task *)

Lemma findById_app_fresh {A : Type} (key : A -> ObjectId) (l : list A) (a : A) :
  findById key (key a) l = None ->
  findById key (key a) (l ++ [a]) = Some a.
Proof.
  unfold findById. induction l as [|b r IH]; cbn.
  - now rewrite String.eqb_refl.
  - destruct (String.eqb (key b) (key a)); [discriminate|]. exact IH.
Qed.

Lemma findById_app_old {A : Type} (key : A -> ObjectId) (oid : ObjectId)
  (l : list A) (a b : A) :
  findById key oid l = Some b -> findById key oid (l ++ [a]) = Some b.
Proof.
  unfold findById. induction l as [|c r IH]; cbn; [discriminate|].
  destruct (String.eqb (key c) oid); [trivial|exact IH].
Qed.

Lemma validate_post_ok (b : TaskBody) :
  validate_post (sanitize_post b) = [] ->
  (1 <=? strlen (trim (orElse (b_title b) ""))) = true
  /\ (strlen (trim (orElse (b_title b) "")) <=? 100) = true
  /\ match b_description b with
     | Some d => strlen (trim d) <=? 500
     | None => true
     end = true
  /\ isIn (orElse (b_priority b) "medium") Task.priorities = true.
Proof.
  unfold validate_post, sanitize_post. cbn [b_title b_description b_priority
                                            orElse].
  intros H. apply app_eq_nil in H. destruct H as [Ht H].
  apply app_eq_nil in H. destruct H as [Hd Hp].
  destruct ((1 <=? strlen (trim (orElse (b_title b) "")))
            && (strlen (trim (orElse (b_title b) "")) <=? 100)) eqn:E;
    [|discriminate].
  apply andb_prop in E. destruct E as [E1 E2].
  repeat split; try assumption.
  - destruct (b_description b) as [d|]; [|reflexivity].
    unfold optional in Hd. cbn [option_map] in Hd.
    destruct (strlen (trim d) <=? 500); [reflexivity|discriminate].
  - destruct (b_priority b) as [p|]; [|reflexivity].
    unfold optional in Hp. cbn [orElse].
    destruct (isIn p Task.priorities); [reflexivity|discriminate].
Qed.

Lemma nonempty_strlen (s : string) : (1 <=? strlen s) = true ->
  String.eqb s "" = false.
Proof. destruct s; [discriminate|reflexivity]. Qed.

(** A task made by [POST /api/tasks] belongs to the requester and starts
    pending: for a body that passes the chain, with an assignee that casts,
    a due date in the future, a title, a description and tags within the
    lengths of the schema (which counts UTF-16 units where the chain counts
    characters), and an identifier not in use, the route answers 201 and
    appends one task whose creator is the requester, whose status is
    ['pending'] with no [completedAt], and whose priority and visibility
    are the body's or ['medium'] and private, whatever [status],
    [completedAt] and [createdBy] the body carried. *)
Theorem post_task_creates (db : Db) (now : Date) (newId : ObjectId)
  (user : User.t) (body : TaskBody) (a : option ObjectId) :
  validate_post (sanitize_post body) = [] ->
  cast_ref (b_assignedTo body) = Next a ->
  Task.dueDate_ok now (b_dueDate body) = true ->
  length16 (trim (orElse (b_title body) "")) <= 100 ->
  (forall d, b_description body = Some d -> length16 (trim d) <= 500) ->
  forallb (fun g => length16 g <=? 20) (map trim (orElse (b_tags body) []))
  = true ->
  findById Task._id newId (tasks db) = None ->
  exists x,
    post_task db now newId user body
    = (status_json 201
         (taskReply now (with_tasks (tasks db ++ [x]) db)
                    "Task created successfully" (Some x)),
       with_tasks (tasks db ++ [x]) db)
    /\ Task._id x = newId
    /\ Task.createdBy x = User._id user
    /\ Task.status x = "pending"
    /\ Task.completedAt x = None
    /\ Task.priority x = orElse (b_priority body) "medium"
    /\ Task.isPublic x = orElse (b_isPublic body) false
    /\ Task.assignedTo x = a
    /\ Task.title x = trim (orElse (b_title body) "").
Proof.
  intros Hv Ha Hdue Htitle Hdesc Htags Hfresh.
  destruct (validate_post_ok body Hv) as (Ht1 & _ & _ & Hp).
  unfold post_task. cbv zeta. rewrite Hv. cbn [isEmpty].
  unfold new_Task. cbn [sanitize_post b_assignedTo b_title b_description
                        b_priority b_dueDate b_tags b_isPublic orElse].
  rewrite Ha. cbn [orThrow bind]. rewrite trim_idem.
  set (x := Task.mk newId (trim (orElse (b_title body) ""))
              (option_map trim (option_map trim (b_description body)))
              "pending" (orElse (b_priority body) "medium") (b_dueDate body)
              None (map trim (orElse (b_tags body) [])) a (User._id user)
              (orElse (b_isPublic body) false) now now).
  assert (Hval : Task.validate now x = true).
  { unfold Task.validate, x.
    cbn [Task.title Task.description Task.status Task.priority Task.dueDate
         Task.tags].
    change (isIn "pending" Task.statuses) with true.
    apply Z.leb_le in Htitle.
    rewrite (nonempty_strlen _ Ht1), Htitle, Hp, Hdue, Htags.
    destruct (b_description body) as [d|]; cbn [option_map negb andb];
      [|reflexivity].
    rewrite trim_idem. specialize (Hdesc d eq_refl). apply Z.leb_le in Hdesc.
    now rewrite Hdesc. }
  unfold insert. rewrite Hval.
  change (Task._id x) with newId. rewrite Hfresh. cbn [bind].
  change (fields (preSave now (mkDoc x false true))) with x.
  exists x. cbn [tasks with_tasks].
  pose proof (findById_app_fresh Task._id (tasks db) x Hfresh) as Hnew.
  change (Task._id x) with newId in Hnew. rewrite Hnew.
  repeat split; reflexivity.
Qed.

(** Bob files a task for Carol, claiming in the body that it is Alice's and
    already completed. *)
Lemma post_task_creates_witness :
  exists x,
    post_task Sample.db Sample.now nobody_id Sample.bob createBody
    = (status_json 201
         (taskReply Sample.now (with_tasks (tasks Sample.db ++ [x]) Sample.db)
                    "Task created successfully" (Some x)),
       with_tasks (tasks Sample.db ++ [x]) Sample.db)
    /\ Task._id x = nobody_id
    /\ Task.createdBy x = User._id Sample.bob
    /\ Task.status x = "pending"
    /\ Task.completedAt x = None
    /\ Task.priority x = orElse (b_priority createBody) "medium"
    /\ Task.isPublic x = orElse (b_isPublic createBody) false
    /\ Task.assignedTo x = Some Sample.carol_id
    /\ Task.title x = trim (orElse (b_title createBody) "").
Proof.
  apply (post_task_creates Sample.db Sample.now nobody_id Sample.bob
           createBody (Some Sample.carol_id));
    try (vm_compute; reflexivity); try (vm_compute; discriminate).
  intros d [= <-]. vm_compute. discriminate.
Defined.

Lemma dueDate_passed (now d : Date) :
  d <= now -> Task.dueDate_ok now (Some d) = false.
Proof. intros H. cbn. apply Z.ltb_ge. exact H. Qed.

(** A due date that is not in the future passes both chains (they check the
    format only) and fails the schema's validator: create and full update
    (of a body that holds no update operator) answer 500 and write
    nothing. *)
Theorem dueDate_not_in_future_is_500 (db : Db) (now : Date) (newId : ObjectId)
  (user : User.t) (id : string) (oid : ObjectId) (x : Task.t)
  (body : TaskBody) (d : Date) (a : option ObjectId) :
  validate_post (sanitize_post body) = [] ->
  validate_put (sanitize_put body) = [] ->
  b_dueDate body = Some d ->
  d <= now ->
  castObjectId id = Some oid ->
  findById Task._id oid (tasks db) = Some x ->
  Task.createdBy x = User._id user ->
  cast_ref (b_assignedTo body) = Next a ->
  post_task db now newId user body
  = (status_json 500 (message "Server error"), db)
  /\ put_task db now user id body
     = (status_json 500 (message "Server error"), db).
Proof.
  intros Hpost Hput Hd Hle Hid Hx Hc Ha.
  pose proof (dueDate_passed now d Hle) as Hdue. split.
  - unfold post_task. cbv zeta. rewrite Hpost. cbn [isEmpty].
    unfold new_Task.
    cbn [sanitize_post b_assignedTo b_title b_description b_priority
         b_dueDate b_tags b_isPublic orElse].
    rewrite Ha, Hd. cbn [orThrow bind]. unfold insert, Task.validate.
    cbn [Task.dueDate]. rewrite Hdue, andb_false_r. reflexivity.
  - unfold put_task. cbv zeta. cbn [members op_set no_operator].
    rewrite Hput. cbn [isEmpty].
    rewrite Hid. cbn [orThrow bind]. rewrite Hx, Hc, String.eqb_refl.
    unfold findByIdAndUpdate, castUpdate. cbn [set_sugar members op_set].
    cbn [delete_createdBy sanitize_put b_assignedTo b_createdBy b_title
         b_description b_status b_priority b_dueDate b_completedAt b_tags
         b_isPublic].
    rewrite Ha. cbn [bind cast_ref]. unfold validate_update.
    cbn [b_dueDate]. rewrite Hd, Hdue, andb_false_r. reflexivity.
Qed.

Lemma dueDate_not_in_future_is_500_witness :
  post_task Sample.db Sample.now nobody_id Sample.alice dueYesterday
  = (status_json 500 (message "Server error"), Sample.db)
  /\ put_task Sample.db Sample.now Sample.alice Sample.t1_id dueYesterday
     = (status_json 500 (message "Server error"), Sample.db).
Proof.
  apply (dueDate_not_in_future_is_500 Sample.db Sample.now nobody_id
           Sample.alice Sample.t1_id Sample.t1_id Sample.t1 dueYesterday
           999 None);
    vm_compute; try reflexivity; discriminate.
Defined.

(** An assignee that is no identifier is a [ValidationError] when the task
    is created, answered 500, and a [CastError] of kind ['ObjectId'] when it
    is updated (by a body that holds no update operator), answered 400
    'Invalid task ID' although the task's own identifier is sound; nothing
    is written either way. *)
Theorem assignee_not_an_id (db : Db) (now : Date) (newId : ObjectId)
  (user : User.t) (id : string) (oid : ObjectId) (x : Task.t)
  (body : TaskBody) (s : string) :
  validate_post (sanitize_post body) = [] ->
  validate_put (sanitize_put body) = [] ->
  b_assignedTo body = Some s ->
  castObjectId s = None ->
  castObjectId id = Some oid ->
  findById Task._id oid (tasks db) = Some x ->
  Task.createdBy x = User._id user ->
  post_task db now newId user body
  = (status_json 500 (message "Server error"), db)
  /\ put_task db now user id body = (invalidId "task", db).
Proof.
  intros Hpost Hput Ha Hs Hid Hx Hc. split.
  - unfold post_task. cbv zeta. rewrite Hpost. cbn [isEmpty].
    unfold new_Task. cbn [sanitize_post b_assignedTo]. rewrite Ha.
    unfold cast_ref. rewrite Hs. reflexivity.
  - unfold put_task. cbv zeta. cbn [members op_set no_operator].
    rewrite Hput. cbn [isEmpty].
    rewrite Hid. cbn [orThrow bind]. rewrite Hx, Hc, String.eqb_refl.
    unfold findByIdAndUpdate, castUpdate. cbn [set_sugar members op_set].
    cbn [delete_createdBy sanitize_put b_assignedTo]. rewrite Ha.
    unfold cast_ref. rewrite Hs. reflexivity.
Qed.

Lemma assignee_not_an_id_witness :
  post_task Sample.db Sample.now nobody_id Sample.alice assignToBobByName
  = (status_json 500 (message "Server error"), Sample.db)
  /\ put_task Sample.db Sample.now Sample.alice Sample.t1_id assignToBobByName
     = (invalidId "task", Sample.db).
Proof.
  apply (assignee_not_an_id Sample.db Sample.now nobody_id Sample.alice
           Sample.t1_id Sample.t1_id Sample.t1 assignToBobByName "bob");
    vm_compute; reflexivity.
Defined.

(** A task just created can be read back by its creator: after a create
    answered 201, [GET /api/tasks/:id] with the new identifier shows the
    requester, when a stored user, the task that was stored. *)
Theorem post_task_then_get_task (db : Db) (now later : Date) (newId : ObjectId)
  (user : User.t) (body : TaskBody) :
  statusCode (fst (post_task db now newId user body)) = 201 ->
  castObjectId newId = Some newId ->
  isSome (findById User._id (User._id user) (users db)) = true ->
  exists x,
    findById Task._id newId (tasks (snd (post_task db now newId user body)))
    = Some x
    /\ Task.createdBy x = User._id user
    /\ get_task (snd (post_task db now newId user body)) later user newId
       = taskFound later (snd (post_task db now newId user body)) x.
Proof.
  intros H201 Hcanon Hstored. revert H201.
  unfold post_task. cbv zeta.
  destruct (validate_post (sanitize_post body)); cbn [isEmpty];
    [|discriminate].
  destruct (new_Task newId now user (sanitize_post body)) as [x|] eqn:Hnew;
    cbn [orThrow bind catch_500_write fst]; [|discriminate].
  assert (Hx : Task._id x = newId /\ Task.createdBy x = User._id user).
  { unfold new_Task in Hnew.
    destruct (cast_ref (b_assignedTo (sanitize_post body))); try discriminate.
    injection Hnew as <-. split; reflexivity. }
  destruct Hx as [Hxid Hxc].
  unfold insert. destruct (Task.validate now x); [|discriminate].
  rewrite Hxid.
  destruct (findById Task._id newId (tasks db)) eqn:Hfresh; [discriminate|].
  cbn [bind catch_500_write fst snd]. intros _.
  change (fields (preSave now (mkDoc x false true))) with x.
  rewrite <- Hxid in Hfresh.
  pose proof (findById_app_fresh Task._id (tasks db) x Hfresh) as Hfound.
  rewrite Hxid in Hfound.
  exists x. cbn [tasks with_tasks]. split; [exact Hfound|].
  split; [exact Hxc|].
  unfold get_task, taskFound. rewrite Hcanon. cbn [orThrow bind tasks with_tasks].
  rewrite Hfound. unfold populate at 1. cbn [p_createdBy p_assignedTo users with_tasks].
  rewrite Hxc.
  destruct (populate_ref_found true _ _ Hstored) as (c & Hcr & Hcid).
  rewrite Hcr. cbn [orThrow bind]. rewrite Hcid, String.eqb_refl.
  destruct (negb (Task.isPublic x)); reflexivity.
Qed.

Lemma post_task_then_get_task_witness :
  exists x,
    findById Task._id nobody_id
      (tasks (snd (post_task Sample.db Sample.now nobody_id Sample.bob
                     createBody)))
    = Some x
    /\ Task.createdBy x = User._id Sample.bob
    /\ get_task (snd (post_task Sample.db Sample.now nobody_id Sample.bob
                        createBody)) 1500 Sample.bob nobody_id
       = taskFound 1500
           (snd (post_task Sample.db Sample.now nobody_id Sample.bob
                   createBody)) x.
Proof.
  apply (post_task_then_get_task Sample.db Sample.now 1500 nobody_id
           Sample.bob createBody);
    vm_compute; reflexivity.
Defined.
(** ** What the task routes never show *)

Lemma strings_hold_no_key (k : string) (l : list string) :
  existsb (hasKey k) (map JStr l) = false.
Proof. induction l as [|s r IH]; [reflexivity|exact IH]. Qed.

Lemma hasKey_cons (k key : string) (j : JSON) (rest : list (string * JSON)) :
  hasKey k (JObj ((key, j) :: rest))
  = String.eqb key k || hasKey k j || hasKey k (JObj rest).
Proof. reflexivity. Qed.

Lemma hasKey_app (k : string) (l r : list (string * JSON)) :
  hasKey k (JObj (l ++ r)) = hasKey k (JObj l) || hasKey k (JObj r).
Proof. cbn [hasKey]. apply existsb_app. Qed.

Lemma optField_no_key {A : Type} (k key : string) (f : A -> JSON)
  (v : option A) :
  String.eqb key k = false ->
  (forall a, hasKey k (f a) = false) ->
  hasKey k (JObj (optField key f v)) = false.
Proof.
  intros Hk Hf. destruct v as [a|]; [|reflexivity].
  unfold optField. rewrite hasKey_cons, Hk, Hf. reflexivity.
Qed.

Lemma refJSON_no_password (r : UserRef) : hasKey "password" (refJSON r) = false.
Proof. destruct r as [i n [e|]]; reflexivity. Qed.

Lemma nullable_no_key {A : Type} (k : string) (f : A -> JSON) (o : option A) :
  (forall a, hasKey k (f a) = false) -> hasKey k (nullable f o) = false.
Proof. intros H. destruct o; [apply H|reflexivity]. Qed.

Lemma taskJSON_no_password (now : Date) (p : PopulatedTask) :
  hasKey "password" (taskJSON now p) = false.
Proof.
  unfold taskJSON. cbv zeta. rewrite !hasKey_app.
  rewrite !optField_no_key by reflexivity.
  assert (Ha : hasKey "password"
                 (JObj match p_assignedTo p with
                       | Some a => [("assignedTo", nullable refJSON a)]
                       | None => optField "assignedTo" JStr
                                   (Task.assignedTo (p_task p))
                       end) = false).
  { destruct (p_assignedTo p) as [a|].
    - rewrite hasKey_cons, (nullable_no_key _ _ _ refJSON_no_password).
      reflexivity.
    - now apply optField_no_key. }
  rewrite Ha, !hasKey_cons.
  rewrite (nullable_no_key _ _ _ refJSON_no_password).
  change (hasKey "password" (JArr (map JStr (Task.tags (p_task p)))))
    with (existsb (hasKey "password") (map JStr (Task.tags (p_task p)))).
  rewrite strings_hold_no_key. reflexivity.
Qed.

Lemma taskJSON_public_no_email (now : Date) (db : Db) (x : Task.t) :
  hasKey "email" (taskJSON now (populate_createdBy db x)) = false.
Proof.
  unfold taskJSON. cbv zeta. cbn [p_task p_assignedTo p_createdBy
                                  populate_createdBy].
  rewrite !hasKey_app.
  rewrite !optField_no_key by reflexivity.
  rewrite !hasKey_cons.
  change (hasKey "email" (JArr (map JStr (Task.tags x))))
    with (existsb (hasKey "email") (map JStr (Task.tags x))).
  rewrite strings_hold_no_key.
  assert (Hc : hasKey "email"
                 (nullable refJSON
                    (populate_ref false (users db) (Task.createdBy x)))
               = false).
  { unfold populate_ref.
    destruct (findById User._id (Task.createdBy x) (users db)); reflexivity. }
  rewrite Hc. reflexivity.
Qed.

Lemma hasKey_task_only (k : string) (j : JSON) :
  String.eqb "task" k = false ->
  hasKey k (JObj [("task", j)]) = hasKey k j.
Proof.
  intros H. rewrite hasKey_cons, H. cbn. now rewrite orb_false_r.
Qed.

Lemma hasKey_list (k key : string) (items : list JSON) (pg : JSON) :
  String.eqb key k = false ->
  hasKey k pg = false ->
  String.eqb "pagination" k = false ->
  hasKey k (JObj [(key, JArr items); ("pagination", pg)])
  = existsb (hasKey k) items.
Proof.
  intros H1 H2 H3. rewrite !hasKey_cons, H1, H2, H3. cbn.
  now rewrite !orb_false_r.
Qed.

Lemma tasks_hold_no_key (k : string) (f : Task.t -> JSON) (l : list Task.t) :
  (forall x, hasKey k (f x) = false) ->
  existsb (hasKey k) (map f l) = false.
Proof.
  intros H. induction l as [|x r IH]; [reflexivity|]. cbn. now rewrite H.
Qed.

Lemma taskReply_no_password (now : Date) (db : Db) (msg : string)
  (x : option Task.t) :
  hasKey "password" (taskReply now db msg x) = false.
Proof.
  unfold taskReply. rewrite !hasKey_cons.
  rewrite (nullable_no_key _ _ _ (taskJSON_no_password now)). reflexivity.
Qed.

Lemma validate_put_no_password (b : TaskBody) :
  existsb (hasKey "password") (validate_put b) = false.
Proof.
  unfold validate_put. now rewrite !existsb_app, !optional_no_password.
Qed.

Lemma validate_post_no_password (b : TaskBody) :
  existsb (hasKey "password") (validate_post b) = false.
Proof.
  unfold validate_post. rewrite !existsb_app, !optional_no_password.
  destruct (_ && _); reflexivity.
Qed.

Lemma validate_patch_no_password (status : option string) :
  existsb (hasKey "password") (validate_patch status) = false.
Proof.
  unfold validate_patch. destruct status as [s|]; [|reflexivity].
  destruct (isIn s Task.statuses); [reflexivity|].
  cbn [existsb]. now rewrite fieldError_no_password.
Qed.

Lemma validationFailed_no_password (errors : list JSON) :
  existsb (hasKey "password") errors = false ->
  hasKey "password" (body (validationFailed errors)) = false.
Proof.
  intros H. unfold validationFailed.
  change (false || (false || existsb (hasKey "password") errors || false)
          = false).
  now rewrite H.
Qed.

(** No response of a task route holds a [password] key at any depth, and the
    public list holds no [email] key either: references are populated with
    [username] and [email], the public list's with [username] alone. *)
Theorem task_routes_hold_no_password (db : Db) (now : Date) (newId : ObjectId)
  (user : User.t) (id : string) (reqBody : TaskBody) (putBody : UpdateBody)
  (status : option string) (q : ListQuery) :
  hasKey "password" (body (get_task db now user id)) = false
  /\ hasKey "password" (body (fst (post_task db now newId user reqBody))) = false
  /\ hasKey "password" (body (fst (put_task db now user id putBody))) = false
  /\ hasKey "password" (body (fst (patch_status db now user id status))) = false
  /\ hasKey "password" (body (fst (delete_task db user id))) = false
  /\ hasKey "password" (body (get_tasks db now user q)) = false
  /\ hasKey "password" (body (get_public_tasks db now q)) = false
  /\ hasKey "email" (body (get_public_tasks db now q)) = false.
Proof.
  repeat split.
  - unfold get_task. destruct (castObjectId id) as [oid|]; [|reflexivity].
    cbn [orThrow bind].
    destruct (findById Task._id oid (tasks db)) as [x|]; [|reflexivity].
    destruct (negb (Task.isPublic x)).
    + destruct (p_createdBy (populate db x)); [|reflexivity].
      cbn [orThrow bind]. destruct (negb _); [|reflexivity].
      cbn [bind catch_id json body].
      rewrite hasKey_task_only by reflexivity. apply taskJSON_no_password.
    + cbn [bind negb catch_id json body].
      rewrite hasKey_task_only by reflexivity. apply taskJSON_no_password.
  - unfold post_task. cbv zeta.
    destruct (validate_post (sanitize_post reqBody)) eqn:Hv.
    + cbn [isEmpty]. destruct (new_Task _ _ _ _) as [x|]; [|reflexivity].
      cbn [orThrow bind]. unfold insert.
      destruct (Task.validate now x); [|reflexivity].
      destruct (findById Task._id (Task._id x) (tasks db)); [reflexivity|].
      cbn [bind catch_500_write fst body status_json].
      apply taskReply_no_password.
    + cbn [isEmpty catch_500_write fst]. rewrite <- Hv.
      apply validationFailed_no_password, validate_post_no_password.
  - unfold put_task. cbv zeta.
    destruct (validate_put (sanitize_put (members putBody))) eqn:Hv.
    + cbn [isEmpty]. destruct (castObjectId id) as [oid|]; [|reflexivity].
      cbn [orThrow bind].
      destruct (findById Task._id oid (tasks db)) as [x|]; [|reflexivity].
      destruct (String.eqb _ _); [|reflexivity].
      destruct (findByIdAndUpdate now oid _ (tasks db)) as [r|r|e] eqn:Hu.
      * cbn [bind catch_id_write fst body json]. apply taskReply_no_password.
      * exfalso. unfold findByIdAndUpdate in Hu.
        destruct (castUpdate _) as [u|r'|e'] eqn:Hc; cbn [bind] in Hu.
        -- destruct (validate_update now u); discriminate.
        -- now apply castUpdate_not_Done in Hc.
        -- discriminate.
      * cbn [bind catch_id_write catch_id fst].
        destruct (kind_is_ObjectId e); reflexivity.
    + cbn [isEmpty catch_id_write fst]. rewrite <- Hv.
      apply validationFailed_no_password, validate_put_no_password.
  - unfold patch_status, checked_status. destruct status as [s|].
    + destruct (isIn s Task.statuses).
      * cbn [bind]. destruct (castObjectId id) as [oid|]; [|reflexivity].
        cbn [orThrow bind].
        destruct (findById Task._id oid (tasks db)) as [x|]; [|reflexivity].
        destruct (may_set_status user x); [|reflexivity].
        unfold save. destruct (Task.validate now _); [|reflexivity].
        cbn [bind catch_id_write fst body json]. apply taskReply_no_password.
      * cbn [bind catch_id_write fst].
        apply validationFailed_no_password, validate_patch_no_password.
    + cbn [bind catch_id_write fst].
      apply validationFailed_no_password, validate_patch_no_password.
  - unfold delete_task. destruct (castObjectId id) as [oid|]; [|reflexivity].
    cbn [orThrow bind].
    destruct (findById Task._id oid (tasks db)) as [x|]; [|reflexivity].
    destruct (String.eqb _ _); reflexivity.
  - unfold get_tasks. cbv zeta.
    match goal with
    | |- context [page_of ?c ?p ?l ?xs] =>
        destruct (page_of_cases c p l xs) as [H|H]; rewrite H
    end; [reflexivity|].
    cbn [bind catch_500 listReply json body].
    unfold pagination. rewrite hasKey_list by reflexivity.
    apply tasks_hold_no_key.
    intros x. apply taskJSON_no_password.
  - unfold get_public_tasks. cbv zeta.
    match goal with
    | |- context [page_of ?c ?p ?l ?xs] =>
        destruct (page_of_cases c p l xs) as [H|H]; rewrite H
    end; [reflexivity|].
    cbn [bind catch_500 listReply json body].
    unfold pagination. rewrite hasKey_list by reflexivity.
    apply tasks_hold_no_key.
    intros x. apply taskJSON_no_password.
  - unfold get_public_tasks. cbv zeta.
    match goal with
    | |- context [page_of ?c ?p ?l ?xs] =>
        destruct (page_of_cases c p l xs) as [H|H]; rewrite H
    end; [reflexivity|].
    cbn [bind catch_500 listReply json body].
    unfold pagination. rewrite hasKey_list by reflexivity.
    apply tasks_hold_no_key.
    intros x. apply taskJSON_public_no_email.
Qed.

(** ** What a write leaves alone *)

Lemma findById_updateOne_other {A : Type} (key : A -> ObjectId)
  (oid oid' : ObjectId) (f : A -> A) (l : list A) :
  oid' <> oid ->
  (forall a, key a = oid -> key (f a) = oid) ->
  findById key oid' (updateOne key oid f l) = findById key oid' l.
Proof.
  intros Hne Hf. unfold findById. induction l as [|a r IH]; [reflexivity|].
  cbn. destruct (String.eqb (key a) oid) eqn:E; cbn.
  - apply String.eqb_eq in E. rewrite (Hf a E), E.
    apply String.eqb_neq in Hne. rewrite String.eqb_sym in Hne.
    now rewrite Hne.
  - now rewrite IH.
Qed.

Lemma preSave_id (now : Date) (d : TaskDoc) :
  Task._id (fields (preSave now d)) = Task._id (fields d).
Proof.
  unfold preSave. destruct (_ && _ && _); [reflexivity|].
  destruct (_ && _); reflexivity.
Qed.

Lemma timestampsPreSave_id (now : Date) (d : TaskDoc) :
  Task._id (fields (timestampsPreSave now d)) = Task._id (fields d).
Proof. unfold timestampsPreSave. destruct (isModified d); reflexivity. Qed.

Lemma save_touches_one (now : Date) (d : TaskDoc) (ts ts' : list Task.t)
  (oid' : ObjectId) :
  save now d ts = Next ts' ->
  oid' <> Task._id (fields d) ->
  findById Task._id oid' ts' = findById Task._id oid' ts.
Proof.
  unfold save. destruct (Task.validate now (fields d)); [|discriminate].
  cbv zeta. intros [= <-] Hne.
  rewrite preSave_id, timestampsPreSave_id.
  apply findById_updateOne_other; [exact Hne|].
  intros _ _. now rewrite preSave_id, timestampsPreSave_id.
Qed.

(** A write on one task changes no other task and no user: after the full
    update, the status update or the delete, every task under another
    identifier is the task it was, and after the create every task there
    was is still found; the user collection is never written. *)
Theorem task_writes_touch_one_task (db : Db) (now : Date) (newId : ObjectId)
  (user : User.t) (id : string) (reqBody : TaskBody) (putBody : UpdateBody)
  (status : option string) :
  (users (snd (put_task db now user id putBody)) = users db
   /\ forall oid', castObjectId id <> Some oid' ->
        findById Task._id oid' (tasks (snd (put_task db now user id putBody)))
        = findById Task._id oid' (tasks db))
  /\ (users (snd (patch_status db now user id status)) = users db
      /\ forall oid', castObjectId id <> Some oid' ->
           findById Task._id oid'
             (tasks (snd (patch_status db now user id status)))
           = findById Task._id oid' (tasks db))
  /\ (users (snd (delete_task db user id)) = users db
      /\ forall oid', castObjectId id <> Some oid' ->
           findById Task._id oid' (tasks (snd (delete_task db user id)))
           = findById Task._id oid' (tasks db))
  /\ (users (snd (post_task db now newId user reqBody)) = users db
      /\ forall oid' x, findById Task._id oid' (tasks db) = Some x ->
           findById Task._id oid'
             (tasks (snd (post_task db now newId user reqBody)))
           = Some x).
Proof.
  split; [|split; [|split]].
  - unfold put_task. cbv zeta.
    destruct (validate_put (sanitize_put (members putBody))); cbn [isEmpty];
      [|split; reflexivity].
    destruct (castObjectId id) as [oid|]; cbn [orThrow bind];
      [|split; reflexivity].
    destruct (findById Task._id oid (tasks db)) as [x|]; [|split; reflexivity].
    destruct (String.eqb _ _); [|split; reflexivity].
    unfold findByIdAndUpdate.
    destruct (castUpdate _) as [u| |]; cbn [bind]; try (split; reflexivity).
    destruct (validate_update now u); [|split; reflexivity].
    cbn [bind catch_id_write fst snd users tasks with_tasks].
    split; [reflexivity|]. intros oid' Hne.
    apply findById_updateOne_other; [congruence|]. intros a Ha. exact Ha.
  - unfold patch_status.
    destruct (checked_status status) as [s| |]; cbn [bind];
      try (split; reflexivity).
    destruct (castObjectId id) as [oid|]; cbn [orThrow bind];
      [|split; reflexivity].
    destruct (findById Task._id oid (tasks db)) as [x|] eqn:Hx;
      [|split; reflexivity].
    destruct (may_set_status user x); [|split; reflexivity].
    match goal with
    | |- context [save now ?d (tasks db)] =>
        destruct (save now d (tasks db)) as [ts| |] eqn:Hs;
          [pose proof (save_touches_one now d (tasks db) ts) as Hone|..]
    end; cbn [bind catch_id_write snd users tasks with_tasks];
      try (split; reflexivity).
    split; [reflexivity|]. intros oid' Hne. apply (Hone oid' Hs).
    pose proof (findById_key _ _ _ _ Hx) as Hk.
    destruct (String.eqb s "completed"); cbn; rewrite Hk; congruence.
  - unfold delete_task.
    destruct (castObjectId id) as [oid|]; cbn [orThrow bind];
      [|split; reflexivity].
    destruct (findById Task._id oid (tasks db)) as [x|]; [|split; reflexivity].
    destruct (String.eqb _ _); [|split; reflexivity].
    cbn [catch_id_write snd users tasks with_tasks].
    split; [reflexivity|]. intros oid' Hne.
    apply findById_deleteOne_other. congruence.
  - unfold post_task. cbv zeta.
    destruct (validate_post (sanitize_post reqBody)); cbn [isEmpty];
      [|split; [reflexivity|trivial]].
    destruct (new_Task _ _ _ _) as [x|]; cbn [orThrow bind];
      [|split; [reflexivity|trivial]].
    unfold insert. destruct (Task.validate now x);
      [|split; [reflexivity|trivial]].
    destruct (findById Task._id (Task._id x) (tasks db));
      [split; [reflexivity|trivial]|].
    cbn [bind catch_500_write snd users tasks with_tasks].
    split; [reflexivity|]. intros oid' y Hy.
    now apply findById_app_old.
Qed.

(** A deleted task is gone: with identifiers that are distinct in the
    collection, once the creator's delete is answered 200, reading the task
    and deleting it again are both answered 404, whoever asks. *)
Theorem delete_task_then_gone (db : Db) (user : User.t) (id : string)
  (oid : ObjectId) (x : Task.t) :
  NoDup (map Task._id (tasks db)) ->
  castObjectId id = Some oid ->
  findById Task._id oid (tasks db) = Some x ->
  Task.createdBy x = User._id user ->
  statusCode (fst (delete_task db user id)) = 200
  /\ forall later requester id',
       castObjectId id' = Some oid ->
       get_task (snd (delete_task db user id)) later requester id'
       = notFound "Task"
       /\ delete_task (snd (delete_task db user id)) requester id'
          = (notFound "Task", snd (delete_task db user id)).
Proof.
  intros Hnodup Hid Hx Hc.
  assert (Hdel : delete_task db user id
                 = (json (message "Task deleted successfully"),
                    with_tasks (deleteOne Task._id oid (tasks db)) db)).
  { unfold delete_task. rewrite Hid. cbn [orThrow bind].
    now rewrite Hx, Hc, String.eqb_refl. }
  rewrite Hdel. split; [reflexivity|].
  intros later requester id' Hid'. cbn [snd].
  unfold get_task, delete_task. rewrite Hid'.
  cbn [orThrow bind tasks with_tasks].
  rewrite (findById_deleteOne_same Task._id oid (tasks db) Hnodup).
  split; reflexivity.
Qed.

Lemma delete_task_then_gone_witness :
  statusCode (fst (delete_task Sample.db Sample.alice Sample.t2_id)) = 200
  /\ get_task (snd (delete_task Sample.db Sample.alice Sample.t2_id)) 1500
              Sample.carol "222222222222222222222222"
     = notFound "Task".
Proof.
  destruct (delete_task_then_gone Sample.db Sample.alice Sample.t2_id
              Sample.t2_id Sample.t2) as (H200 & Hgone);
    try (vm_compute; reflexivity).
  - repeat constructor; cbn; intuition discriminate.
  - split; [exact H200|].
    apply (Hgone 1500 Sample.carol "222222222222222222222222" eq_refl).
Defined.

(** ** Users: who may read, and what an update keeps *)

(** [GET /api/users/:id] looks the user up before it asks who is asking:
    an identifier nobody has is answered 404 to everyone, and a user that
    exists is shown to an admin and to the requester whose own identifier
    is the parameter, and refused with 403 to anyone else.  So a requester
    who is no admin still learns which identifiers are in use. *)
Theorem get_user_access (getPublicProfile : User.t -> JSON) (db : Db)
  (reqUser : User.t) (id : string) (oid : ObjectId) :
  castObjectId id = Some oid ->
  (findById User._id oid (users db) = None ->
   get_user getPublicProfile db reqUser id = notFound "User")
  /\ (forall u, findById User._id oid (users db) = Some u ->
        (User.role reqUser = "admin" \/ User._id reqUser = id ->
         get_user getPublicProfile db reqUser id
         = json (JObj [("user", userJSON getPublicProfile u)]))
        /\ (User.role reqUser <> "admin" -> User._id reqUser <> id ->
            get_user getPublicProfile db reqUser id = accessDenied)).
Proof.
  intros Hid. unfold get_user. rewrite Hid. cbn [orThrow bind]. split.
  - now intros ->.
  - intros u ->.
    destruct (String.eqb_spec (User.role reqUser) "admin") as [Er|Er];
      destruct (String.eqb_spec (User._id reqUser) id) as [Ei|Ei]; cbn;
      split; try reflexivity; intros; try contradiction.
    tauto.
Qed.

Lemma get_user_access_witness :
  get_user publicProfile Sample.db Sample.bob Sample.bob_id
  = json (JObj [("user", userJSON publicProfile Sample.bob)])
  /\ get_user publicProfile Sample.db Sample.bob Sample.carol_id
     = accessDenied
  /\ get_user publicProfile Sample.db Sample.bob nobody_id = notFound "User".
Proof.
  destruct (get_user_access publicProfile Sample.db Sample.bob Sample.bob_id
              Sample.bob_id eq_refl) as [_ Hown].
  destruct (get_user_access publicProfile Sample.db Sample.bob Sample.carol_id
              Sample.carol_id eq_refl) as [_ Hother].
  destruct (get_user_access publicProfile Sample.db Sample.bob nobody_id
              nobody_id eq_refl) as [Habsent _].
  split; [|split].
  - apply (Hown Sample.bob eq_refl). now right.
  - apply (Hother Sample.carol eq_refl); vm_compute; discriminate.
  - apply Habsent. reflexivity.
Defined.

Lemma find_In {A : Type} (f : A -> bool) (l : list A) (a : A) :
  In a l -> f a = true -> exists b, find f l = Some b.
Proof.
  induction l as [|c r IH]; [contradiction|]. cbn. intros [->|Hin] Hf.
  - rewrite Hf. now exists a.
  - destruct (f c); [now exists c|]. now apply IH.
Qed.

Lemma truthy_nonempty (s : string) : s <> "" -> truthy (Some s) = Some s.
Proof. intros H. cbn. apply String.eqb_neq in H. now rewrite H. Qed.

Section UserUpdate.
Variable getPublicProfile : User.t -> JSON.
Variable isEmail : string -> bool.
Variable normalizeEmail : string -> string.
Variable userSchemaAccepts : UserBody -> bool.

(** A name or an address another user already has is refused: the update
    is answered 400 'Username or email already exists' and nothing is
    written. *)
Theorem put_user_refuses_taken_name (db : Db) (now : Date) (id : string)
  (oid : ObjectId) (ub : UserBody) (v : User.t) :
  validate_user isEmail ub = [] ->
  castObjectId id = Some oid ->
  In v (users db) ->
  User._id v <> oid ->
  (exists n, ub_username ub = Some n /\ n <> "" /\ User.username v = n)
  \/ (exists e, ub_email ub = Some e /\ normalizeEmail e <> ""
                /\ User.email v = normalizeEmail e) ->
  put_user getPublicProfile isEmail normalizeEmail userSchemaAccepts
           db now id ub
  = (status_json 400 (message "Username or email already exists"), db).
Proof.
  intros Hv Hid Hin Hne Htaken.
  unfold put_user. cbv zeta. rewrite Hv. cbn [isEmpty].
  set (updates := sanitize_user normalizeEmail ub).
  assert (Hm : existsb (fun g => matchesUser g v) (taken_by updates) = true).
  { unfold taken_by, updates. cbn [sanitize_user ub_email ub_username].
    rewrite existsb_app, orb_true_iff.
    destruct Htaken as [(n & Hn & Hn0 & Hvn) | (e & He & He0 & Hve)].
    - right. rewrite Hn, (truthy_nonempty n Hn0). cbn.
      rewrite Hvn, String.eqb_refl. reflexivity.
    - left. rewrite He. cbn [option_map].
      rewrite (truthy_nonempty _ He0). cbn.
      rewrite Hve, String.eqb_refl. reflexivity. }
  destruct (taken_by updates) as [|f fs] eqn:Ht; [discriminate|].
  cbn [isEmpty]. rewrite Hid. cbn [orThrow bind].
  destruct (find_In (fun u => forallb (fun f0 => matchesUser f0 u)
                                [U_or (f :: fs); U_id_ne oid])
              (users db) v Hin) as (w & Hw).
  { cbn [forallb matchesUser]. rewrite Hm.
    apply String.eqb_neq in Hne. now rewrite Hne. }
  unfold findOne. rewrite Hw. reflexivity.
Qed.

(** An update changes one user and no password: whatever the request, every
    user under another identifier is the user it was, every user keeps the
    password and the creation time it had, and no task is written. *)
Theorem put_user_touches_one_user (db : Db) (now : Date) (id : string)
  (ub : UserBody) :
  tasks (snd (put_user getPublicProfile isEmail normalizeEmail
                userSchemaAccepts db now id ub)) = tasks db
  /\ (forall oid', castObjectId id <> Some oid' ->
        findById User._id oid'
          (users (snd (put_user getPublicProfile isEmail normalizeEmail
                         userSchemaAccepts db now id ub)))
        = findById User._id oid' (users db))
  /\ (forall oid',
        option_map (fun u => (User.password u, User.createdAt u))
          (findById User._id oid'
             (users (snd (put_user getPublicProfile isEmail normalizeEmail
                            userSchemaAccepts db now id ub))))
        = option_map (fun u => (User.password u, User.createdAt u))
            (findById User._id oid' (users db))).
Proof.
  assert (Hsame : forall d : Db,
            tasks d = tasks db /\ users d = users db ->
            tasks d = tasks db
            /\ (forall oid', castObjectId id <> Some oid' ->
                  findById User._id oid' (users d)
                  = findById User._id oid' (users db))
            /\ (forall oid',
                  option_map (fun u => (User.password u, User.createdAt u))
                    (findById User._id oid' (users d))
                  = option_map (fun u => (User.password u, User.createdAt u))
                      (findById User._id oid' (users db)))).
  { intros d [Ht Hu]. rewrite Hu. auto. }
  unfold put_user. cbv zeta.
  destruct (validate_user isEmail ub); cbn [isEmpty];
    [|apply Hsame; split; reflexivity].
  set (updates := sanitize_user normalizeEmail ub).
  assert (Hmain :
    forall oid, castObjectId id = Some oid ->
      let m := (_ <- (if userSchemaAccepts updates then Next tt
                      else Thrown ValidationError) ;;
                let us := updateOne User._id oid
                            (apply_user_update now updates) (users db) in
                match findById User._id oid us with
                | None => Done (notFound "User")
                | Some user =>
                    Next (json (JObj [("message",
                                       JStr "User updated successfully");
                                      ("user", userJSON getPublicProfile user)]),
                          with_users us db)
                end) in
      let d := snd (catch_id_write "Invalid user ID" db m) in
      tasks d = tasks db
      /\ (forall oid', castObjectId id <> Some oid' ->
            findById User._id oid' (users d)
            = findById User._id oid' (users db))
      /\ (forall oid',
            option_map (fun u => (User.password u, User.createdAt u))
              (findById User._id oid' (users d))
            = option_map (fun u => (User.password u, User.createdAt u))
                (findById User._id oid' (users db)))).
  { intros oid Hid. cbv zeta.
    destruct (userSchemaAccepts updates); cbn [bind];
      [|apply Hsame; split; reflexivity].
    destruct (findById User._id oid (updateOne _ _ _ _)) eqn:Hf;
      [|apply Hsame; split; reflexivity].
    cbn [catch_id_write snd tasks users with_users].
    split; [reflexivity|]. split.
    - intros oid' Hne. apply findById_updateOne_other; [congruence|].
      intros a Ha. exact Ha.
    - intros oid'. destruct (String.eqb oid' oid) eqn:E.
      + apply String.eqb_eq in E. subst oid'.
        rewrite findById_updateOne by (intros a Ha; exact Ha).
        destruct (findById User._id oid (users db)); reflexivity.
      + apply String.eqb_neq in E.
        rewrite findById_updateOne_other; [reflexivity|exact E|].
        intros a Ha. exact Ha. }
  destruct (isEmpty (taken_by updates)); cbn [bind].
  - destruct (castObjectId id) as [oid|] eqn:Hid; cbn [orThrow bind];
      [|apply Hsame; split; reflexivity].
    exact (Hmain oid eq_refl).
  - destruct (castObjectId id) as [oid|] eqn:Hid; cbn [orThrow bind];
      [|apply Hsame; split; reflexivity].
    destruct (findOne _ _); [apply Hsame; split; reflexivity|].
    cbn [bind orThrow]. exact (Hmain oid eq_refl).
Qed.
End UserUpdate.

Lemma put_user_refuses_taken_name_witness :
  put_user publicProfile (fun _ => true) (fun e => e) (fun _ => true)
           Sample.db Sample.now Sample.bob_id
           (mkUserBody None (Some "carol@example.com") None None)
  = (status_json 400 (message "Username or email already exists"), Sample.db).
Proof.
  apply (put_user_refuses_taken_name publicProfile (fun _ => true)
           (fun e => e) (fun _ => true) Sample.db Sample.now Sample.bob_id
           Sample.bob_id
           (mkUserBody None (Some "carol@example.com") None None)
           Sample.carol);
    try (vm_compute; reflexivity).
  - right. right. now left.
  - vm_compute. discriminate.
  - right. exists "carol@example.com". repeat split. discriminate.
Defined.

Lemma In_updateOne {A : Type} (key : A -> ObjectId) (oid : ObjectId)
  (g : A -> A) (l : list A) (y : A) :
  In y (updateOne key oid g l) ->
  In y l \/ exists a, In a l /\ key a = oid /\ y = g a.
Proof.
  induction l as [|a r IH]; [contradiction|]. cbn.
  destruct (String.eqb (key a) oid) eqn:E.
  - apply String.eqb_eq in E. intros [<-|Hin].
    + right. exists a. auto.
    + left. now right.
  - intros [<-|Hin]; [left; now left|].
    destruct (IH Hin) as [H|(b & Hb & Hk & ->)]; [left; now right|].
    right. exists b. auto.
Qed.

Lemma NoDup_map_eq {A B : Type} (f : A -> B) (l : list A) (a b : A) :
  NoDup (map f l) -> In a l -> In b l -> f a = f b -> a = b.
Proof.
  induction l as [|c r IH]; [contradiction|]. cbn. intros H.
  inversion H as [|? ? Hnot Hnd]; subst.
  intros [->|Ha] [->|Hb] Hf; try reflexivity.
  - exfalso. apply Hnot. rewrite Hf. now apply in_map.
  - exfalso. apply Hnot. rewrite <- Hf. now apply in_map.
  - now apply IH.
Qed.

Lemma NoDup_map_updateOne {A B : Type} (key : A -> ObjectId) (f : A -> B)
  (oid : ObjectId) (g : A -> A) (l : list A) :
  NoDup (map key l) ->
  NoDup (map f l) ->
  (forall a b, In a l -> In b l -> key a = oid -> key b <> oid ->
               f (g a) <> f b) ->
  NoDup (map f (updateOne key oid g l)).
Proof.
  induction l as [|a r IH]; [constructor|]. cbn. intros Hk Hf H.
  inversion Hk as [|? ? Hknot Hknd]; subst.
  inversion Hf as [|? ? Hfnot Hfnd]; subst.
  destruct (String.eqb (key a) oid) eqn:E; cbn.
  - apply String.eqb_eq in E. constructor; [|exact Hfnd].
    intros Hin. apply in_map_iff in Hin. destruct Hin as (b & Hfb & Hb).
    apply (H a b); auto.
    intros Hkb. apply Hknot. rewrite E, <- Hkb. now apply in_map.
  - apply String.eqb_neq in E. constructor.
    + intros Hin. apply in_map_iff in Hin. destruct Hin as (y & Hfy & Hy).
      destruct (In_updateOne _ _ _ _ _ Hy) as [Hyr|(b & Hb & Hkb & ->)].
      * apply Hfnot. rewrite <- Hfy. now apply in_map.
      * apply (H b a); auto.
    + apply IH; auto.
Qed.

Lemma map_key_updateOne {A : Type} (key : A -> ObjectId) (oid : ObjectId)
  (g : A -> A) (l : list A) :
  (forall a, key (g a) = key a) ->
  map key (updateOne key oid g l) = map key l.
Proof.
  intros Hg. induction l as [|a r IH]; [reflexivity|]. cbn.
  destruct (String.eqb (key a) oid); cbn; [now rewrite Hg|now rewrite IH].
Qed.

Section UserNames.
Variable getPublicProfile : User.t -> JSON.
Variable isEmail : string -> bool.
Variable normalizeEmail : string -> string.
Variable userSchemaAccepts : UserBody -> bool.

Lemma validated_username (ub : UserBody) (n : string) :
  validate_user isEmail ub = [] -> ub_username ub = Some n -> n <> "".
Proof.
  unfold validate_user. intros H Hn. apply app_eq_nil in H.
  destruct H as [H _]. rewrite Hn in H. unfold optional in H.
  destruct ((3 <=? strlen n) && (strlen n <=? 30)) eqn:E; [|discriminate].
  intros ->. discriminate.
Qed.

(** The uniqueness check does its work: in a store where identifiers,
    usernames and addresses are each pairwise distinct, they still are
    after [PUT /api/users/:id], whatever the request (for an address that
    does not normalize to the empty string). *)
Theorem put_user_keeps_names_distinct (db : Db) (now : Date) (id : string)
  (ub : UserBody) :
  NoDup (map User._id (users db)) ->
  NoDup (map User.username (users db)) ->
  NoDup (map User.email (users db)) ->
  (forall e, ub_email ub = Some e -> normalizeEmail e <> "") ->
  NoDup (map User._id
           (users (snd (put_user getPublicProfile isEmail normalizeEmail
                          userSchemaAccepts db now id ub))))
  /\ NoDup (map User.username
              (users (snd (put_user getPublicProfile isEmail normalizeEmail
                             userSchemaAccepts db now id ub))))
  /\ NoDup (map User.email
              (users (snd (put_user getPublicProfile isEmail normalizeEmail
                             userSchemaAccepts db now id ub)))).
Proof.
  intros Hids Hnames Hmails Hmail.
  unfold put_user. cbv zeta.
  destruct (validate_user isEmail ub) eqn:Hv; cbn [isEmpty]; [|auto].
  set (updates := sanitize_user normalizeEmail ub).
  assert (Hmain :
    forall oid,
      (isEmpty (taken_by updates) = true
       \/ findOne [U_or (taken_by updates); U_id_ne oid] (users db) = None) ->
      let us := updateOne User._id oid (apply_user_update now updates)
                          (users db) in
      NoDup (map User._id us) /\ NoDup (map User.username us)
      /\ NoDup (map User.email us)).
  { intros oid Hfree. cbv zeta.
    assert (Hnot : forall b f, In b (users db) -> User._id b <> oid ->
                     In f (taken_by updates) -> matchesUser f b = false).
    { intros b f Hb Hbo Hf. destruct Hfree as [He|Hnone].
      - destruct (taken_by updates); [contradiction|discriminate].
      - unfold findOne in Hnone.
        pose proof (find_none _ _ Hnone b Hb) as Hfb. cbn in Hfb.
        apply String.eqb_neq in Hbo. rewrite Hbo in Hfb. cbn in Hfb.
        rewrite !andb_true_r in Hfb.
        destruct (matchesUser f b) eqn:Em; [|reflexivity].
        assert (existsb (fun g => matchesUser g b) (taken_by updates) = true)
          by (apply existsb_exists; now exists f).
        congruence. }
    split; [|split].
    - rewrite map_key_updateOne; [exact Hids|reflexivity].
    - apply NoDup_map_updateOne; [exact Hids|exact Hnames|].
      intros a b Ha Hb Hka Hkb. cbn [apply_user_update User.username].
      unfold updates. cbn [sanitize_user ub_username].
      destruct (ub_username ub) as [n|] eqn:Hn; cbn [orElse].
      + pose proof (validated_username ub n Hv Hn) as Hn0.
        intros Heq.
        assert (Hin : In (U_username n) (taken_by updates)).
        { unfold taken_by, updates. cbn [sanitize_user ub_username].
          rewrite Hn, (truthy_nonempty n Hn0). apply in_or_app. right.
          now left. }
        pose proof (Hnot b _ Hb Hkb Hin) as Hm. cbn in Hm.
        rewrite <- Heq, String.eqb_refl in Hm. discriminate.
      + intros Heq.
        pose proof (NoDup_map_eq _ _ a b Hnames Ha Hb Heq). congruence.
    - apply NoDup_map_updateOne; [exact Hids|exact Hmails|].
      intros a b Ha Hb Hka Hkb. cbn [apply_user_update User.email].
      unfold updates. cbn [sanitize_user ub_email].
      destruct (ub_email ub) as [e|] eqn:He; cbn [option_map orElse].
      + pose proof (Hmail e eq_refl) as He0.
        intros Heq.
        assert (Hin : In (U_email (normalizeEmail e)) (taken_by updates)).
        { unfold taken_by, updates. cbn [sanitize_user ub_email].
          rewrite He. cbn [option_map]. rewrite (truthy_nonempty _ He0).
          apply in_or_app. left. now left. }
        pose proof (Hnot b _ Hb Hkb Hin) as Hm. cbn in Hm.
        rewrite <- Heq, String.eqb_refl in Hm. discriminate.
      + intros Heq.
        pose proof (NoDup_map_eq _ _ a b Hmails Ha Hb Heq). congruence. }
  destruct (isEmpty (taken_by updates)) eqn:Hempty; cbn [bind].
  - destruct (castObjectId id) as [oid|]; cbn [orThrow bind]; [|auto].
    destruct (userSchemaAccepts updates); cbn [bind]; [|auto].
    destruct (findById User._id oid (updateOne _ _ _ _)); [|auto].
    cbn [catch_id_write snd users with_users]. apply Hmain. now left.
  - destruct (castObjectId id) as [oid|]; cbn [orThrow bind]; [|auto].
    destruct (findOne _ _) eqn:Hnone; [auto|]. cbn [bind orThrow].
    destruct (userSchemaAccepts updates); cbn [bind]; [|auto].
    destruct (findById User._id oid (updateOne _ _ _ _)); [|auto].
    cbn [catch_id_write snd users with_users]. apply Hmain. now right.
Qed.

End UserNames.

Lemma put_user_keeps_names_distinct_witness :
  NoDup (map User.username
           (users (snd (put_user publicProfile (fun _ => true) (fun e => e)
                          (fun _ => true) Sample.db Sample.now Sample.bob_id
                          renameBody)))).
Proof.
  apply (put_user_keeps_names_distinct publicProfile (fun _ => true)
           (fun e => e) (fun _ => true) Sample.db Sample.now Sample.bob_id
           renameBody);
    try (repeat constructor; cbn; intuition discriminate).
Defined.


(** ** Users deleted, tasks kept *)

(** [DELETE /api/users/:id] writes no task and no other user: whatever the
    request, the task collection is the one before, the tasks the deleted
    user created or was assigned included, and every user under another
    identifier is the user it was. *)
Theorem delete_user_touches_one_user (db : Db) (reqUser : User.t)
  (id : string) :
  tasks (snd (delete_user db reqUser id)) = tasks db
  /\ forall oid', castObjectId id <> Some oid' ->
       findById User._id oid' (users (snd (delete_user db reqUser id)))
       = findById User._id oid' (users db).
Proof.
  unfold delete_user.
  destruct (castObjectId id) as [oid|]; cbn [orThrow bind];
    [|split; reflexivity].
  destruct (findById User._id oid (users db)); [|split; reflexivity].
  destruct (negb _); [|split; reflexivity].
  cbn [catch_id_write snd tasks users with_users].
  split; [reflexivity|]. intros oid' Hne.
  apply findById_deleteOne_other. congruence.
Qed.

(** ** Pages, newest first *)

Section PageFacts.
Context {A : Type} (createdAt : A -> Date).

Lemma insert_desc_newest_first (a : A) (l : list A) :
  newest_first createdAt l -> newest_first createdAt (insert_desc createdAt a l).
Proof.
  induction l as [|b r IH]; cbn [insert_desc newest_first].
  - intros _. split; [contradiction|exact I].
  - intros [Hb Hr]. destruct (createdAt b <? createdAt a) eqn:E.
    + apply Z.ltb_lt in E. cbn [newest_first]. split; [|split; assumption].
      intros x [<-|Hx]; [lia|]. specialize (Hb x Hx). lia.
    + apply Z.ltb_ge in E. cbn [newest_first]. split; [|now apply IH].
      intros x Hx. apply insert_desc_In in Hx. destruct Hx as [->|Hx];
        [exact E|now apply Hb].
Qed.

Lemma sort_desc_newest_first (l : list A) :
  newest_first createdAt (sort_desc createdAt l).
Proof.
  unfold sort_desc. induction l as [|a r IH]; [exact I|].
  cbn [fold_right]. now apply insert_desc_newest_first.
Qed.

Lemma In_skipn (n : nat) (l : list A) (x : A) : In x (skipn n l) -> In x l.
Proof.
  intros H. rewrite <- (firstn_skipn n l). apply in_or_app. now right.
Qed.

Lemma In_firstn (n : nat) (l : list A) (x : A) : In x (firstn n l) -> In x l.
Proof.
  intros H. rewrite <- (firstn_skipn n l). apply in_or_app. now left.
Qed.

Lemma skipn_newest_first (n : nat) (l : list A) :
  newest_first createdAt l -> newest_first createdAt (skipn n l).
Proof.
  revert l. induction n as [|n IH]; intros l H; [exact H|].
  destruct l as [|a r]; [exact I|]. cbn [skipn]. apply IH. exact (proj2 H).
Qed.

Lemma firstn_newest_first (n : nat) (l : list A) :
  newest_first createdAt l -> newest_first createdAt (firstn n l).
Proof.
  revert l. induction n as [|n IH]; intros l H; [exact I|].
  destruct l as [|a r]; [exact I|]. cbn [firstn newest_first].
  destruct H as [Ha Hr]. split; [|now apply IH].
  intros b Hb. apply Ha. exact (In_firstn _ _ _ Hb).
Qed.

(** [.sort({ createdAt: -1 }).skip((page - 1) * limit).limit(limit)] for a
    page and a limit of at least 1: the page holds at most [limit]
    documents, newest first; its document at place [j] is the one at place
    [(page - 1) * limit + j] of all the matching documents put newest
    first, so every matching document is on exactly the page its rank
    gives and on no other, and a page past the last is empty. *)
Theorem page_of_positions (page lim : Z) (l : list A) :
  1 <= page ->
  1 <= lim ->
  exists items,
    page_of createdAt page lim l = Next items
    /\ Z.of_nat (List.length items) <= lim
    /\ newest_first createdAt items
    /\ (forall j, (j < Z.to_nat lim)%nat ->
          nth_error items j
          = nth_error (sort_desc createdAt l)
                      (Z.to_nat ((page - 1) * lim) + j))
    /\ newest_first createdAt (sort_desc createdAt l)
    /\ List.length (sort_desc createdAt l) = List.length l
    /\ (forall x, In x (sort_desc createdAt l) <-> In x l)
    /\ (Z.of_nat (List.length l) <= (page - 1) * lim -> items = []).
Proof.
  intros Hp Hl.
  exists (paged createdAt page lim l).
  split; [apply page_of_paged; nia|].
  unfold paged, limit. rewrite Z.abs_eq by lia.
  split; [|split; [|split; [|split; [|split; [|split]]]]].
  - pose proof (firstn_le_length (Z.to_nat lim)
                  (skipn (Z.to_nat ((page - 1) * lim)) (sort_desc createdAt l))).
    lia.
  - apply firstn_newest_first, skipn_newest_first, sort_desc_newest_first.
  - intros j Hj. rewrite nth_error_firstn.
    apply Nat.ltb_lt in Hj. rewrite Hj. apply nth_error_skipn.
  - apply sort_desc_newest_first.
  - apply sort_desc_length.
  - intros x. apply sort_desc_In.
  - intros Hpast. rewrite skipn_all2; [now destruct (Z.to_nat lim)|].
    rewrite sort_desc_length. lia.
Qed.
End PageFacts.

Lemma page_of_positions_witness :
  exists items,
    page_of Task.createdAt 2 2 (tasks Sample.db) = Next items
    /\ Z.of_nat (List.length items) <= 2
    /\ newest_first Task.createdAt items
    /\ (forall j, (j < Z.to_nat 2)%nat ->
          nth_error items j
          = nth_error (sort_desc Task.createdAt (tasks Sample.db))
                      (Z.to_nat ((2 - 1) * 2) + j))
    /\ newest_first Task.createdAt (sort_desc Task.createdAt (tasks Sample.db))
    /\ List.length (sort_desc Task.createdAt (tasks Sample.db))
       = List.length (tasks Sample.db)
    /\ (forall x, In x (sort_desc Task.createdAt (tasks Sample.db))
                  <-> In x (tasks Sample.db))
    /\ (Z.of_nat (List.length (tasks Sample.db)) <= (2 - 1) * 2 -> items = []).
Proof.
  apply (page_of_positions Task.createdAt 2 2 (tasks Sample.db)); lia.
Defined.

(** ** The public list *)

(** [GET /api/tasks/public] shows public tasks and nothing else, to anyone:
    every task on the page is a public task of the store, and [total] is
    the number of public tasks. *)
Theorem public_list_is_public (db : Db) (now : Date) (q : ListQuery) :
  0 <= (orDefault (q_page q) 1 - 1) * orDefault (q_limit q) 10 ->
  exists found,
    get_public_tasks db now q
    = paginated "tasks"
        (map (fun x => taskJSON now (populate_createdBy db x)) found)
        (orDefault (q_page q) 1) (orDefault (q_limit q) 10)
        (Z.of_nat (List.length (filter Task.isPublic (tasks db))))
    /\ (forall x, In x found -> In x (tasks db) /\ Task.isPublic x = true)
    /\ (orDefault (q_page q) 1 = 1 ->
        Z.of_nat (List.length (filter Task.isPublic (tasks db)))
        <= orDefault (q_limit q) 10 ->
        forall x, In x (tasks db) -> Task.isPublic x = true -> In x found).
Proof.
  intros Hskip.
  assert (Hf : find_tasks [F_isPublic true] (tasks db)
               = filter Task.isPublic (tasks db)).
  { unfold find_tasks. apply filter_ext. intros x. cbn.
    destruct (Task.isPublic x); reflexivity. }
  exists (paged Task.createdAt (orDefault (q_page q) 1)
            (orDefault (q_limit q) 10) (filter Task.isPublic (tasks db))).
  split; [|split].
  - unfold get_public_tasks. cbv zeta. rewrite (page_of_paged _ _ _ _ Hskip).
    unfold countDocuments. rewrite Hf. reflexivity.
  - intros x Hx. apply paged_In in Hx. now apply filter_In in Hx.
  - intros Hpage Hlen x Hx Hpub. rewrite Hpage.
    apply paged_all; [exact Hlen|]. apply filter_In. now split.
Qed.

Lemma public_list_is_public_witness :
  exists found,
    get_public_tasks Sample.db Sample.now (mkQuery None None None None None)
    = paginated "tasks"
        (map (fun x => taskJSON Sample.now (populate_createdBy Sample.db x))
             found)
        1 10 (Z.of_nat (List.length (filter Task.isPublic (tasks Sample.db))))
    /\ (forall x, In x found ->
                  In x (tasks Sample.db) /\ Task.isPublic x = true)
    /\ (1 = 1 ->
        Z.of_nat (List.length (filter Task.isPublic (tasks Sample.db))) <= 10 ->
        forall x, In x (tasks Sample.db) -> Task.isPublic x = true ->
                  In x found).
Proof.
  apply (public_list_is_public Sample.db Sample.now
           (mkQuery None None None None None)).
  vm_compute. discriminate.
Defined.

(** ** Assigning a task *)

Lemma validate_set_assignedTo (now : Date) (a : option ObjectId) (x : Task.t) :
  Task.validate now (Task.set_assignedTo a x) = Task.validate now x.
Proof. reflexivity. Qed.

(** [assignTo] hands the task over and touches nothing of its status: on a
    stored task that passes the validators, it stores the task with the new
    assignee and the status, [completedAt] and creator it had (the hook
    does not fire), and the new assignee may then set the status. *)
Theorem assignTo_keeps_status (now : Date) (userId : ObjectId) (x : Task.t)
  (ts : list Task.t) :
  Task.validate now x = true ->
  findById Task._id (Task._id x) ts = Some x ->
  exists ts' x',
    assignTo now userId (hydrate x) ts = Next ts'
    /\ findById Task._id (Task._id x) ts' = Some x'
    /\ Task.assignedTo x' = Some userId
    /\ Task.status x' = Task.status x
    /\ Task.completedAt x' = Task.completedAt x
    /\ Task.createdBy x' = Task.createdBy x
    /\ (forall user, User._id user = userId -> may_set_status user x' = true)
    /\ (forall oid', oid' <> Task._id x ->
          findById Task._id oid' ts' = findById Task._id oid' ts).
Proof.
  intros Hval Hx. unfold assignTo, save.
  cbn [fields hydrate modified_status modified_other].
  rewrite validate_set_assignedTo, Hval. cbv zeta.
  unfold preSave, timestampsPreSave, isModified.
  cbn [modified_status modified_other orb andb fields].
  match goal with
  | |- context [if ?c then mkDoc ?u _ _ else ?d] =>
      destruct c; cbn [modified_status fields andb]
  end.
  - eexists. eexists. split; [reflexivity|].
    cbn [Task._id Task.set_updatedAt Task.set_assignedTo].
    rewrite findById_updateOne by (intros; reflexivity).
    rewrite Hx. cbn [option_map]. split; [reflexivity|].
    cbn. repeat split.
    + intros user <-. unfold may_set_status. cbn.
      rewrite String.eqb_refl. cbn. now rewrite andb_false_r.
    + intros oid' Hne. now apply findById_updateOne_other.
  - eexists. eexists. split; [reflexivity|].
    cbn [Task._id Task.set_assignedTo].
    rewrite findById_updateOne by (intros; reflexivity).
    rewrite Hx. cbn [option_map]. split; [reflexivity|].
    cbn. repeat split.
    + intros user <-. unfold may_set_status. cbn.
      rewrite String.eqb_refl. cbn. now rewrite andb_false_r.
    + intros oid' Hne. now apply findById_updateOne_other.
Qed.

Lemma assignTo_keeps_status_witness :
  exists ts' x',
    assignTo Sample.now Sample.carol_id (hydrate Sample.t3) (tasks Sample.db)
    = Next ts'
    /\ findById Task._id (Task._id Sample.t3) ts' = Some x'
    /\ Task.assignedTo x' = Some Sample.carol_id
    /\ Task.status x' = Task.status Sample.t3
    /\ Task.completedAt x' = Task.completedAt Sample.t3
    /\ Task.createdBy x' = Task.createdBy Sample.t3
    /\ (forall user, User._id user = Sample.carol_id ->
                     may_set_status user x' = true)
    /\ (forall oid', oid' <> Task._id Sample.t3 ->
          findById Task._id oid' ts'
          = findById Task._id oid' (tasks Sample.db)).
Proof.
  apply (assignTo_keeps_status Sample.now Sample.carol_id Sample.t3
           (tasks Sample.db));
    vm_compute; reflexivity.
Defined.
